(** * Provider adapters, turn engine and tool executor of gemini-cli

    A shallow embedding of

    - [packages/core/src/adapters/openaiCompatibleContentGenerator.ts]
    - [packages/core/src/adapters/anthropicContentGenerator.ts]
    - [packages/core/src/adapters/azureContentGenerator.ts]
    - [packages/core/src/adapters/index.ts]
    - [packages/core/src/core/turn.ts]
    - [packages/core/src/core/nonInteractiveToolExecutor.ts]
    - [packages/core/src/core/contentGenerator.ts]

    and of the validation of authentication methods of the command line
    interface and the table of Claude models.

    Async generators are modelled by the list of values they yield, thrown
    exceptions by an explicit result type, JavaScript [Map]s that are
    iterated by insertion-ordered association lists, and [Map]s that are only
    looked up by [gmap].  The built-ins of the JavaScript runtime
    ([JSON.parse], [JSON.stringify], [String]) are the members of a class,
    the clock and the random source ([Date.now], [Math.random]) and the
    helpers of other files are section variables; a small concrete JSON
    reader is provided to run the model on concrete wire text.

    A JavaScript string is modelled by the sequence of its code units,
    one character of [string] for each; the characters of [string] are
    the code units below 256, so the strings of the model are those of
    Latin-1 text, and the length of a string is the number of its code
    units. *)

From Stdlib Require Import String Ascii List ZArith NArith Lia Bool.
From Stdlib Require Import DecimalString DecimalN.
From stdpp Require Import base option list strings gmap.

Local Open Scope string_scope.
Local Open Scope list_scope.
Local Open Scope Z_scope.

(* ===================================================================== *)
(** * JavaScript values and helpers *)
(* ===================================================================== *)

Module JS.

(** The result of a computation that may [throw]. *)
Inductive exc (E A : Type) : Type :=
| Throw (e : E)
| Ok (a : A).
Arguments Throw {E A} e.
Arguments Ok {E A} a.

(** JSON documents, as [JSON.parse] returns them.  Numbers are kept at
    integer precision, which is all the wire formats below use
    (indices and token counts). *)
#[warnings="-register-all"]
Inductive json : Type :=
| JNull
| JBool (b : bool)
| JNum (n : Z)
| JStr (s : string)
| JArr (items : list json)
| JObj (fields : list (string * json)).

(** The empty object literal [{}]. *)
Definition empty_object : json := JObj [].

(** The double-quote character, and a string wrapped in double quotes. *)
Definition dq : ascii := ascii_of_nat 34.
Definition dqs : string := String dq EmptyString.
Definition quoted (s : string) : string := dqs +:+ s +:+ dqs.

(** Truthiness of a string ([''] is falsy). *)
Definition truthy_str (s : string) : bool :=
  match s with EmptyString => false | String _ _ => true end.

(** Truthiness of an optional string ([undefined] and [''] are falsy). *)
Definition truthy_ostr (o : option string) : bool :=
  match o with Some s => truthy_str s | None => false end.

(** Truthiness of a JSON value. *)
Definition truthy (j : json) : bool :=
  match j with
  | JNull => false
  | JBool b => b
  | JNum n => negb (n =? 0)
  | JStr s => truthy_str s
  | JArr _ | JObj _ => true
  end.

(** [a || b] on optional strings with a string default. *)
Definition or_str (o : option string) (d : string) : string :=
  match o with
  | Some s => if truthy_str s then s else d
  | None => d
  end.

(** [a || b] on optional numbers with a numeric default
    ([undefined] and [0] are falsy). *)
Definition or_num (o : option Z) (d : Z) : Z :=
  match o with
  | Some n => if n =? 0 then d else n
  | None => d
  end.

(** An optional string spliced into a template literal or appended to a
    string: [undefined] is rendered as such. *)
Definition spliced (o : option string) : string :=
  match o with Some s => s | None => "undefined" end.

(** [s.startsWith(p)]. *)
Definition startsWith (p s : string) : bool := String.prefix p s.

(** [s.slice(n)] for [0 <= n]. *)
Fixpoint slice (n : nat) (s : string) : string :=
  match n, s with
  | O, _ => s
  | S _, EmptyString => EmptyString
  | S n', String _ r => slice n' r
  end.

(** [s.split(c)] for a one-character separator: never the empty list. *)
Fixpoint split (c : ascii) (s : string) : list string :=
  match s with
  | EmptyString => [EmptyString]
  | String a r =>
      if Ascii.eqb a c then EmptyString :: split c r
      else match split c r with
           | [] => [String a EmptyString]
           | w :: ws => String a w :: ws
           end
  end.

(** [l.join(sep)]. *)
Definition join (sep : string) (l : list string) : string :=
  String.concat sep l.

(** The newline character. *)
Definition nl : ascii := ascii_of_nat 10.
Definition nls : string := String nl EmptyString.

(** Decimal rendering of a non-negative integer, as template literals
    and [String] render integral numbers. *)
Definition dec_N (n : N) : string :=
  NilEmpty.string_of_uint (N.to_uint n).

Definition dec_Z (z : Z) : string :=
  match z with
  | Z0 => "0"
  | Zpos p => dec_N (Npos p)
  | Zneg p => "-" +:+ dec_N (Npos p)
  end.

(** ** JavaScript [Map] with string keys, iterated in insertion order *)

Section OrderedMap.
Context {V : Type}.

Definition Map := list (string * V).

Definition Map_empty : Map := [].

Fixpoint Map_get (k : string) (m : Map) : option V :=
  match m with
  | [] => None
  | (k', v) :: r => if String.eqb k k' then Some v else Map_get k r
  end.

Definition Map_has (k : string) (m : Map) : bool :=
  match Map_get k m with Some _ => true | None => false end.

(** [m.set(k, v)]: an existing key keeps its position, a new key goes
    last. *)
Fixpoint Map_set (k : string) (v : V) (m : Map) : Map :=
  match m with
  | [] => [(k, v)]
  | (k', v') :: r =>
      if String.eqb k k' then (k', v) :: r else (k', v') :: Map_set k v r
  end.

Definition Map_size (m : Map) : nat := length m.

(** [Array.from(m.values())]. *)
Definition Map_values (m : Map) : list V := map snd m.
End OrderedMap.
Arguments Map V : clear implicits.

(** ** Reading a parsed document at the type the code expects

    A member that is missing, [null], or of another JSON type than the one
    the code uses it at is read as absent.  The code itself tests such a
    member for truthiness and then uses it as it is; the readers give
    what the code uses on the documents in which a member read as a
    string or as a number has that type or is falsy, which are the
    documents of the wire formats. *)

(** The value of the member [k]; when the key is repeated the last
    member counts, as in the object [JSON.parse] builds. *)
Fixpoint assoc (k : string) (fs : list (string * json)) : option json :=
  match fs with
  | [] => None
  | (k', v) :: r =>
      match assoc k r with
      | Some later => Some later
      | None => if String.eqb k k' then Some v else None
      end
  end.

Definition member (k : string) (j : json) : option json :=
  match j with JObj fs => assoc k fs | _ => None end.

Definition as_str (o : option json) : option string :=
  match o with Some (JStr s) => Some s | _ => None end.

Definition as_num (o : option json) : option Z :=
  match o with Some (JNum n) => Some n | _ => None end.

Definition as_arr (o : option json) : option (list json) :=
  match o with Some (JArr l) => Some l | _ => None end.

(** A member used as an object: absent when missing or falsy. *)
Definition as_obj (o : option json) : option json :=
  match o with
  | Some j => if truthy j then Some j else None
  | None => None
  end.

(** [s.trim()].  It strips the white space and the line terminators of
    ECMAScript; among the code units a string holds here (see the
    head of the file) these are the tab, the line feed, the vertical
    tab, the form feed and the carriage return (9 to 13), the space (32)
    and the no-break space (160). *)
Definition is_space_char (c : ascii) : bool :=
  let n := nat_of_ascii c in
  (Nat.eqb n 32 || Nat.eqb n 160 || ((Nat.leb 9 n) && (Nat.leb n 13)))%bool.

Fixpoint trimStart (s : string) : string :=
  match s with
  | String c r => if is_space_char c then trimStart r else s
  | EmptyString => s
  end.

Definition trim (s : string) : string :=
  String.rev (trimStart (String.rev (trimStart s))).

(** The first occurrence of [p] in [s]: the text before it and the text
    after it. *)
Fixpoint cut (p s : string) : option (string * string) :=
  if startsWith p s then Some (EmptyString, slice (String.length p) s)
  else match s with
       | EmptyString => None
       | String c r =>
           match cut p r with
           | Some (a, b) => Some (String c a, b)
           | None => None
           end
       end.

(** ** A concrete JSON reader

    A recursive-descent reader for the JSON subset the wire formats use:
    objects, arrays, strings with the simple backslash escapes, integer
    numbers, [true], [false] and [null].  [None] stands for the
    [SyntaxError] that [JSON.parse] throws.  An object keeps its members
    in the order of the text. *)

Definition is_ws (c : ascii) : bool :=
  Ascii.eqb c " " || Ascii.eqb c nl
  || Ascii.eqb c (ascii_of_nat 9) || Ascii.eqb c (ascii_of_nat 13).

Fixpoint skip_ws (s : string) : string :=
  match s with
  | String c r => if is_ws c then skip_ws r else s
  | EmptyString => s
  end.

Definition digit_of (c : ascii) : option Z :=
  let n := Z.of_nat (nat_of_ascii c) in
  if (48 <=? n) && (n <=? 57) then Some (n - 48) else None.

Fixpoint read_digits (acc : Z) (s : string) : Z * string :=
  match s with
  | String c r =>
      match digit_of c with
      | Some d => read_digits (10 * acc + d) r
      | None => (acc, s)
      end
  | EmptyString => (acc, s)
  end.

Definition read_number (s : string) : option (Z * string) :=
  match s with
  | String c r =>
      match digit_of c with
      | Some _ => Some (read_digits 0 s)
      | None => None
      end
  | EmptyString => None
  end.

Definition bslash : ascii := ascii_of_nat 92.

Definition unescape (c : ascii) : option ascii :=
  if Ascii.eqb c dq then Some dq
  else if Ascii.eqb c bslash then Some c
  else if Ascii.eqb c "/" then Some c
  else if Ascii.eqb c "n" then Some nl
  else if Ascii.eqb c "t" then Some (ascii_of_nat 9)
  else if Ascii.eqb c "r" then Some (ascii_of_nat 13)
  else if Ascii.eqb c "b" then Some (ascii_of_nat 8)
  else if Ascii.eqb c "f" then Some (ascii_of_nat 12)
  else None.

(** The characters after an opening quote, up to the closing one. *)
Fixpoint read_string (s : string) : option (string * string) :=
  match s with
  | EmptyString => None
  | String c r =>
      if Ascii.eqb c dq then Some (EmptyString, r)
      else if Ascii.eqb c bslash then
        match r with
        | String e r' =>
            match unescape e, read_string r' with
            | Some a, Some (w, rest) => Some (String a w, rest)
            | _, _ => None
            end
        | EmptyString => None
        end
      else if (Z.of_nat (nat_of_ascii c) <? 32) then None
      else match read_string r with
           | Some (w, rest) => Some (String c w, rest)
           | None => None
           end
  end.

Fixpoint read_value (fuel : nat) (s : string) : option (json * string) :=
  match fuel with
  | O => None
  | S fuel' =>
      match skip_ws s with
      | EmptyString => None
      | String c r =>
          if Ascii.eqb c "{" then
            match skip_ws r with
            | String "}" r' => Some (JObj [], r')
            | _ => match read_members fuel' r with
                   | Some (fs, rest) => Some (JObj fs, rest)
                   | None => None
                   end
            end
          else if Ascii.eqb c "[" then
            match skip_ws r with
            | String "]" r' => Some (JArr [], r')
            | _ => match read_elements fuel' r with
                   | Some (l, rest) => Some (JArr l, rest)
                   | None => None
                   end
            end
          else if Ascii.eqb c dq then
            match read_string r with
            | Some (w, rest) => Some (JStr w, rest)
            | None => None
            end
          else if Ascii.eqb c "-" then
            match read_number r with
            | Some (n, rest) => Some (JNum (- n), rest)
            | None => None
            end
          else if startsWith "true" (String c r) then
            Some (JBool true, slice 4 (String c r))
          else if startsWith "false" (String c r) then
            Some (JBool false, slice 5 (String c r))
          else if startsWith "null" (String c r) then
            Some (JNull, slice 4 (String c r))
          else
            match read_number (String c r) with
            | Some (n, rest) => Some (JNum n, rest)
            | None => None
            end
      end
  end
with read_elements (fuel : nat) (s : string) : option (list json * string) :=
  match fuel with
  | O => None
  | S fuel' =>
      match read_value fuel' s with
      | Some (v, rest) =>
          match skip_ws rest with
          | String "," r =>
              match read_elements fuel' r with
              | Some (l, rest') => Some (v :: l, rest')
              | None => None
              end
          | String "]" r => Some ([v], r)
          | _ => None
          end
      | None => None
      end
  end
with read_members (fuel : nat) (s : string)
  : option (list (string * json) * string) :=
  match fuel with
  | O => None
  | S fuel' =>
      match skip_ws s with
      | String c r =>
          if Ascii.eqb c dq then
            match read_string r with
            | Some (k, rest) =>
                match skip_ws rest with
                | String ":" r1 =>
                    match read_value fuel' r1 with
                    | Some (v, rest1) =>
                        match skip_ws rest1 with
                        | String "," r2 =>
                            match read_members fuel' r2 with
                            | Some (fs, rest2) => Some ((k, v) :: fs, rest2)
                            | None => None
                            end
                        | String "}" r2 => Some ([(k, v)], r2)
                        | _ => None
                        end
                    | None => None
                    end
                | _ => None
                end
            | None => None
            end
          else None
      | EmptyString => None
      end
  end.

Definition parse_json (s : string) : option json :=
  match read_value (2 * String.length s + 2) s with
  | Some (v, rest) =>
      match skip_ws rest with
      | EmptyString => Some v
      | String _ _ => None
      end
  | None => None
  end.

End JS.
Export JS.


(** The built-ins of the JavaScript runtime the adapters call.
    [JSON_parse] returns [None] where [JSON.parse] throws;
    [JSON_stringify_indent j] is [JSON.stringify(j, null, 2)]. *)
Class JSRuntime (PartT : Type) := {
  JSON_parse : string -> option json;
  JSON_stringify : json -> string;
  JSON_stringify_indent : json -> string;
  JSON_stringify_part : PartT -> string;
  JS_String : json -> string;
}.

(* ===================================================================== *)
(** * The unified message model ([@google/genai] types, as used here) *)
(* ===================================================================== *)

Module Genai.

Record FunctionCall := {
  fc_id : option string;
  fc_name : option string;
  fc_args : option json;
}.

Record FunctionResponse := {
  fr_id : option string;
  fr_name : option string;
  fr_response : option json;
}.

(** A [Part]; a field is [Some] exactly when the key is in the object. *)
Record Part := {
  text : option string;
  thought : option bool;
  functionCall : option FunctionCall;
  functionResponse : option FunctionResponse;
  inlineData : option json;
}.

Definition text_part (t : string) : Part :=
  {| text := Some t; thought := None; functionCall := None;
     functionResponse := None; inlineData := None |}.

Record Content := {
  role : option string;
  parts : option (list Part);
}.

Record Candidate := {
  content : option Content;
  finishReason : option string;
  index : Z;
}.

Record UsageMetadata := {
  promptTokenCount : Z;
  candidatesTokenCount : Z;
  totalTokenCount : Z;
}.

(** The fields of a response the adapters fill in ([data],
    [executableCode] and [codeExecutionResult] are always [undefined]). *)
Record GenerateContentResponse := {
  candidates : option (list Candidate);
  usageMetadata : option UsageMetadata;
  response_text : option string;
  functionCalls : option (list FunctionCall);
}.

Record FunctionDeclaration := {
  fd_name : option string;
  fd_description : option string;
  fd_parameters : option json;
}.

Record Tool := {
  functionDeclarations : option (list FunctionDeclaration);
}.

(** The part of [GenerateContentConfig] the adapters read (the sampling
    parameters [temperature] and [topP] are floating point numbers that
    are copied through with a default and are left out). *)
Record GenerateContentConfig := {
  responseMimeType : option string;
  responseSchema : option json;
  maxOutputTokens : option Z;
  tools : option (list Tool);
}.

(** [ContentListUnion]: what a request may carry as [contents]. *)
Inductive ContentItem :=
| ItemContent (c : Content)
| ItemPart (p : Part)
| ItemString (s : string).

Inductive ContentListUnion :=
| ContentsMissing
| ContentsArray (items : list ContentItem)
| ContentsSingle (c : Content)
| ContentsString (s : string)
| ContentsPart (p : Part).

Record GenerateContentParameters := {
  model : option string;
  contents : ContentListUnion;
  config : option GenerateContentConfig;
}.

Record EmbedContentParameters := {
  embed_model : option string;
  embed_contents : ContentListUnion;
}.

(** [EmbedContentResponse], over the type of the vector's numbers. *)
Record EmbedContentResponse (number : Type) := {
  embeddings : list (list number);
}.

(** [ContentGeneratorConfig] of [core/contentGenerator.ts]. *)
Record ContentGeneratorConfig := {
  cfg_model : string;
  cfg_apiKey : option string;
  cfg_authType : option string;
  cfg_baseUrl : option string;
  cfg_apiVersion : option string;
  cfg_timeout : option Z;
}.

(** [normalizeContents], the helper both adapter files define. *)
Definition normalizeContents (contents : ContentListUnion) : list Content :=
  match contents with
  | ContentsMissing => []
  | ContentsArray items =>
      omap (fun item =>
              match item with
              | ItemContent c =>
                  match parts c with Some _ => Some c | None => None end
              | ItemPart _ | ItemString _ => None
              end) items
  | ContentsSingle c =>
      match parts c with Some _ => [c] | None => [] end
  | ContentsString s =>
      if truthy_str s
      then [{| role := Some "user"; parts := Some [text_part s] |}]
      else []
  | ContentsPart p =>
      match text p, inlineData p with
      | None, None => []
      | _, _ => [{| role := Some "user"; parts := Some [p] |}]
      end
  end.

(** [request.config?.responseMimeType === 'application/json' &&
    request.config?.responseSchema]: the schema when both hold. *)
Definition json_schema_request (request : GenerateContentParameters)
  : option json :=
  match config request with
  | Some c =>
      match responseMimeType c, responseSchema c with
      | Some mime, Some schema =>
          if String.eqb mime "application/json" && truthy schema
          then Some schema else None
      | _, _ => None
      end
  | None => None
  end.

Definition jsonInstruction `{JSRuntime Part} (schema : json) : string :=
  "You must respond with valid JSON only. No additional text, explanations, or formatting. The response must conform to this schema: "
  +:+ JSON_stringify schema.

(** The function declarations of all tools of a request, in order. *)
Definition declared_functions (request : GenerateContentParameters)
  : list FunctionDeclaration :=
  match config request with
  | Some c =>
      match tools c with
      | Some ts =>
          concat (map (fun t => match functionDeclarations t with
                                | Some ds => ds
                                | None => []
                                end) ts)
      | None => []
      end
  | None => []
  end.

Definition default_parameters : json :=
  JObj [("type", JStr "object"); ("properties", JObj [])].

Definition zero_usage : UsageMetadata :=
  {| promptTokenCount := 0; candidatesTokenCount := 0;
     totalTokenCount := 0 |}.

End Genai.
Export Genai.

(* ===================================================================== *)
(** * The OpenAI-compatible adapter *)
(* ===================================================================== *)

Module OpenAI.

(** ** Wire data, read at the type the adapter uses it at *)

Record wire_function := {
  fn_name : option string;
  fn_arguments : option json;
}.

Record wire_tool_call := {
  tc_index : option Z;
  tc_id : option string;
  tc_type : option string;
  tc_function : option wire_function;
}.

(** An entry of [tool_calls] is [None] when it is [null]. *)
Record wire_message := {
  m_content : option string;
  m_tool_calls : option (list (option wire_tool_call));
}.

Record wire_choice := {
  c_delta : option wire_message;
  c_message : option wire_message;
  c_finish_reason : option string;
}.

Record wire_usage := {
  prompt_tokens : option Z;
  completion_tokens : option Z;
  total_tokens : option Z;
}.

(** [d_choice0] is [data.choices?.[0]] when that is truthy. *)
Record wire_data := {
  d_choice0 : option wire_choice;
  d_usage : option wire_usage;
}.

Definition as_function (j : json) : wire_function :=
  {| fn_name := as_str (member "name" j);
     fn_arguments := member "arguments" j |}.

Definition as_tool_call (j : json) : option wire_tool_call :=
  match j with
  | JNull => None
  | _ => Some {| tc_index := as_num (member "index" j);
                 tc_id := as_str (member "id" j);
                 tc_type := as_str (member "type" j);
                 tc_function :=
                   option_map as_function (as_obj (member "function" j)) |}
  end.

Definition as_message (j : json) : wire_message :=
  {| m_content := as_str (member "content" j);
     m_tool_calls :=
       option_map (map as_tool_call) (as_arr (member "tool_calls" j)) |}.

Definition as_choice (j : json) : wire_choice :=
  {| c_delta := option_map as_message (as_obj (member "delta" j));
     c_message := option_map as_message (as_obj (member "message" j));
     c_finish_reason := as_str (member "finish_reason" j) |}.

Definition as_usage (j : json) : wire_usage :=
  {| prompt_tokens := as_num (member "prompt_tokens" j);
     completion_tokens := as_num (member "completion_tokens" j);
     total_tokens := as_num (member "total_tokens" j) |}.

(** [None] when the document is [null], where [data.choices] raises a
    [TypeError]. *)
Definition as_data (j : json) : option wire_data :=
  match j with
  | JNull => None
  | _ =>
      Some {| d_choice0 :=
                match as_arr (member "choices" j) with
                | Some (c :: _) => option_map as_choice (as_obj (Some c))
                | _ => None
                end;
              d_usage := option_map as_usage (as_obj (member "usage" j)) |}
  end.

(** ** Outbound requests *)

Record Message := {
  msg_role : option string;
  msg_content : string;
}.

Record OpenAIFunction := {
  of_name : option string;
  of_description : string;
  of_parameters : json;
}.

(** An entry of [tools]: [{type: 'function', function: ...}]. *)
Record OpenAITool := {
  ot_type : string;
  ot_function : OpenAIFunction;
}.

(** The request body ([temperature] and [top_p], floating point numbers
    copied through with a default, are left out). *)
Record OpenAIRequest := {
  req_model : string;
  req_messages : list Message;
  req_max_tokens : Z;
  req_stream : bool;
  req_tools : option (list OpenAITool);
  req_tool_choice : option string;
}.

(** ** Streaming accumulators *)

Record Accumulated := {
  acc_id : string;
  acc_name : string;
  acc_arguments : string;
}.

Abbreviation ToolCallAccumulator := (Map Accumulated).
Abbreviation IndexToIdMap := (gmap Z string).

Section Adapter.
Context `{JSRuntime Part}.
Variable config : ContentGeneratorConfig.

(** [convertToOpenAIFormat] *)
Definition message_of_content (content : Content) : Message :=
  {| msg_role :=
       if bool_decide (role content = Some "model") then Some "assistant"
       else role content;
     msg_content :=
       or_str
         (option_map
            (fun ps =>
               join nls
                 (map (fun part =>
                         match text part with
                         | Some t => t
                         | None => JSON_stringify_part part
                         end) ps))
            (parts content))
         "" |}.

Definition openai_tool (funcDecl : FunctionDeclaration) : OpenAITool :=
  {| ot_type := "function";
     ot_function :=
       {| of_name := fd_name funcDecl;
          of_description := or_str (fd_description funcDecl) "";
          of_parameters :=
            match fd_parameters funcDecl with
            | Some p => if truthy p then p else default_parameters
            | None => default_parameters
            end |} |}.

Definition convertToOpenAIFormat (request : GenerateContentParameters)
  : OpenAIRequest :=
  let contents := normalizeContents (contents request) in
  let messages := map message_of_content contents in
  let messages :=
    match json_schema_request request with
    | Some schema =>
        {| msg_role := Some "system";
           msg_content := jsonInstruction schema |} :: messages
    | None => messages
    end in
  let openAITools := map openai_tool (declared_functions request) in
  {| req_model := or_str (model request) (cfg_model config);
     req_messages := messages;
     req_max_tokens :=
       or_num (match Genai.config request with
               | Some c => maxOutputTokens c
               | None => None
               end) 2048;
     req_stream := false;
     req_tools :=
       match openAITools with [] => None | _ => Some openAITools end;
     req_tool_choice :=
       match openAITools with [] => None | _ => Some "auto" end |}.

(** One iteration of the tool-call loop on the streaming path. *)
Definition accumulate (toolCall : wire_tool_call) (fn : wire_function)
    (st : ToolCallAccumulator * IndexToIdMap)
  : ToolCallAccumulator * IndexToIdMap :=
  let '(toolCallAccumulator, indexToIdMap) := st in
  let index := or_num (tc_index toolCall) 0 in
  let indexToIdMap :=
    if truthy_ostr (tc_id toolCall)
    then <[index := default "" (tc_id toolCall)]> indexToIdMap
    else indexToIdMap in
  let callId :=
    or_str (indexToIdMap !! index)
      (or_str (tc_id toolCall) ("call_" +:+ dec_Z index)) in
  let toolCallAccumulator :=
    if Map_has callId toolCallAccumulator then toolCallAccumulator
    else Map_set callId
           {| acc_id := callId;
              acc_name := or_str (fn_name fn) "";
              acc_arguments := "" |} toolCallAccumulator in
  match Map_get callId toolCallAccumulator with
  | Some accumulated =>
      let accumulated :=
        if truthy_ostr (fn_name fn)
        then {| acc_id := acc_id accumulated;
                acc_name := default "" (fn_name fn);
                acc_arguments := acc_arguments accumulated |}
        else accumulated in
      let accumulated :=
        match fn_arguments fn with
        | Some a =>
            if truthy a
            then {| acc_id := acc_id accumulated;
                    acc_name := acc_name accumulated;
                    acc_arguments :=
                      acc_arguments accumulated
                      +:+ match a with JStr s => s | _ => JS_String a end |}
            else accumulated
        | None => accumulated
        end in
      (Map_set callId accumulated toolCallAccumulator, indexToIdMap)
  | None => (toolCallAccumulator, indexToIdMap)
  end.

(** One iteration of the tool-call loop on the non-streaming path. *)
Definition single_shot (toolCall : wire_tool_call) (fn : wire_function)
  : FunctionCall :=
  let parsed :=
    match fn_arguments fn with
    | Some (JStr s) => JSON_parse s
    | Some a => Some (if truthy a then a else empty_object)
    | None => Some empty_object
    end in
  match parsed with
  | Some args =>
      {| fc_id := tc_id toolCall; fc_name := fn_name fn;
         fc_args := Some args |}
  | None =>
      {| fc_id := tc_id toolCall; fc_name := fn_name fn;
         fc_args := Some empty_object |}
  end.

(** The state the tool-call loop threads: the two optional maps and the
    function calls pushed so far. *)
Record loop_state := {
  ls_acc : option ToolCallAccumulator;
  ls_idx : option IndexToIdMap;
  ls_calls : list FunctionCall;
}.

(** The [for (const toolCall of message.tool_calls)] loop; a [null]
    entry raises a [TypeError], and what was accumulated before it
    stays. *)
Fixpoint tool_call_loop (isStream : bool)
    (tool_calls : list (option wire_tool_call)) (st : loop_state)
  : loop_state * bool :=
  match tool_calls with
  | [] => (st, true)
  | None :: _ => (st, false)
  | Some toolCall :: rest =>
      match tc_function toolCall with
      | Some fn =>
          if bool_decide (tc_type toolCall = Some "function") || isStream then
            match isStream, ls_acc st, ls_idx st with
            | true, Some acc, Some idx =>
                let '(acc', idx') := accumulate toolCall fn (acc, idx) in
                tool_call_loop isStream rest
                  {| ls_acc := Some acc'; ls_idx := Some idx';
                     ls_calls := ls_calls st |}
            | _, _, _ =>
                tool_call_loop isStream rest
                  {| ls_acc := ls_acc st; ls_idx := ls_idx st;
                     ls_calls := ls_calls st ++ [single_shot toolCall fn] |}
            end
          else tool_call_loop isStream rest st
      | None => tool_call_loop isStream rest st
      end
  end.

(** [convertFromOpenAIFormat(data, isStream, toolCallAccumulator,
    indexToIdMap)]: the maps after the call, and what the call returns
    or throws. *)
Definition convertFromOpenAIFormat (data : json) (isStream : bool)
    (toolCallAccumulator : option ToolCallAccumulator)
    (indexToIdMap : option IndexToIdMap)
  : option ToolCallAccumulator * option IndexToIdMap
    * exc string (option GenerateContentResponse) :=
  match as_data data with
  | None => (toolCallAccumulator, indexToIdMap, Throw "TypeError")
  | Some d =>
      match d_choice0 d with
      | None =>
          (toolCallAccumulator, indexToIdMap,
           Throw "No choices in response")
      | Some choice =>
          let message :=
            if isStream then c_delta choice else c_message choice in
          let text :=
            or_str (match message with
                    | Some m => m_content m
                    | None => None
                    end) "" in
          let st0 := {| ls_acc := toolCallAccumulator;
                        ls_idx := indexToIdMap; ls_calls := [] |} in
          let '(st, completed) :=
            match message with
            | Some m =>
                match m_tool_calls m with
                | Some tcs => tool_call_loop isStream tcs st0
                | None => (st0, true)
                end
            | None => (st0, true)
            end in
          let functionCalls := ls_calls st in
          if negb completed then
            (ls_acc st, ls_idx st, Throw "TypeError")
          else if isStream && negb (truthy_str text)
                  && (length functionCalls =? 0)%nat then
            (ls_acc st, ls_idx st, Ok None)
          else
            let candidate :=
              {| content := Some {| role := Some "model";
                                    parts := Some [text_part text] |};
                 finishReason :=
                   Some (or_str (c_finish_reason choice) "STOP");
                 index := 0 |} in
            let usage f :=
              or_num (match d_usage d with
                      | Some u => f u
                      | None => None
                      end) 0 in
            (ls_acc st, ls_idx st,
             Ok (Some {| candidates := Some [candidate];
                         usageMetadata :=
                           Some {| promptTokenCount := usage prompt_tokens;
                                   candidatesTokenCount :=
                                     usage completion_tokens;
                                   totalTokenCount := usage total_tokens |};
                         response_text := Some text;
                         functionCalls := Some functionCalls |}))
      end
  end.

(** The function call an accumulated entry becomes at the end of the
    stream. *)
Definition completed_call (toolCall : Accumulated) : FunctionCall :=
  let parsed :=
    if truthy_str (acc_arguments toolCall)
    then JSON_parse (acc_arguments toolCall)
    else Some empty_object in
  {| fc_id := Some (acc_id toolCall);
     fc_name := Some (acc_name toolCall);
     fc_args := Some (default empty_object parsed) |}.

(** [convertAccumulatedToolCallsToGemini] *)
Definition convertAccumulatedToolCallsToGemini
    (toolCalls : list Accumulated) : option GenerateContentResponse :=
  let functionCalls := map completed_call toolCalls in
  match functionCalls with
  | [] => None
  | _ =>
      Some {| candidates :=
                Some [{| content :=
                           Some {| role := Some "model";
                                   parts := Some [text_part ""] |};
                         finishReason := Some "tool_calls";
                         index := 0 |}];
              usageMetadata := Some zero_usage;
              response_text := Some "";
              functionCalls := Some functionCalls |}
  end.

(** ** The streaming generator

    [generateContentStreamInternal], from the point where the reader of
    the response body has been obtained.  [reads] are the decoded values
    that successive [reader.read()] calls deliver before [done]; the
    result is the sequence of yielded responses. *)

Record stream_state := {
  toolCallAccumulator : ToolCallAccumulator;
  indexToIdMap : IndexToIdMap;
}.

Definition initial_state : stream_state :=
  {| toolCallAccumulator := Map_empty; indexToIdMap := ∅ |}.

(** What the terminator line yields. *)
Definition flush (st : stream_state) : list GenerateContentResponse :=
  if (0 <? Map_size (toolCallAccumulator st))%nat then
    match convertAccumulatedToolCallsToGemini
            (Map_values (toolCallAccumulator st)) with
    | Some geminiResponse => [geminiResponse]
    | None => []
    end
  else [].

(** The outcome of the loop body for one line: the generator goes on
    with a new state, or returns. *)
Inductive line_outcome :=
| Continue (yielded : list GenerateContentResponse) (st : stream_state)
| Return (yielded : list GenerateContentResponse).

Definition process_line (line : string) (st : stream_state)
  : line_outcome :=
  if startsWith "data: " line then
    let data := slice 6 line in
    if String.eqb data "[DONE]" then Return (flush st)
    else
      match JSON_parse data with
      | Some parsed =>
          let '(acc, idx, result) :=
            convertFromOpenAIFormat parsed true
              (Some (toolCallAccumulator st)) (Some (indexToIdMap st)) in
          Continue
            (match result with
             | Ok (Some geminiResponse) => [geminiResponse]
             | Ok None | Throw _ => []
             end)
            {| toolCallAccumulator := default (toolCallAccumulator st) acc;
               indexToIdMap := default (indexToIdMap st) idx |}
      | None => Continue [] st
      end
  else Continue [] st.

Fixpoint process_lines (lines : list string) (st : stream_state)
  : line_outcome :=
  match lines with
  | [] => Continue [] st
  | line :: rest =>
      match process_line line st with
      | Return ys => Return ys
      | Continue ys st' =>
          match process_lines rest st' with
          | Return zs => Return (ys ++ zs)
          | Continue zs st'' => Continue (ys ++ zs) st''
          end
      end
  end.

(** [buffer += value; lines = buffer.split(newline);
    buffer = lines.pop() || empty] *)
Definition take_lines (buffer value : string) : list string * string :=
  let lines := split nl (buffer +:+ value) in
  (List.removelast lines, List.last lines "").

Fixpoint read_loop (reads : list string) (buffer : string)
    (st : stream_state) : list GenerateContentResponse :=
  match reads with
  | [] => []
  | value :: rest =>
      let '(lines, buffer') := take_lines buffer value in
      match process_lines lines st with
      | Return ys => ys
      | Continue ys st' => ys ++ read_loop rest buffer' st'
      end
  end.

Definition generateContentStreamInternal (reads : list string)
  : list GenerateContentResponse :=
  read_loop reads "" initial_state.

End Adapter.
End OpenAI.

(* ===================================================================== *)
(** * The Azure adapter *)
(* ===================================================================== *)

Module Azure.
Section Adapter.
Context `{JSRuntime Part}.
Variable azureConfig : ContentGeneratorConfig.

(** The constructor: [this.azureConfig.model = this.azureConfig.model
    || 'gpt-4o']. *)
Definition constructed : ContentGeneratorConfig :=
  {| cfg_model := or_str (Some (cfg_model azureConfig)) "gpt-4o";
     cfg_apiKey := cfg_apiKey azureConfig;
     cfg_authType := cfg_authType azureConfig;
     cfg_baseUrl := cfg_baseUrl azureConfig;
     cfg_apiVersion := cfg_apiVersion azureConfig;
     cfg_timeout := cfg_timeout azureConfig |}.


(** The loop body of the overridden [generateContentStream]: it calls
    [convertFromOpenAIFormat(parsed, true)] without accumulators.
    [None] when the generator returns. *)
Definition process_line (line : string)
  : option (list GenerateContentResponse) :=
  if startsWith "data: " line then
    let data := trim (slice 6 line) in
    if String.eqb data "[DONE]" then None
    else
      match JSON_parse data with
      | Some parsed =>
          match OpenAI.convertFromOpenAIFormat parsed true None None with
          | (_, _, Ok (Some response)) => Some [response]
          | (_, _, _) => Some []
          end
      | None => Some []
      end
  else Some [].

Fixpoint process_lines (lines : list string)
  : list GenerateContentResponse * bool :=
  match lines with
  | [] => ([], false)
  | line :: rest =>
      match process_line line with
      | None => ([], true)
      | Some ys =>
          let '(zs, returned) := process_lines rest in (ys ++ zs, returned)
      end
  end.

Fixpoint read_loop (reads : list string) (buffer : string)
  : list GenerateContentResponse :=
  match reads with
  | [] => []
  | value :: rest =>
      let '(lines, buffer') := OpenAI.take_lines buffer value in
      match process_lines lines with
      | (ys, true) => ys
      | (ys, false) => ys ++ read_loop rest buffer'
      end
  end.

Definition generateContentStream (reads : list string)
  : list GenerateContentResponse :=
  read_loop reads "".

End Adapter.
End Azure.

(* ===================================================================== *)
(** * The Anthropic adapter *)
(* ===================================================================== *)

Module Anthropic.

(** ** Wire data, read at the type the adapter uses it at *)

Record wire_delta := {
  dl_type : option string;
  dl_text : option string;
  dl_partial_json : option string;
}.

Record wire_block := {
  cb_type : option string;
  cb_text : option string;
  cb_id : option string;
  cb_name : option string;
  cb_input : option json;
}.

Record wire_usage := {
  input_tokens : option Z;
  output_tokens : option Z;
}.

(** A streaming event or a complete message; an entry of [content] is
    [None] when it is [null]. *)
Record wire_data := {
  d_type : option string;
  d_index : option Z;
  d_delta : option wire_delta;
  d_content_block : option wire_block;
  d_content : option (list (option wire_block));
  d_stop_reason : option string;
  d_usage : option wire_usage;
}.

Definition as_delta (j : json) : wire_delta :=
  {| dl_type := as_str (member "type" j);
     dl_text := as_str (member "text" j);
     dl_partial_json := as_str (member "partial_json" j) |}.

Definition as_block (j : json) : wire_block :=
  {| cb_type := as_str (member "type" j);
     cb_text := as_str (member "text" j);
     cb_id := as_str (member "id" j);
     cb_name := as_str (member "name" j);
     cb_input := member "input" j |}.

Definition as_data (j : json) : option wire_data :=
  match j with
  | JNull => None
  | _ =>
      Some {| d_type := as_str (member "type" j);
              d_index := as_num (member "index" j);
              d_delta := option_map as_delta (as_obj (member "delta" j));
              d_content_block :=
                option_map as_block (as_obj (member "content_block" j));
              d_content :=
                option_map
                  (map (fun b => match b with
                                 | JNull => None
                                 | _ => Some (as_block b)
                                 end))
                  (as_arr (member "content" j));
              d_stop_reason := as_str (member "stop_reason" j);
              d_usage := option_map
                           (fun u =>
                              {| input_tokens :=
                                   as_num (member "input_tokens" u);
                                 output_tokens :=
                                   as_num (member "output_tokens" u) |})
                           (as_obj (member "usage" j)) |}
  end.

(** ** Outbound requests *)

Inductive ContentBlock :=
| TextBlock (text : string)
| ToolUseBlock (id name : option string) (input : json).

Definition block_type (b : ContentBlock) : string :=
  match b with
  | TextBlock _ => "text"
  | ToolUseBlock _ _ _ => "tool_use"
  end.

Record Message := {
  msg_role : string;
  msg_content : list ContentBlock;
}.

Record AnthropicTool := {
  at_name : option string;
  at_description : string;
  at_input_schema : json;
}.

(** The request body ([temperature] and [top_p] are left out, as for
    the OpenAI-compatible request). *)
Record AnthropicRequest := {
  req_model : string;
  req_messages : list Message;
  req_max_tokens : Z;
  req_tools : option (list AnthropicTool);
}.

(** ** Streaming accumulator *)

Record Accumulated := {
  acc_id : option string;
  acc_name : option string;
  acc_input : string;
}.

Abbreviation ToolCallAccumulator := (Map Accumulated).

Section Adapter.
Context `{JSRuntime Part}.
Variable config : ContentGeneratorConfig.

Definition backticks : string := "```".

(** The summary text written for one tool result. *)
Definition tool_result_summary (fr : FunctionResponse) : string :=
  let response :=
    match fr_response fr with
    | Some (JStr s) => s
    | Some j => JSON_stringify_indent j
    | None => "undefined"
    end in
  "### " +:+ spliced (fr_name fr) +:+ nls
  +:+ backticks +:+ nls
  +:+ response
  +:+ nls +:+ backticks +:+ nls +:+ nls.

(** [convertToolResultsToTextForAnthropic], for one [Content]. *)
Definition tool_results_to_text (content : Content) : Content :=
  match parts content with
  | Some ps =>
      if bool_decide (role content = Some "user")
         && existsb (fun part => match functionResponse part with
                                 | Some _ => true
                                 | None => false
                                 end) ps
      then
        let toolResults := omap functionResponse ps in
        let textParts :=
          omap (fun part =>
                  match functionResponse part, text part with
                  | None, Some t => if truthy_str t then Some t else None
                  | _, _ => None
                  end) ps in
        match toolResults with
        | [] => content
        | _ =>
            let summaryText :=
              match textParts with
              | [] => ""
              | _ => join nls textParts +:+ nls +:+ nls
              end in
            let summaryText :=
              summaryText +:+ "## Tool Execution Completed" +:+ nls +:+ nls
              +:+ "The following tools have been executed successfully:"
              +:+ nls +:+ nls in
            let summaryText :=
              fold_left (fun acc fr => acc +:+ tool_result_summary fr)
                toolResults summaryText in
            let summaryText :=
              summaryText
              +:+ "**Task completed successfully.** Please provide a summary of these results and any insights." in
            {| role := role content;
               parts := Some [text_part summaryText] |}
        end
      else content
  | None => content
  end.

Definition convertToolResultsToTextForAnthropic (contents : list Content)
  : list Content :=
  map tool_results_to_text contents.

(** The block one [Part] becomes. *)
Definition block_of_part (part : Part) : ContentBlock :=
  match text part with
  | Some (String c r) => TextBlock (String c r)
  | _ =>
      match functionResponse part with
      | Some fr =>
          let response :=
            match fr_response fr with
            | Some (JStr s) => s
            | Some j => JSON_stringify j
            | None => "undefined"
            end in
          TextBlock ("Tool result from " +:+ spliced (fr_name fr)
                     +:+ ": " +:+ response)
      | None =>
          match functionCall part with
          | Some fc =>
              ToolUseBlock (fc_id fc) (fc_name fc)
                (match fc_args fc with
                 | Some a => if truthy a then a else empty_object
                 | None => empty_object
                 end)
          | None => TextBlock (JSON_stringify_part part)
          end
      end
  end.

Definition is_text_with_content (item : ContentBlock) : bool :=
  match item with
  | TextBlock t => truthy_str (trim t)
  | ToolUseBlock _ _ _ => false
  end.

(** The message one [Content] becomes, or [None] for the [null] that
    the final [filter] removes. *)
Definition message_of_content (content : Content) : option Message :=
  let anthropicContent :=
    match parts content with
    | Some ps => map block_of_part ps
    | None => []
    end in
  match anthropicContent with
  | [] => None
  | _ =>
      let anthropicContent :=
        if bool_decide (role content = Some "user") then
          let hasText := existsb is_text_with_content anthropicContent in
          let hasToolResult :=
            existsb (fun item => String.eqb (block_type item) "tool_result")
              anthropicContent in
          if negb hasText && hasToolResult
          then TextBlock "Here are the tool results:" :: anthropicContent
          else anthropicContent
        else anthropicContent in
      Some {| msg_role :=
                if bool_decide (role content = Some "model")
                then "assistant" else "user";
              msg_content := anthropicContent |}
  end.

(** The JSON instruction goes in front of the parts of the first
    [Content], when that has role [user]. *)
Definition with_json_instruction (schema : json) (contents : list Content)
  : list Content :=
  match contents with
  | content :: rest =>
      match parts content with
      | Some ps =>
          if bool_decide (role content = Some "user")
          then {| role := role content;
                  parts := Some (text_part (jsonInstruction schema) :: ps) |}
               :: rest
          else contents
      | None => contents
      end
  | [] => []
  end.

Definition anthropic_tool (funcDecl : FunctionDeclaration)
  : AnthropicTool :=
  {| at_name := fd_name funcDecl;
     at_description := or_str (fd_description funcDecl) "";
     at_input_schema :=
       match fd_parameters funcDecl with
       | Some p => if truthy p then p else default_parameters
       | None => default_parameters
       end |}.

Definition convertContentsToAnthropicMessages (contents : list Content)
    (request : GenerateContentParameters) : AnthropicRequest :=
  let processedContents :=
    match json_schema_request request with
    | Some schema => with_json_instruction schema contents
    | None => contents
    end in
  let messages := omap message_of_content processedContents in
  let anthropicTools := map anthropic_tool (declared_functions request) in
  {| req_model := or_str (model request) (cfg_model config);
     req_messages := messages;
     req_max_tokens :=
       or_num (match Genai.config request with
               | Some c => maxOutputTokens c
               | None => None
               end) 2048;
     req_tools :=
       match anthropicTools with [] => None | _ => Some anthropicTools end |}.

Definition convertToAnthropicFormat (request : GenerateContentParameters)
  : AnthropicRequest :=
  let contents := normalizeContents (contents request) in
  let processedContents := convertToolResultsToTextForAnthropic contents in
  convertContentsToAnthropicMessages processedContents request.

(** ** Inbound responses *)

(** [createStreamingTextResponse] *)
Definition createStreamingTextResponse (t : string)
  : GenerateContentResponse :=
  {| candidates :=
       Some [{| content := Some {| role := Some "model";
                                   parts := Some [text_part t] |};
                finishReason := Some "STOP";
                index := 0 |}];
     usageMetadata := Some zero_usage;
     response_text := Some t;
     functionCalls := Some [] |}.

(** [handleAnthropicStreamingEvent(data, toolCallAccumulator)]: the
    accumulator after the call and the response returned. *)
Definition handleAnthropicStreamingEvent (data : wire_data)
    (toolCallAccumulator : option ToolCallAccumulator)
  : option ToolCallAccumulator * option GenerateContentResponse :=
  let delta_type :=
    match d_delta data with Some d => dl_type d | None => None end in
  if bool_decide (d_type data = Some "content_block_delta") then
    if bool_decide (delta_type = Some "text_delta") then
      let t := or_str (match d_delta data with
                       | Some d => dl_text d
                       | None => None
                       end) "" in
      (toolCallAccumulator, Some (createStreamingTextResponse t))
    else
      match bool_decide (delta_type = Some "input_json_delta"),
            toolCallAccumulator with
      | true, Some acc =>
          let blockIndex := or_num (d_index data) 0 in
          let partialJson :=
            or_str (match d_delta data with
                    | Some d => dl_partial_json d
                    | None => None
                    end) "" in
          let indexKey := "index_" +:+ dec_Z blockIndex in
          (Some match Map_get indexKey acc with
                | Some accumulated =>
                    Map_set indexKey
                      {| acc_id := acc_id accumulated;
                         acc_name := acc_name accumulated;
                         acc_input := acc_input accumulated +:+ partialJson |}
                      acc
                | None => acc
                end,
           None)
      | _, _ => (toolCallAccumulator, None)
      end
  else
    match bool_decide (d_type data = Some "content_block_start"),
          toolCallAccumulator with
    | true, Some acc =>
        match d_content_block data with
        | Some toolCall =>
            if bool_decide (cb_type toolCall = Some "tool_use") then
              let blockIndex := or_num (d_index data) 0 in
              let indexKey := "index_" +:+ dec_Z blockIndex in
              (Some (Map_set indexKey
                       {| acc_id := cb_id toolCall;
                          acc_name := cb_name toolCall;
                          acc_input := "" |} acc),
               None)
            else (toolCallAccumulator, None)
        | None => (toolCallAccumulator, None)
        end
    | _, _ => (toolCallAccumulator, None)
    end.

(** The loop over [data.content] of a complete message: the text and
    the function calls collected, or [None] at a [null] block. *)
Fixpoint content_loop (blocks : list (option wire_block))
    (t : string) (functionCalls : list FunctionCall)
  : option (string * list FunctionCall) :=
  match blocks with
  | [] => Some (t, functionCalls)
  | None :: _ => None
  | Some contentBlock :: rest =>
      if bool_decide (cb_type contentBlock = Some "text") then
        content_loop rest (t +:+ or_str (cb_text contentBlock) "")
          functionCalls
      else if bool_decide (cb_type contentBlock = Some "tool_use") then
        content_loop rest t
          (functionCalls
           ++ [{| fc_id := cb_id contentBlock;
                  fc_name := cb_name contentBlock;
                  fc_args :=
                    Some (match cb_input contentBlock with
                          | Some a => if truthy a then a else empty_object
                          | None => empty_object
                          end) |}])
      else content_loop rest t functionCalls
  end.

(** [convertFromAnthropicFormat(data, isStream, toolCallAccumulator)] *)
Definition convertFromAnthropicFormat (data : json) (isStream : bool)
    (toolCallAccumulator : option ToolCallAccumulator)
  : option ToolCallAccumulator
    * exc string (option GenerateContentResponse) :=
  match as_data data with
  | None => (toolCallAccumulator, Throw "TypeError")
  | Some d =>
      if isStream then
        let '(acc, r) :=
          handleAnthropicStreamingEvent d toolCallAccumulator in
        (acc, Ok r)
      else
        match content_loop (default [] (d_content d)) "" [] with
        | None => (toolCallAccumulator, Throw "TypeError")
        | Some (t, functionCalls) =>
            let tokens f :=
              or_num (match d_usage d with
                      | Some u => f u
                      | None => None
                      end) 0 in
            (toolCallAccumulator,
             Ok (Some
                   {| candidates :=
                        Some [{| content :=
                                   Some {| role := Some "model";
                                           parts := Some [text_part t] |};
                                 finishReason :=
                                   Some
                                     (if bool_decide
                                           (d_stop_reason d = Some "tool_use")
                                      then "tool_calls"
                                      else or_str (d_stop_reason d) "STOP");
                                 index := 0 |}];
                      usageMetadata :=
                        Some {| promptTokenCount := tokens input_tokens;
                                candidatesTokenCount := tokens output_tokens;
                                totalTokenCount :=
                                  tokens input_tokens + tokens output_tokens |};
                      response_text := Some t;
                      functionCalls := Some functionCalls |}))
        end
  end.

(** The function call an accumulated entry becomes at the end of the
    stream. *)
Definition completed_call (toolCall : Accumulated) : FunctionCall :=
  let parsed :=
    if truthy_str (acc_input toolCall)
    then JSON_parse (acc_input toolCall)
    else Some empty_object in
  {| fc_id := acc_id toolCall;
     fc_name := acc_name toolCall;
     fc_args := Some (default empty_object parsed) |}.

(** [convertAccumulatedAnthropicToolCallsToGemini] *)
Definition convertAccumulatedAnthropicToolCallsToGemini
    (toolCalls : list Accumulated) : option GenerateContentResponse :=
  let functionCalls := map completed_call toolCalls in
  match functionCalls with
  | [] => None
  | _ =>
      Some {| candidates :=
                Some [{| content :=
                           Some {| role := Some "model";
                                   parts := Some [text_part ""] |};
                         finishReason := Some "tool_calls";
                         index := 0 |}];
              usageMetadata := Some zero_usage;
              response_text := Some "";
              functionCalls := Some functionCalls |}
  end.

(** ** The streaming generator

    [generateContentStreamInternal], from the point where the reader of
    the response body has been obtained; [reads] are the decoded values
    that successive [reader.read()] calls deliver before [done]. *)

Definition process_line (line : string) (acc : ToolCallAccumulator)
  : list GenerateContentResponse * ToolCallAccumulator :=
  if startsWith "event: " line then ([], acc)
  else if startsWith "data: " line then
    let data := slice 6 line in
    match JSON_parse data with
    | Some parsed =>
        let '(acc', result) :=
          convertFromAnthropicFormat parsed true (Some acc) in
        (match result with
         | Ok (Some geminiResponse) => [geminiResponse]
         | Ok None | Throw _ => []
         end,
         default acc acc')
    | None => ([], acc)
    end
  else ([], acc).

Fixpoint process_lines (lines : list string) (acc : ToolCallAccumulator)
  : list GenerateContentResponse * ToolCallAccumulator :=
  match lines with
  | [] => ([], acc)
  | line :: rest =>
      let '(ys, acc') := process_line line acc in
      let '(zs, acc'') := process_lines rest acc' in
      (ys ++ zs, acc'')
  end.

(** What is yielded after the read loop has ended. *)
Definition flush (acc : ToolCallAccumulator)
  : list GenerateContentResponse :=
  if (0 <? Map_size acc)%nat then
    match convertAccumulatedAnthropicToolCallsToGemini (Map_values acc) with
    | Some geminiResponse => [geminiResponse]
    | None => []
    end
  else [].

Fixpoint read_loop (reads : list string) (buffer : string)
    (acc : ToolCallAccumulator) : list GenerateContentResponse :=
  match reads with
  | [] => flush acc
  | value :: rest =>
      let '(lines, buffer') := OpenAI.take_lines buffer value in
      let '(ys, acc') := process_lines lines acc in
      ys ++ read_loop rest buffer' acc'
  end.

Definition generateContentStreamInternal (reads : list string)
  : list GenerateContentResponse :=
  read_loop reads "" Map_empty.

(** [embedContent]; an exception is the message of the [Error]
    thrown. *)
Definition embedContent {number : Type} (_request : EmbedContentParameters)
  : exc string (EmbedContentResponse number) :=
  Throw "Anthropic does not support embeddings".

End Adapter.
End Anthropic.

(* ===================================================================== *)
(** * The adapter registry ([adapters/index.ts]) *)
(* ===================================================================== *)

Module Registry.

Section Registry.
(** The classes that can be registered at run time. *)
Variable GeneratorClass : Type.

(** What [createCustomContentGenerator] constructs. *)
Inductive ContentGenerator :=
| OpenAICompatibleContentGenerator (config : ContentGeneratorConfig)
| AnthropicContentGenerator (config : ContentGeneratorConfig)
| AzureContentGenerator (config : ContentGeneratorConfig)
| Registered (cls : GeneratorClass) (config : ContentGeneratorConfig).

(** [globalContentGeneratorRegistry] *)
Abbreviation registry := (gmap string GeneratorClass).

(** [registerContentGenerator] *)
Definition registerContentGenerator (authType : string)
    (generatorClass : GeneratorClass) (reg : registry) : registry :=
  <[authType := generatorClass]> reg.

(** [createCustomContentGenerator]; an exception is the message of the
    [Error] thrown. *)
Definition createCustomContentGenerator (reg : registry)
    (authType : string) (config : ContentGeneratorConfig)
  : exc string ContentGenerator :=
  if String.eqb authType "openai-compatible" then
    Ok (OpenAICompatibleContentGenerator config)
  else if String.eqb authType "local-llm" then
    Ok (OpenAICompatibleContentGenerator config)
  else if String.eqb authType "anthropic" then
    Ok (AnthropicContentGenerator config)
  else if String.eqb authType "azure" then
    Ok (AzureContentGenerator (Azure.constructed config))
  else
    match reg !! authType with
    | Some cls => Ok (Registered cls config)
    | None =>
        Throw ("No content generator available for auth type: "
               +:+ authType)
    end.

Definition builtin_selectors : list string :=
  ["openai-compatible"; "local-llm"; "anthropic"; "azure"].
End Registry.

End Registry.

(* ===================================================================== *)
(** * The turn engine ([core/turn.ts]) *)
(* ===================================================================== *)

Module TurnEngine.

Record ToolCallRequestInfo := {
  callId : string;
  name : string;
  args : json;
  isClientInitiated : bool;
}.

Record ThoughtSummary := {
  subject : string;
  description : string;
}.

Record StructuredError := {
  message : string;
  status : option Z;
}.

(** The events [Turn.run] yields. *)
Inductive ServerGeminiStreamEvent :=
| Content (value : string)
| Thought (value : ThoughtSummary)
| ToolCallRequest (value : ToolCallRequestInfo)
| UserCancelled
| Error (value : StructuredError).

(** A thrown value: its numeric [status] property when it has one, and
    whether it is an [UnauthorizedError]. *)
Record Thrown := {
  thrown_message : string;
  thrown_status : option Z;
  thrown_unauthorized : bool;
}.

(** The response stream [chat.sendMessageStream] gives: the units it
    delivers, and whether it then ends or throws.  A failure of
    [sendMessageStream] itself is a stream that throws before any unit. *)
Record ResponseStream := {
  units : list GenerateContentResponse;
  failure : option Thrown;
}.

(** The state of a [Turn] and of its run. *)
Record TurnState := {
  pendingToolCalls : list ToolCallRequestInfo;
  debugResponses : list GenerateContentResponse;
}.

Definition new_turn : TurnState :=
  {| pendingToolCalls := []; debugResponses := [] |}.

(** How a run ends. *)
Inductive Completion :=
| Returned
| Rethrown (e : Thrown).

Record RunResult := {
  emitted : list ServerGeminiStreamEvent;
  units_read : nat;
  final_state : TurnState;
  reported : list Thrown;
  completion : Completion;
}.

Section Turn.
(** Helpers of [utils/] that are not part of the sources. *)
Variable getResponseText : GenerateContentResponse -> option string.
Variable toFriendlyError : Thrown -> Thrown.
Variable getErrorMessage : Thrown -> string.

(** [Date.now()] and [Math.random().toString(16).slice(2)], as
    evaluated for the n-th function call of the run. *)
Variable Date_now : nat -> N.
Variable random_hex : nat -> string.

(** [signal.aborted], as read when [n] units have been processed. *)
Variable aborted : nat -> bool.

(** The id given to a function call that has none. *)
Definition backfilled_id (fnCall : FunctionCall) (n : nat) : string :=
  spliced (fc_name fnCall) +:+ "-" +:+ dec_N (Date_now n)
  +:+ "-" +:+ random_hex n.

(** [handlePendingFunctionCall] *)
Definition handlePendingFunctionCall (fnCall : FunctionCall)
    (st : TurnState) : TurnState * ServerGeminiStreamEvent :=
  let callId :=
    match fc_id fnCall with
    | Some id => id
    | None => backfilled_id fnCall (length (pendingToolCalls st))
    end in
  let name := or_str (fc_name fnCall) "undefined_tool_name" in
  let args :=
    match fc_args fnCall with
    | Some a => if truthy a then a else empty_object
    | None => empty_object
    end in
  let toolCallRequest :=
    {| callId := callId; name := name; args := args;
       isClientInitiated := false |} in
  ({| pendingToolCalls := pendingToolCalls st ++ [toolCallRequest];
      debugResponses := debugResponses st |},
   ToolCallRequest toolCallRequest).

(** The subject and description of a thought. *)
Definition thought_summary (rawText : string) : ThoughtSummary :=
  match cut "**" rawText with
  | Some (before, rest) =>
      match cut "**" rest with
      | Some (inner, after) =>
          {| subject := trim inner; description := trim (before +:+ after) |}
      | None => {| subject := ""; description := trim rawText |}
      end
  | None => {| subject := ""; description := trim rawText |}
  end.

(** [resp.candidates?.[0]?.content?.parts?.[0]] *)
Definition first_part (resp : GenerateContentResponse) : option Part :=
  match candidates resp with
  | Some (c :: _) =>
      match content c with
      | Some ct =>
          match parts ct with
          | Some (p :: _) => Some p
          | _ => None
          end
      | None => None
      end
  | _ => None
  end.

(** The [for (const fnCall of functionCalls)] loop. *)
Fixpoint function_call_loop (functionCalls : list FunctionCall)
    (st : TurnState) : TurnState * list ServerGeminiStreamEvent :=
  match functionCalls with
  | [] => (st, [])
  | fnCall :: rest =>
      let '(st', event) := handlePendingFunctionCall fnCall st in
      let '(st'', events) := function_call_loop rest st' in
      (st'', event :: events)
  end.

(** The body of the [for await] loop for a unit that is processed. *)
Definition process_unit (resp : GenerateContentResponse) (st : TurnState)
  : TurnState * list ServerGeminiStreamEvent :=
  let st := {| pendingToolCalls := pendingToolCalls st;
               debugResponses := debugResponses st ++ [resp] |} in
  match first_part resp with
  | Some {| thought := Some true; text := t |} =>
      (st, [Thought (thought_summary (default "" t))])
  | _ =>
      let textEvents :=
        match getResponseText resp with
        | Some t => if truthy_str t then [Content t] else []
        | None => []
        end in
      let '(st', callEvents) :=
        function_call_loop (default [] (functionCalls resp)) st in
      (st', textEvents ++ callEvents)
  end.

(** The [catch] block, entered when [n] units have been processed. *)
Definition handle_failure (e : Thrown) (n : nat) (st : TurnState)
    (events : list ServerGeminiStreamEvent) : RunResult :=
  let error := toFriendlyError e in
  if thrown_unauthorized error then
    {| emitted := events; units_read := n; final_state := st;
       reported := []; completion := Rethrown error |}
  else if aborted n then
    {| emitted := events ++ [UserCancelled]; units_read := n;
       final_state := st; reported := []; completion := Returned |}
  else
    {| emitted :=
         events ++ [Error {| message := getErrorMessage error;
                             status := thrown_status error |}];
       units_read := n; final_state := st; reported := [error];
       completion := Returned |}.

(** The [for await] loop, when [n] units have been processed and
    [events] have been yielded. *)
Fixpoint run_loop (rest : list GenerateContentResponse)
    (failure : option Thrown) (n : nat) (st : TurnState)
    (events : list ServerGeminiStreamEvent) : RunResult :=
  match rest with
  | [] =>
      match failure with
      | Some e => handle_failure e n st events
      | None =>
          {| emitted := events; units_read := n; final_state := st;
             reported := []; completion := Returned |}
      end
  | resp :: rest' =>
      if aborted n then
        {| emitted := events ++ [UserCancelled]; units_read := S n;
           final_state := st; reported := []; completion := Returned |}
      else
        let '(st', new_events) := process_unit resp st in
        run_loop rest' failure (S n) st' (events ++ new_events)
  end.

(** [Turn.run] on a new [Turn]. *)
Definition run (responseStream : ResponseStream) : RunResult :=
  run_loop (units responseStream) (failure responseStream) 0 new_turn [].

End Turn.
End TurnEngine.

(* ===================================================================== *)
(** * The tool executor ([core/nonInteractiveToolExecutor.ts]) *)
(* ===================================================================== *)

Module Executor.

Import TurnEngine.

(** A value a tool throws: an [Error] with its message, or another value
    with what [String] makes of it. *)
Inductive Raised :=
| RaisedError (message : string)
| RaisedOther (as_string : string).

(** [e instanceof Error ? e : new Error(String(e))], as its message. *)
Definition error_message (e : Raised) : string :=
  match e with
  | RaisedError m => m
  | RaisedOther s => s
  end.

Section Executor.
(** [PartListUnion] and [ToolResultDisplay] of the tool layer. *)
Variable PartListUnion : Type.
Variable ToolResultDisplay : Type.

Record ToolResult := {
  llmContent : PartListUnion;
  returnDisplay : option ToolResultDisplay;
}.

(** A registered tool: [execute(params, signal)] resolves or rejects. *)
Record RegisteredTool := {
  execute : json -> bool -> exc Raised ToolResult;
}.

(** The response parts the executor can return: what
    [convertToFunctionResponse] built, or the error shape. *)
Inductive ResponseParts :=
| Converted (parts : PartListUnion)
| ErrorParts (parts : list FunctionResponse).

Inductive Display :=
| ToolDisplay (d : option ToolResultDisplay)
| MessageDisplay (message : string).

Record ToolCallResponseInfo := {
  resp_callId : string;
  responseParts : ResponseParts;
  resultDisplay : Display;
  error : option string;
}.

(** The record given to [logToolCall]. *)
Record ToolCallEvent := {
  function_name : string;
  function_args : json;
  duration_ms : Z;
  success : bool;
  log_error : option string;
}.

(** [convertToFunctionResponse] of [coreToolScheduler.ts], which may
    throw. *)
Variable convertToFunctionResponse :
  string -> string -> PartListUnion -> exc Raised PartListUnion.

(** The tool registry: [toolRegistry.getTool(name)]. *)
Variable toolRegistry : gmap string RegisteredTool.

(** [Date.now()] at its n-th evaluation during the call. *)
Variable Date_now : nat -> Z.

Definition error_response (toolCallRequest : ToolCallRequestInfo)
    (message : string) : ToolCallResponseInfo :=
  {| resp_callId := callId toolCallRequest;
     responseParts :=
       ErrorParts
         [{| fr_id := Some (callId toolCallRequest);
             fr_name := Some (name toolCallRequest);
             fr_response := Some (JObj [("error", JStr message)]) |}];
     resultDisplay := MessageDisplay message;
     error := Some message |}.

Definition log_entry (toolCallRequest : ToolCallRequestInfo)
    (durationMs : Z) (ok : bool) (err : option string) : ToolCallEvent :=
  {| function_name := name toolCallRequest;
     function_args := args toolCallRequest;
     duration_ms := durationMs;
     success := ok;
     log_error := err |}.

(** [executeToolCall]: the response the promise resolves to, and the
    telemetry records written.  [abortSignal] is the [aborted] flag of
    the signal passed, if one is. *)
Definition executeToolCall (toolCallRequest : ToolCallRequestInfo)
    (abortSignal : option bool)
  : ToolCallResponseInfo * list ToolCallEvent :=
  let tool := toolRegistry !! name toolCallRequest in
  let startTime := Date_now 0%nat in
  match tool with
  | None =>
      let message :=
        "Tool " +:+ quoted (name toolCallRequest)
        +:+ " not found in registry." in
      let durationMs := Date_now 1%nat - startTime in
      (error_response toolCallRequest message,
       [log_entry toolCallRequest durationMs false (Some message)])
  | Some tool =>
      let effectiveAbortSignal := default false abortSignal in
      let failed (e : Raised) (logged : list ToolCallEvent) (n : nat) :=
        let message := error_message e in
        let durationMs := Date_now n - startTime in
        (error_response toolCallRequest message,
         logged
         ++ [log_entry toolCallRequest durationMs false (Some message)]) in
      match execute tool (args toolCallRequest) effectiveAbortSignal with
      | Throw e => failed e [] 1%nat
      | Ok toolResult =>
          let durationMs := Date_now 1%nat - startTime in
          let logged := [log_entry toolCallRequest durationMs true None] in
          match convertToFunctionResponse (name toolCallRequest)
                  (callId toolCallRequest) (llmContent toolResult) with
          | Throw e => failed e logged 2%nat
          | Ok response =>
              ({| resp_callId := callId toolCallRequest;
                  responseParts := Converted response;
                  resultDisplay := ToolDisplay (returnDisplay toolResult);
                  error := None |},
               logged)
          end
      end
  end.

End Executor.
End Executor.

(* ===================================================================== *)
(** * Notions used to state the properties *)
(* ===================================================================== *)

(** A [Content] that has at least one part. *)
Definition has_parts (content : Content) : bool :=
  match parts content with
  | Some (_ :: _) => true
  | Some [] | None => false
  end.

(** The role the Anthropic translation writes for a [Content]. *)
Definition anthropic_role (content : Content) : string :=
  if bool_decide (role content = Some "model") then "assistant" else "user".

(** The contents the Anthropic translation turns into messages: the
    normalised history after the tool-result pass and the JSON
    instruction. *)
Definition anthropic_processed `{JSRuntime Part}
    (request : GenerateContentParameters) : list Content :=
  let processed :=
    Anthropic.convertToolResultsToTextForAnthropic
      (normalizeContents (contents request)) in
  match json_schema_request request with
  | Some schema => Anthropic.with_json_instruction schema processed
  | None => processed
  end.


(** [s] has an occurrence of the character [c]. *)
Fixpoint contains (c : ascii) (s : string) : bool :=
  match s with
  | EmptyString => false
  | String a r => Ascii.eqb a c || contains c r
  end.

(** The most events the loop body of [Turn.run] yields for a unit: one
    for its text or thought, and one for each function call. *)
Definition unit_event_bound (resp : GenerateContentResponse) : nat :=
  S (length (default [] (functionCalls resp))).

(** What successive reads deliver, put together. *)
Definition joined (reads : list string) : string :=
  foldr String.append "" reads.

(** The text of lines that each end in a newline. *)
Definition unlines (lines : list string) : string :=
  foldr (fun line text => line +:+ String nl text) "" lines.

(** The response that carries completed function calls at the end of a
    stream. *)
Definition completed_response (calls : list FunctionCall)
  : GenerateContentResponse :=
  {| candidates :=
       Some [{| content := Some {| role := Some "model";
                                   parts := Some [text_part ""] |};
                finishReason := Some "tool_calls";
                index := 0 |}];
     usageMetadata := Some zero_usage;
     response_text := Some "";
     functionCalls := Some calls |}.

(** The terminator line of an OpenAI-compatible stream. *)
Definition done_line : string := "data: [DONE]".

(** [line] is a [data: ] line whose payload parses to [chunk]. *)
Definition data_line `{JSRuntime Part} (line : string) (chunk : json)
  : Prop :=
  exists payload,
    line = "data: " +:+ payload
    /\ payload <> "[DONE]"
    /\ JSON_parse payload = Some chunk.

(** [chunk] is a streaming chunk whose delta carries one tool call, at
    position [idx], with the given id, name and argument fragment. *)
Definition fragment_chunk (chunk : json) (idx : Z) (id name : option string)
    (fragment : string) : Prop :=
  exists d choice delta toolCall fn,
    OpenAI.as_data chunk = Some d
    /\ OpenAI.d_choice0 d = Some choice
    /\ OpenAI.c_delta choice = Some delta
    /\ OpenAI.m_tool_calls delta = Some [Some toolCall]
    /\ or_num (OpenAI.tc_index toolCall) 0 = idx
    /\ OpenAI.tc_id toolCall = id
    /\ OpenAI.tc_function toolCall = Some fn
    /\ OpenAI.fn_name fn = name
    /\ (OpenAI.fn_arguments fn = Some (JStr fragment)
        \/ (OpenAI.fn_arguments fn = None /\ fragment = "")).

(** [chunk] has no tool call to accumulate: it is [null], it has no
    first choice, or the delta of that choice is missing or has no
    [tool_calls]. *)
Definition quiet_chunk (chunk : json) : Prop :=
  match OpenAI.as_data chunk with
  | None => True
  | Some d =>
      match OpenAI.d_choice0 d with
      | None => True
      | Some choice =>
          match OpenAI.c_delta choice with
          | Some delta => OpenAI.m_tool_calls delta = None
          | None => True
          end
      end
  end.

(** A line of an OpenAI-compatible stream that has nothing to do with
    tool calls: it is not a [data: ] line (an empty line, a comment), or
    it is a [data: ] line, other than the terminator, whose payload does
    not parse or parses to a chunk without tool calls (a text chunk, the
    chunk with the finish reason). *)
Definition passes `{JSRuntime Part} (line : string) : Prop :=
  startsWith "data: " line = false
  \/ exists payload,
       line = "data: " +:+ payload
       /\ payload <> "[DONE]"
       /\ match JSON_parse payload with
          | None => True
          | Some chunk => quiet_chunk chunk
          end.

(** [lines] continue the tool call at position [idx] that has been given
    [id] and [name]: each line is passed over or carries the next of
    [fragments]. *)
Inductive continues `{JSRuntime Part} (idx : Z) (id name : string)
  : list string -> list string -> Prop :=
| continues_nil : continues idx id name [] []
| continues_pass line lines fragments :
    passes line ->
    continues idx id name lines fragments ->
    continues idx id name (line :: lines) fragments
| continues_fragment line chunk oid oname fragment lines fragments :
    data_line line chunk ->
    fragment_chunk chunk idx oid oname fragment ->
    oid = None \/ oid = Some id ->
    oname = None \/ oname = Some name ->
    continues idx id name lines fragments ->
    continues idx id name (line :: lines) (fragment :: fragments).

(** The accumulators when one call, at position [idx], has been given
    [id] and [name] and the argument text [arguments] so far. *)
Definition call_state (idx : Z) (id name arguments : string)
  : OpenAI.stream_state :=
  {| OpenAI.toolCallAccumulator :=
       [(id, {| OpenAI.acc_id := id; OpenAI.acc_name := name;
                OpenAI.acc_arguments := arguments |})];
     OpenAI.indexToIdMap := {[ idx := id ]} |}.

(** What a generator has yielded when its loop body is left. *)
Definition yielded (o : OpenAI.line_outcome) : list GenerateContentResponse :=
  match o with
  | OpenAI.Continue ys _ => ys
  | OpenAI.Return ys => ys
  end.

(** The function calls of the non-streaming path for well-formed entries
    of [tool_calls]. *)
Definition single_shot_calls `{JSRuntime Part}
    (toolCalls : list OpenAI.wire_tool_call) : list FunctionCall :=
  flat_map (fun toolCall =>
              match OpenAI.tc_function toolCall with
              | Some fn =>
                  if bool_decide (OpenAI.tc_type toolCall = Some "function")
                  then [OpenAI.single_shot toolCall fn]
                  else []
              | None => []
              end) toolCalls.

(** ** Requests and streams used as examples *)

Module Scenario.

(** A history of one user [Content] that has no parts. *)
Definition zero_parts_request : GenerateContentParameters :=
  {| model := None;
     contents :=
       ContentsArray [ItemContent {| role := Some "user"; parts := Some [] |}];
     config := None |}.


(** A history of one [Content] with role [system]. *)
Definition system_request : GenerateContentParameters :=
  {| model := None;
     contents :=
       ContentsArray
         [ItemContent {| role := Some "system";
                         parts := Some [text_part "Be brief."] |}];
     config := None |}.

(** A response unit that carries function calls and nothing else. *)
Definition calls_unit (calls : list FunctionCall)
  : GenerateContentResponse :=
  {| candidates := None; usageMetadata := None; response_text := None;
     functionCalls := Some calls |}.

(** A response unit that carries text and nothing else. *)
Definition text_unit (t : string) : GenerateContentResponse :=
  {| candidates := None; usageMetadata := None; response_text := Some t;
     functionCalls := None |}.

Definition call (id : option string) (name : string) : FunctionCall :=
  {| fc_id := id; fc_name := Some name; fc_args := None |}.

(** A run of [Turn.run] with fixed helpers: the text of a unit is its
    [text] field, errors are kept as they are, the clock and the random
    source are given. *)
Definition run (Date_now : nat -> N) (random_hex : nat -> string)
    (aborted : nat -> bool) (stream : TurnEngine.ResponseStream)
  : TurnEngine.RunResult :=
  TurnEngine.run response_text (fun e => e) TurnEngine.thrown_message
    Date_now random_hex aborted stream.

(** A clock that does not advance and a random source that repeats. *)
Definition frozen_clock (_ : nat) : N := 1700000000000%N.
Definition repeating_random (_ : nat) : string := "8f3a".

(** *** Wire text *)

(** A JSON string literal. *)
Fixpoint escape (s : string) : string :=
  match s with
  | EmptyString => EmptyString
  | String c r =>
      if Ascii.eqb c dq || Ascii.eqb c bslash
      then String bslash (String c (escape r))
      else String c (escape r)
  end.

Definition str (s : string) : string := quoted (escape s).
Definition member (k v : string) : string := quoted k +:+ ":" +:+ v.
Definition object (members : list string) : string :=
  "{" +:+ join "," members +:+ "}".
Definition array (items : list string) : string :=
  "[" +:+ join "," items +:+ "]".

(** *** The OpenAI-compatible stream of the call [search]

    Three chunks for one tool call: the first has id and name, the
    next two have the fragments [{"q":] and ["cats"}] of its
    arguments. *)

Definition delta_payload (toolCall : list string) : string :=
  object
    [member "choices"
       (array
          [object
             [member "delta"
                (object [member "tool_calls" (array [object toolCall])])]])].

Definition search_payloads : list string :=
  [delta_payload
     [member "index" "0"; member "id" (str "c1");
      member "function" (object [member "name" (str "search")])];
   delta_payload
     [member "index" "0";
      member "function"
        (object [member "arguments" (str ("{" +:+ quoted "q" +:+ ":"))])];
   delta_payload
     [member "index" "0";
      member "function"
        (object [member "arguments" (str (quoted "cats" +:+ "}"))])]].

(** The lines of the stream: every [data: ] line is followed by an
    empty line, and a closing chunk comes before the terminator. *)
Definition search_first : string :=
  "data: " +:+ nth 0 search_payloads "".

(** The chunk that closes the message: an empty delta and the finish
    reason. *)
Definition finish_payload : string :=
  object
    [member "choices"
       (array
          [object [member "delta" "{}";
                   member "finish_reason" (str "tool_calls")]])].

Definition search_rest : list string :=
  [""; "data: " +:+ nth 1 search_payloads ""; "";
   "data: " +:+ nth 2 search_payloads ""; "";
   "data: " +:+ finish_payload; ""].

(** The text of the stream, cut into reads in the middle of lines. *)
Definition search_reads : list string :=
  let text := unlines (search_first :: search_rest ++ [done_line]) in
  [String.substring 0 100 text;
   String.substring 100 57 text;
   String.substring 157 (String.length text - 157) text].

(** The same fragments, with text that does not parse in place of the
    last one. *)
Definition broken_rest : list string :=
  [""; "data: " +:+ nth 1 search_payloads ""; "";
   "data: "
   +:+ delta_payload
         [member "index" "0";
          member "function" (object [member "arguments" (str "oops")])];
   ""].

(** *** The Anthropic stream of the call [lookup] *)

Definition lookup_start : string :=
  object
    [member "type" (str "content_block_start"); member "index" "0";
     member "content_block"
       (object [member "type" (str "tool_use"); member "id" (str "t1");
                member "name" (str "lookup"); member "input" "{}"])].

Definition lookup_delta (partial_json : string) : string :=
  object
    [member "type" (str "content_block_delta"); member "index" "0";
     member "delta"
       (object [member "type" (str "input_json_delta");
                member "partial_json" (str partial_json)])].

Definition lookup_stop : string :=
  object [member "type" (str "message_stop")].

Definition lookup_fragment_1 : string := "{" +:+ quoted "x" +:+ ":1".
Definition lookup_fragment_2 : string := "}".

Definition lookup_lines : list string :=
  ["event: content_block_start"; "data: " +:+ lookup_start; "";
   "event: content_block_delta";
   "data: " +:+ lookup_delta lookup_fragment_1; "";
   "event: content_block_delta";
   "data: " +:+ lookup_delta lookup_fragment_2; "";
   "event: message_stop"; "data: " +:+ lookup_stop; ""].

(** The events, as JSON documents. *)
Definition lookup_start_event : json :=
  JObj [("type", JStr "content_block_start"); ("index", JNum 0);
        ("content_block",
         JObj [("type", JStr "tool_use"); ("id", JStr "t1");
               ("name", JStr "lookup"); ("input", JObj [])])].

Definition lookup_delta_event (partial_json : string) : json :=
  JObj [("type", JStr "content_block_delta"); ("index", JNum 0);
        ("delta",
         JObj [("type", JStr "input_json_delta");
               ("partial_json", JStr partial_json)])].

Definition lookup_stop_event : json :=
  JObj [("type", JStr "message_stop")].

(** What a runtime has to read from the stream of [lookup]: the four
    events, and the accumulated arguments. *)
Definition reads_lookup (rt : JSRuntime Part) : Prop :=
  JSON_parse lookup_start = Some lookup_start_event
  /\ JSON_parse (lookup_delta lookup_fragment_1)
     = Some (lookup_delta_event lookup_fragment_1)
  /\ JSON_parse (lookup_delta lookup_fragment_2)
     = Some (lookup_delta_event lookup_fragment_2)
  /\ JSON_parse lookup_stop = Some lookup_stop_event
  /\ JSON_parse (lookup_fragment_1 +:+ lookup_fragment_2)
     = Some (JObj [("x", JNum 1)]).

End Scenario.

(** Discharging [data_line] and [fragment_chunk] on concrete wire text
    by evaluation. *)
Ltac read_data_line :=
  eexists; split; [reflexivity |];
  split; [vm_compute; discriminate | vm_compute; reflexivity].

Ltac read_fragment_chunk :=
  do 5 eexists; split_and!;
  [vm_compute; reflexivity .. | first [left; vm_compute; reflexivity
                                     | right; split; reflexivity]].

(* ===================================================================== *)
(** * Token counting and the non-streaming call *)
(* ===================================================================== *)

Module Http.
(** The [Response] a [fetch] resolves to, as far as the adapters read
    it; [body] is the text that [response.json()] parses. *)
Record Response := {
  ok : bool;
  status : Z;
  statusText : string;
  body : string;
}.
End Http.

Module Calls.

(** [extractTextFromContents], which both adapter classes define with
    the same body. *)
Definition extractTextFromContents (contents : list Content) : string :=
  join " "
    (map (fun content =>
            or_str
              (option_map
                 (fun ps =>
                    join " " (map (fun part => default "" (text part)) ps))
                 (parts content))
              "")
       contents).

(** [Math.ceil(n / d)] for integers [n] and [0 < d]. *)
Definition Math_ceil (n d : Z) : Z := - (- n / d).

(** [countTokens], which both adapter classes define with the same
    body: the [totalTokens] of the response.  The length of a string is
    the number of its code units. *)
Definition countTokens (contents : ContentListUnion) : Z :=
  let contents := normalizeContents contents in
  let text := extractTextFromContents contents in
  Math_ceil (Z.of_nat (String.length text)) 4.

Section OpenAI.
Context `{JSRuntime Part}.
Variable config : ContentGeneratorConfig.

(** [fetch(url, {method: 'POST', headers, body})], given the URL and the
    request that is serialised as the body: the response it resolves to,
    or what it rejects with. *)
Variable fetch : string -> OpenAI.OpenAIRequest -> exc string Http.Response.

(** [generateContent] of [OpenAICompatibleContentGenerator]; an
    exception is the message of an [Error] thrown, or the name of the
    built-in error raised. *)
Definition generateContent (request : GenerateContentParameters)
  : exc string GenerateContentResponse :=
  let openAIRequest := OpenAI.convertToOpenAIFormat config request in
  let url := spliced (cfg_baseUrl config) +:+ "/chat/completions" in
  match fetch url openAIRequest with
  | Throw e => Throw e
  | Ok response =>
      if negb (Http.ok response) then
        Throw ("HTTP " +:+ dec_Z (Http.status response) +:+ ": "
               +:+ Http.statusText response)
      else
        match JSON_parse (Http.body response) with
        | None => Throw "SyntaxError"
        | Some data =>
            match OpenAI.convertFromOpenAIFormat data false None None with
            | (_, _, Throw e) => Throw e
            | (_, _, Ok None) => Throw "Failed to convert OpenAI response"
            | (_, _, Ok (Some result)) => Ok result
            end
        end
  end.
End OpenAI.

End Calls.

(* ===================================================================== *)
(** * Authentication methods and generator configuration
      ([auth.ts] of the command line interface, [core/contentGenerator.ts]) *)
(* ===================================================================== *)

Module Auth.

(** The variables of [process.env] that are read; a variable that is not
    set is [None]. *)
Record Env := {
  GEMINI_API_KEY : option string;
  GOOGLE_API_KEY : option string;
  GOOGLE_CLOUD_PROJECT : option string;
  GOOGLE_CLOUD_LOCATION : option string;
  OPENAI_API_KEY : option string;
  ANTHROPIC_API_KEY : option string;
  LOCAL_LLM_API_KEY : option string;
  CUSTOM_BASE_URL : option string;
  CUSTOM_TIMEOUT : option string;
  AZURE_API_KEY : option string;
  AZURE_ENDPOINT_URL : option string;
  AZURE_API_VERSION : option string;
}.

(** The values of the [AuthType] enumeration. *)
Definition LOGIN_WITH_GOOGLE : string := "oauth-personal".
Definition USE_GEMINI : string := "gemini-api-key".
Definition USE_VERTEX_AI : string := "vertex-ai".
Definition USE_OPENAI_COMPATIBLE : string := "openai-compatible".
Definition USE_ANTHROPIC : string := "anthropic".
Definition USE_LOCAL_LLM : string := "local-llm".
Definition USE_AZURE : string := "azure".

(** The bullet character of the Vertex AI message, in UTF-8. *)
Definition bullet : string :=
  String (ascii_of_nat 226)
    (String (ascii_of_nat 128) (String (ascii_of_nat 162) EmptyString)).

(** [validateAuthMethod], on the environment [loadEnvironment] leaves;
    [None] is [null]. *)
Definition validateAuthMethod (env : Env) (authMethod : string)
  : option string :=
  if String.eqb authMethod LOGIN_WITH_GOOGLE then None
  else if String.eqb authMethod USE_GEMINI then
    if negb (truthy_ostr (GEMINI_API_KEY env)) then
      Some "GEMINI_API_KEY environment variable not found. Add that to your .env and try again, no reload needed!"
    else None
  else if String.eqb authMethod USE_AZURE then
    if negb (truthy_ostr (AZURE_API_KEY env))
       || negb (truthy_ostr (AZURE_ENDPOINT_URL env))
       || negb (truthy_ostr (AZURE_API_VERSION env)) then
      Some "AZURE_API_KEY, AZURE_ENDPOINT_URL, and AZURE_API_VERSION environment variables are required for Azure authentication. Add these to your .env file and try again!"
    else None
  else if String.eqb authMethod USE_VERTEX_AI then
    let hasVertexProjectLocationConfig :=
      truthy_ostr (GOOGLE_CLOUD_PROJECT env)
      && truthy_ostr (GOOGLE_CLOUD_LOCATION env) in
    let hasGoogleApiKey := truthy_ostr (GOOGLE_API_KEY env) in
    if negb hasVertexProjectLocationConfig && negb hasGoogleApiKey then
      Some ("Must specify GOOGLE_GENAI_USE_VERTEXAI=true and either:" +:+ nls
            +:+ bullet
            +:+ " GOOGLE_CLOUD_PROJECT and GOOGLE_CLOUD_LOCATION environment variables."
            +:+ nls +:+ bullet
            +:+ " GOOGLE_API_KEY environment variable (if using express mode)."
            +:+ nls
            +:+ "Update your .env and try again, no reload needed!")
    else None
  else if String.eqb authMethod USE_OPENAI_COMPATIBLE then
    if negb (truthy_ostr (OPENAI_API_KEY env)) then
      Some "OPENAI_API_KEY environment variable not found. Add that to your .env and try again, no reload needed!"
    else None
  else if String.eqb authMethod USE_ANTHROPIC then
    if negb (truthy_ostr (ANTHROPIC_API_KEY env)) then
      Some "ANTHROPIC_API_KEY environment variable not found. Add that to your .env and try again, no reload needed!"
    else None
  else if String.eqb authMethod USE_LOCAL_LLM then
    if negb (truthy_ostr (CUSTOM_BASE_URL env)) then
      Some "CUSTOM_BASE_URL environment variable not found. Add that to your .env and try again, no reload needed!"
    else None
  else Some "Invalid auth method selected.".

(** [s.includes(p)]. *)
Definition includes (p s : string) : bool :=
  match cut p s with Some _ => true | None => false end.

(** The configuration [createContentGeneratorConfig] builds: the fields
    of [ContentGeneratorConfig] the adapters read, and [vertexai]. *)
Record CreatedConfig := {
  settings : ContentGeneratorConfig;
  vertexai : option bool;
}.

Section Create.
(** [DEFAULT_GEMINI_MODEL] of [config/models.ts], [getEffectiveModel] of
    [core/modelCheck.ts], and [parseInt(s, 10)], which is [None] where
    the result is [NaN]. *)
Variable DEFAULT_GEMINI_MODEL : string.
Variable getEffectiveModel : string -> string -> string.
Variable parseInt : string -> option Z.

(** [createContentGeneratorConfig(model, authType, config)]; [getModel]
    is [config?.getModel?.()], and an exception is the message of the
    [Error] thrown. *)
Definition createContentGeneratorConfig (env : Env) (model : option string)
    (authType : option string) (getModel : option string)
  : exc string CreatedConfig :=
  let geminiApiKey := GEMINI_API_KEY env in
  let googleApiKey := GOOGLE_API_KEY env in
  let googleCloudProject := GOOGLE_CLOUD_PROJECT env in
  let googleCloudLocation := GOOGLE_CLOUD_LOCATION env in
  let openaiApiKey := OPENAI_API_KEY env in
  let anthropicApiKey := ANTHROPIC_API_KEY env in
  let localLlmApiKey := LOCAL_LLM_API_KEY env in
  let customBaseUrl := CUSTOM_BASE_URL env in
  let customTimeout := CUSTOM_TIMEOUT env in
  let azureApiKey := AZURE_API_KEY env in
  let azureEndpointUrl := AZURE_ENDPOINT_URL env in
  let azureApiVersion := AZURE_API_VERSION env in
  let effectiveModel := or_str getModel (or_str model DEFAULT_GEMINI_MODEL) in
  let timeout :=
    if truthy_ostr customTimeout then parseInt (default "" customTimeout)
    else None in
  let made (model : string) (apiKey baseUrl apiVersion : option string)
      (vertexai : option bool) :=
    {| settings :=
         {| cfg_model := model; cfg_apiKey := apiKey;
            cfg_authType := authType; cfg_baseUrl := baseUrl;
            cfg_apiVersion := apiVersion; cfg_timeout := timeout |};
       vertexai := vertexai |} in
  if bool_decide (authType = Some LOGIN_WITH_GOOGLE) then
    Ok (made effectiveModel None customBaseUrl None None)
  else if bool_decide (authType = Some USE_GEMINI)
          && truthy_ostr geminiApiKey then
    Ok (made (getEffectiveModel (default "" geminiApiKey) effectiveModel)
          geminiApiKey customBaseUrl None None)
  else if bool_decide (authType = Some USE_AZURE) then
    if negb (truthy_ostr azureApiKey) || negb (truthy_ostr azureEndpointUrl)
       || negb (truthy_ostr azureApiVersion) then
      Throw "AZURE_API_KEY, AZURE_ENDPOINT_URL, and AZURE_API_VERSION must be set for Azure auth type."
    else
      Ok (made effectiveModel azureApiKey azureEndpointUrl azureApiVersion
            None)
  else if bool_decide (authType = Some USE_VERTEX_AI)
          && truthy_ostr googleApiKey && truthy_ostr googleCloudProject
          && truthy_ostr googleCloudLocation then
    Ok (made (getEffectiveModel (default "" googleApiKey) effectiveModel)
          googleApiKey customBaseUrl None (Some true))
  else if bool_decide (authType = Some USE_OPENAI_COMPATIBLE) then
    if negb (truthy_ostr openaiApiKey) then
      Throw "OPENAI_API_KEY environment variable is required for openai-compatible auth type."
    else
      Ok (made (if includes "gemini" effectiveModel then "gpt-4.1"
                else effectiveModel)
            openaiApiKey (Some (or_str customBaseUrl "https://api-key.info/v1"))
            None None)
  else if bool_decide (authType = Some USE_ANTHROPIC) then
    if negb (truthy_ostr anthropicApiKey) then
      Throw "ANTHROPIC_API_KEY environment variable is required for anthropic auth type."
    else
      Ok (made (if includes "gemini" effectiveModel
                then "claude-sonnet-4-20250514" else effectiveModel)
            anthropicApiKey (Some (or_str customBaseUrl "https://api-key.info"))
            None None)
  else if bool_decide (authType = Some USE_LOCAL_LLM) then
    Ok (made (if includes "gemini" effectiveModel then "llama2"
              else effectiveModel)
          (Some (or_str localLlmApiKey "dummy-key"))
          (Some (or_str customBaseUrl "http://localhost:8080"))
          None None)
  else Ok (made effectiveModel None customBaseUrl None None).
End Create.

Section Generator.
(** The classes that can be registered at run time. *)
Variable GeneratorClass : Type.

(** What [createContentGenerator] returns: the Code Assist generator,
    the [models] of a [GoogleGenAI] client built from a key and the
    [vertexai] flag, or an adapter. *)
Inductive Generator :=
| CodeAssist (authType : string)
| GoogleGenAIModels (apiKey : option string) (vertexai : option bool)
| Adapter (generator : Registry.ContentGenerator GeneratorClass).

(** [createContentGenerator(config)] *)
Definition createContentGenerator (reg : gmap string GeneratorClass)
    (config : CreatedConfig) : exc string Generator :=
  let authType := cfg_authType (settings config) in
  if bool_decide (authType = Some LOGIN_WITH_GOOGLE) then
    Ok (CodeAssist LOGIN_WITH_GOOGLE)
  else if bool_decide (authType = Some USE_GEMINI)
          || bool_decide (authType = Some USE_VERTEX_AI) then
    Ok (GoogleGenAIModels
          (if bool_decide (cfg_apiKey (settings config) = Some "")
           then None else cfg_apiKey (settings config))
          (vertexai config))
  else
    match authType with
    | Some (String c r) =>
        match Registry.createCustomContentGenerator GeneratorClass reg
                (String c r) (settings config) with
        | Ok generator => Ok (Adapter generator)
        | Throw e => Throw e
        end
    | Some EmptyString | None => Throw "Auth type is required"
    end.
End Generator.

End Auth.

(* ===================================================================== *)
(** * The table of Claude models *)
(* ===================================================================== *)

Module ClaudeModels.

Inductive Category := opus | sonnet | haiku.

Definition category_eqb (a b : Category) : bool :=
  match a, b with
  | opus, opus | sonnet, sonnet | haiku, haiku => true
  | _, _ => false
  end.

Record ClaudeModel := {
  name : string;
  displayName : string;
  description : string;
  category : Category;
  hasThinking : bool;
  version : string;
}.

Definition CLAUDE_MODELS : list ClaudeModel :=
  [ {| name := "claude-opus-4-20250514";
       displayName := "Claude Opus 4";
       description :=
         "Most powerful Claude model for complex reasoning and analysis";
       category := opus; hasThinking := false; version := "4.0" |};
    {| name := "claude-opus-4-20250514-thinking";
       displayName := "Claude Opus 4 (Thinking)";
       description :=
         "Most powerful Claude model with visible reasoning process";
       category := opus; hasThinking := true; version := "4.0" |};
    {| name := "claude-sonnet-4-20250514";
       displayName := "Claude Sonnet 4";
       description := "Latest Sonnet model with improved capabilities";
       category := sonnet; hasThinking := false; version := "4.0" |};
    {| name := "claude-sonnet-4-20250514-thinking";
       displayName := "Claude Sonnet 4 (Thinking)";
       description := "Latest Sonnet model with visible reasoning process";
       category := sonnet; hasThinking := true; version := "4.0" |};
    {| name := "claude-3-5-haiku-20241022";
       displayName := "Claude 3.5 Haiku";
       description := "Fast and efficient model for quick tasks";
       category := haiku; hasThinking := false; version := "3.5" |} ].

Definition getAvailableClaudeModels : list ClaudeModel := CLAUDE_MODELS.

Definition getClaudeModelsByCategory (c : Category) : list ClaudeModel :=
  List.filter (fun model => category_eqb (category model) c) CLAUDE_MODELS.

Definition getThinkingClaudeModels : list ClaudeModel :=
  List.filter (fun model => hasThinking model) CLAUDE_MODELS.

Definition getNonThinkingClaudeModels : list ClaudeModel :=
  List.filter (fun model => negb (hasThinking model)) CLAUDE_MODELS.

Definition findClaudeModel (n : string) : option ClaudeModel :=
  List.find (fun model => String.eqb (name model) n) CLAUDE_MODELS.

Definition isValidClaudeModel (n : string) : bool :=
  existsb (fun model => String.eqb (name model) n) CLAUDE_MODELS.

(** [CLAUDE_MODELS.find(...) || CLAUDE_MODELS[0]]; [None] is
    [undefined]. *)
Definition getDefaultClaudeModel : option ClaudeModel :=
  match List.find (fun model =>
                     String.eqb (name model) "claude-sonnet-4-20250514")
          CLAUDE_MODELS with
  | Some model => Some model
  | None => head CLAUDE_MODELS
  end.

End ClaudeModels.

(* ===================================================================== *)
(** * Further notions used to state properties *)
(* ===================================================================== *)

(** A line of an OpenAI-compatible stream that is ignored: it is not a
    [data: ] line, or its payload is not the terminator and does not
    parse. *)
Definition skipped `{JSRuntime Part} (line : string) : Prop :=
  startsWith "data: " line = false
  \/ exists payload,
       line = "data: " +:+ payload
       /\ payload <> "[DONE]"
       /\ JSON_parse payload = None.



(** A response that carries no function call. *)
Definition no_calls (response : GenerateContentResponse) : Prop :=
  functionCalls response = Some [].

(** What ends a stream of responses: nothing, or one response that
    carries completed function calls, at least one. *)
Definition closing (final : list GenerateContentResponse) : Prop :=
  final = []
  \/ exists calls, calls <> [] /\ final = [completed_response calls].

(** ** Events of an Anthropic stream *)

(** [line] is a [data: ] line whose payload parses to the event
    [event]. *)
Definition event_line `{JSRuntime Part} (line : string)
    (event : Anthropic.wire_data) : Prop :=
  exists payload chunk,
    line = "data: " +:+ payload
    /\ JSON_parse payload = Some chunk
    /\ Anthropic.as_data chunk = Some event.

(** The key under which the accumulator keeps the block of an event. *)
Definition block_key (idx : Z) : string := "index_" +:+ dec_Z idx.

Definition block_index (event : Anthropic.wire_data) : Z :=
  or_num (Anthropic.d_index event) 0.

Definition delta_type (event : Anthropic.wire_data) : option string :=
  match Anthropic.d_delta event with
  | Some delta => Anthropic.dl_type delta
  | None => None
  end.

(** A [content_block_start] event of a [tool_use] block with the given
    id and name. *)
Definition block_start (event : Anthropic.wire_data)
    (id name : option string) : Prop :=
  Anthropic.d_type event = Some "content_block_start"
  /\ exists block,
       Anthropic.d_content_block event = Some block
       /\ Anthropic.cb_type block = Some "tool_use"
       /\ Anthropic.cb_id block = id
       /\ Anthropic.cb_name block = name.

(** A [content_block_delta] event that carries a fragment of the input
    of a tool call. *)
Definition input_delta (event : Anthropic.wire_data) (fragment : string)
  : Prop :=
  Anthropic.d_type event = Some "content_block_delta"
  /\ delta_type event = Some "input_json_delta"
  /\ or_str (match Anthropic.d_delta event with
             | Some delta => Anthropic.dl_partial_json delta
             | None => None
             end) "" = fragment.

(** A [content_block_delta] event that carries text. *)
Definition text_delta (event : Anthropic.wire_data) (t : string) : Prop :=
  Anthropic.d_type event = Some "content_block_delta"
  /\ delta_type event = Some "text_delta"
  /\ or_str (match Anthropic.d_delta event with
             | Some delta => Anthropic.dl_text delta
             | None => None
             end) "" = t.

(** An event that has nothing to do with tool calls: a delta other than
    an input fragment, the start of a block other than a tool use, or
    an event of another type. *)
Definition quiet_event (event : Anthropic.wire_data) : Prop :=
  if bool_decide (Anthropic.d_type event = Some "content_block_delta")
  then delta_type event <> Some "input_json_delta"
  else if bool_decide (Anthropic.d_type event = Some "content_block_start")
  then match Anthropic.d_content_block event with
       | Some block => Anthropic.cb_type block <> Some "tool_use"
       | None => True
       end
  else True.

(** A line of an Anthropic stream that has nothing to do with tool
    calls: an [event: ] line, a line that is not a [data: ] line, or a
    [data: ] line whose payload does not parse, parses to [null], or
    parses to a quiet event. *)
Definition anthropic_passes `{JSRuntime Part} (line : string) : Prop :=
  startsWith "event: " line = true
  \/ startsWith "data: " line = false
  \/ exists payload,
       line = "data: " +:+ payload
       /\ match JSON_parse payload with
          | None => True
          | Some chunk =>
              match Anthropic.as_data chunk with
              | None => True
              | Some event => quiet_event event
              end
          end.

(** [lines] continue the tool-use block at position [idx]: each line is
    passed over or carries the next of [fragments]. *)
Inductive anthropic_continues `{JSRuntime Part} (idx : Z)
  : list string -> list string -> Prop :=
| anthropic_continues_nil : anthropic_continues idx [] []
| anthropic_continues_pass line lines fragments :
    anthropic_passes line ->
    anthropic_continues idx lines fragments ->
    anthropic_continues idx (line :: lines) fragments
| anthropic_continues_fragment line event fragment lines fragments :
    event_line line event ->
    input_delta event fragment ->
    block_index event = idx ->
    anthropic_continues idx lines fragments ->
    anthropic_continues idx (line :: lines) (fragment :: fragments).

(** The accumulator when one block, at position [idx], has been started
    with [id] and [name] and has received the input text [input]. *)
Definition block_state (idx : Z) (id name : option string) (input : string)
  : Anthropic.ToolCallAccumulator :=
  [(block_key idx,
    {| Anthropic.acc_id := id; Anthropic.acc_name := name;
       Anthropic.acc_input := input |})].

(** The arguments a completed call gets from the accumulated text. *)
Definition parsed_arguments `{JSRuntime Part} (text : string) : json :=
  if truthy_str text then default empty_object (JSON_parse text)
  else empty_object.

(** ** Text chunks and trimmed lines *)

(** [chunk] is a streaming chunk of the OpenAI wire format whose delta
    has no tool calls and the text [t] ([t] is empty when the delta or
    its content is missing), with the given finish reason. *)
Definition text_chunk (chunk : json) (t : string) (reason : option string)
  : Prop :=
  exists d choice,
    OpenAI.as_data chunk = Some d
    /\ OpenAI.d_choice0 d = Some choice
    /\ OpenAI.c_finish_reason choice = reason
    /\ match OpenAI.c_delta choice with
       | Some delta =>
           OpenAI.m_tool_calls delta = None
           /\ or_str (OpenAI.m_content delta) "" = t
       | None => t = ""
       end.

(** The payload of a [data: ] line has no white space around it. *)
Definition trimmed (line : string) : Prop :=
  trim (slice 6 line) = slice 6 line.

(** ** Further wire text used as examples *)

Module Examples.
Import Scenario.

(** A [text_delta] event of an Anthropic stream. *)
Definition anthropic_text_delta (t : string) : string :=
  object
    [member "type" (str "content_block_delta"); member "index" "0";
     member "delta"
       (object [member "type" (str "text_delta"); member "text" (str t)])].

(** A chunk of an OpenAI-compatible stream that carries text. *)
Definition openai_text_chunk (t : string) : string :=
  object
    [member "choices"
       (array [object [member "delta" (object [member "content" (str t)])]])].

(** A complete OpenAI response with one message. *)
Definition openai_message (t : string) : string :=
  object
    [member "choices"
       (array
          [object [member "message" (object [member "content" (str t)]);
                   member "finish_reason" (str "stop")]]);
     member "usage"
       (object [member "prompt_tokens" "3"; member "completion_tokens" "5";
                member "total_tokens" "8"])].

(** The argument text of the call [search], whole. *)
Definition search_arguments : string :=
  "{" +:+ quoted "q" +:+ ":" +:+ quoted "cats" +:+ "}".

(** A chunk that carries the call [search] whole. *)
Definition whole_call_payload : string :=
  delta_payload
    [member "index" "0"; member "id" (str "c1");
     member "function"
       (object [member "name" (str "search");
                member "arguments" (str search_arguments)])].

(** The entry of [tool_calls] for the call [search], as it is read. *)
Definition search_entry : OpenAI.wire_tool_call :=
  {| OpenAI.tc_index := None; OpenAI.tc_id := Some "c1";
     OpenAI.tc_type := Some "function";
     OpenAI.tc_function :=
       Some {| OpenAI.fn_name := Some "search";
               OpenAI.fn_arguments := Some (JStr search_arguments) |} |}.

(** A complete OpenAI response whose message carries the call
    [search]. *)
Definition openai_call_message : string :=
  object
    [member "choices"
       (array
          [object
             [member "message"
                (object
                   [member "content" "null";
                    member "tool_calls"
                      (array
                         [object
                            [member "id" (str "c1");
                             member "type" (str "function");
                             member "function"
                               (object
                                  [member "name" (str "search");
                                   member "arguments"
                                     (str search_arguments)])]])]);
              member "finish_reason" (str "tool_calls")]])].

End Examples.

(** ** Events of a turn *)

(** The tool call requests among the events of a run, in order. *)
Definition requests (events : list TurnEngine.ServerGeminiStreamEvent)
  : list TurnEngine.ToolCallRequestInfo :=
  omap (fun event =>
          match event with
          | TurnEngine.ToolCallRequest info => Some info
          | _ => None
          end) events.

(** An event the loop body yields for a unit: text, a thought, or a tool
    call request. *)
Definition ordinary (event : TurnEngine.ServerGeminiStreamEvent) : Prop :=
  match event with
  | TurnEngine.Content _ | TurnEngine.Thought _
  | TurnEngine.ToolCallRequest _ => True
  | TurnEngine.UserCancelled | TurnEngine.Error _ => False
  end.

(** A string of white space only, and a string with no white space at
    its start. *)
Fixpoint white (s : string) : bool :=
  match s with
  | EmptyString => true
  | String c r => is_space_char c && white r
  end.

Definition starts_bare (s : string) : Prop :=
  match s with
  | EmptyString => True
  | String c _ => is_space_char c = false
  end.

(** [t] is [s] without the white space at its two ends. *)
Definition stripped (s t : string) : Prop :=
  exists l r,
    s = l +:+ t +:+ r
    /\ white l = true /\ white r = true
    /\ starts_bare t /\ starts_bare (String.rev t).

(** The no-break space. *)
Definition nbsp : string := String (ascii_of_nat 160) "".

(** [a] and [b] are the text before and after the first occurrence of
    [p] in [s]. *)
Definition first_cut (p s a b : string) : Prop :=
  s = a +:+ p +:+ b
  /\ forall a' b', s = a' +:+ p +:+ b' -> exists x, a' = a +:+ x.

(** ** Environments used as examples *)

Module Environments.

(** Only the key of the Anthropic API is set. *)
Definition anthropic : Auth.Env :=
  {| Auth.GEMINI_API_KEY := None; Auth.GOOGLE_API_KEY := None;
     Auth.GOOGLE_CLOUD_PROJECT := None; Auth.GOOGLE_CLOUD_LOCATION := None;
     Auth.OPENAI_API_KEY := None; Auth.ANTHROPIC_API_KEY := Some "sk-ant";
     Auth.LOCAL_LLM_API_KEY := None; Auth.CUSTOM_BASE_URL := None;
     Auth.CUSTOM_TIMEOUT := None; Auth.AZURE_API_KEY := None;
     Auth.AZURE_ENDPOINT_URL := None; Auth.AZURE_API_VERSION := None |}.

(** The helpers of other files, fixed: the default model, a model check
    that keeps the model, and a [parseInt] that reads nothing. *)
Definition DEFAULT_GEMINI_MODEL : string := "gemini-2.5-pro".
Definition getEffectiveModel (_ model : string) : string := model.
Definition parseInt (_ : string) : option Z := None.

End Environments.

(** Settling a conjunct of a statement about one selector: by
    evaluation, because its premise compares different selectors, or
    from the environment. *)
Ltac settle_selector :=
  first [ reflexivity
        | discriminate
        | by intros [? | ?]
        | (intros ?; discriminate)
        | (intros ? ?; congruence)
        | (intros _ _;
           first [ assumption
                 | match goal with
                   | |- context [or_str ?o _] => by destruct o as [[| ? ?] |]
                   end ]) ].

(** Replacing the selector tests of the configuration code, which are
    comparisons of literals, by their values. *)
Ltac decide_selectors :=
  repeat match goal with
         | |- context [bool_decide (Some ?a = Some ?b)] =>
             let v := eval vm_compute in (bool_decide (Some a = Some b)) in
             change (bool_decide (Some a = Some b)) with v
         end;
  cbv iota.

(** ** Complete messages *)

(** The text of the [text] blocks of a complete Anthropic message, and
    the function calls of its [tool_use] blocks, in order. *)
Definition block_text (blocks : list Anthropic.wire_block) : string :=
  joined
    (map (fun block => or_str (Anthropic.cb_text block) "")
       (List.filter
          (fun block => bool_decide (Anthropic.cb_type block = Some "text"))
          blocks)).

Definition block_calls (blocks : list Anthropic.wire_block)
  : list FunctionCall :=
  map (fun block =>
         {| fc_id := Anthropic.cb_id block;
            fc_name := Anthropic.cb_name block;
            fc_args :=
              Some (match Anthropic.cb_input block with
                    | Some a => if truthy a then a else empty_object
                    | None => empty_object
                    end) |})
    (List.filter
       (fun block =>
          negb (bool_decide (Anthropic.cb_type block = Some "text"))
          && bool_decide (Anthropic.cb_type block = Some "tool_use"))
       blocks).

(** A token count of a usage record, [0] when it is missing. *)
Definition anthropic_tokens (d : Anthropic.wire_data)
    (count : Anthropic.wire_usage -> option Z) : Z :=
  or_num (match Anthropic.d_usage d with
          | Some u => count u
          | None => None
          end) 0.

Definition openai_tokens (d : OpenAI.wire_data)
    (count : OpenAI.wire_usage -> option Z) : Z :=
  or_num (match OpenAI.d_usage d with
          | Some u => count u
          | None => None
          end) 0.

(** The function calls of a complete OpenAI message: one for each entry
    of [tool_calls] that has type [function] and a function, in order,
    with the id of the entry, the name of the function and, as
    arguments, the parse of the argument text; the arguments are the
    empty object when the text does not parse or when there are none,
    and arguments that are not text are taken as they are. *)
Definition message_calls `{JSRuntime Part}
    (toolCalls : list OpenAI.wire_tool_call) : list FunctionCall :=
  omap (fun toolCall =>
          match OpenAI.tc_function toolCall with
          | Some fn =>
              if bool_decide (OpenAI.tc_type toolCall = Some "function")
              then
                Some {| fc_id := OpenAI.tc_id toolCall;
                        fc_name := OpenAI.fn_name fn;
                        fc_args :=
                          Some match OpenAI.fn_arguments fn with
                               | Some (JStr text) =>
                                   default empty_object (JSON_parse text)
                               | Some arguments =>
                                   if truthy arguments then arguments
                                   else empty_object
                               | None => empty_object
                               end |}
              else None
          | None => None
          end) toolCalls.

Module Messages.
Import Scenario.

(** A complete Anthropic message: text, then a tool use. *)
Definition anthropic_message : string :=
  object
    [member "content"
       (array
          [object [member "type" (str "text"); member "text" (str "Sure.")];
           object [member "type" (str "tool_use"); member "id" (str "t1");
                   member "name" (str "lookup");
                   member "input" (object [member "x" "1"])]]);
     member "stop_reason" (str "tool_use");
     member "usage"
       (object [member "input_tokens" "3"; member "output_tokens" "5"])].

(** A request for JSON that conforms to a schema, with one user
    message. *)
Definition json_request : GenerateContentParameters :=
  {| model := None;
     contents := ContentsString "List three colours.";
     config :=
       Some {| responseMimeType := Some "application/json";
               responseSchema := Some (JObj [("type", JStr "array")]);
               maxOutputTokens := None; tools := None |} |}.

(** A [fetch] that resolves to the given response. *)
Definition resolves (response : Http.Response)
  : string -> OpenAI.OpenAIRequest -> exc string Http.Response :=
  fun _ _ => Ok response.

Definition ok_response (body : string) : Http.Response :=
  {| Http.ok := true; Http.status := 200; Http.statusText := "OK";
     Http.body := body |}.

End Messages.

(** ** Histories *)

(** A [Content] none of whose parts is a tool result. *)
Definition no_tool_result (content : Content) : Prop :=
  Forall (fun part => functionResponse part = None)
    (default [] (parts content)).

(** ** Streams of text *)

(** An event of an Anthropic stream for which nothing is yielded and
    nothing is accumulated. *)
Definition silent_event (event : Anthropic.wire_data) : Prop :=
  if bool_decide (Anthropic.d_type event = Some "content_block_delta")
  then delta_type event <> Some "text_delta"
       /\ delta_type event <> Some "input_json_delta"
  else if bool_decide (Anthropic.d_type event = Some "content_block_start")
  then match Anthropic.d_content_block event with
       | Some block => Anthropic.cb_type block <> Some "tool_use"
       | None => True
       end
  else True.

(** A line of an Anthropic stream for which nothing is yielded and
    nothing is accumulated: an [event: ] line, a line that is not a
    [data: ] line, or a [data: ] line whose payload does not parse,
    parses to [null], or parses to a silent event. *)
Definition anthropic_silent `{JSRuntime Part} (line : string) : Prop :=
  startsWith "event: " line = true
  \/ startsWith "data: " line = false
  \/ exists payload,
       line = "data: " +:+ payload
       /\ match JSON_parse payload with
          | None => True
          | Some chunk =>
              match Anthropic.as_data chunk with
              | None => True
              | Some event => silent_event event
              end
          end.

(** [lines] are the lines of an Anthropic stream that carries the text
    deltas [texts], in order, and no tool call. *)
Inductive anthropic_text_lines `{JSRuntime Part}
  : list string -> list string -> Prop :=
| anthropic_text_nil : anthropic_text_lines [] []
| anthropic_text_silent line lines texts :
    anthropic_silent line ->
    anthropic_text_lines lines texts ->
    anthropic_text_lines (line :: lines) texts
| anthropic_text_delta line event t lines texts :
    event_line line event ->
    text_delta event t ->
    anthropic_text_lines lines texts ->
    anthropic_text_lines (line :: lines) (t :: texts).

(** [lines] are the lines of an OpenAI-compatible stream that carries
    the texts [texts], in order, in chunks without tool calls; chunks
    without text may stand between them. *)
Inductive openai_text_lines `{JSRuntime Part}
  : list string -> list string -> Prop :=
| openai_text_nil : openai_text_lines [] []
| openai_text_skipped line lines texts :
    skipped line ->
    openai_text_lines lines texts ->
    openai_text_lines (line :: lines) texts
| openai_text_empty line chunk reason lines texts :
    data_line line chunk ->
    text_chunk chunk "" reason ->
    openai_text_lines lines texts ->
    openai_text_lines (line :: lines) texts
| openai_text_chunk line chunk c r reason lines texts :
    data_line line chunk ->
    text_chunk chunk (String c r) reason ->
    openai_text_lines lines texts ->
    openai_text_lines (line :: lines) (String c r :: texts).

(** ** Streams of several tool calls *)

(** A logical tool call of an OpenAI-compatible stream: the position
    its chunks carry, its id and its name. *)
Record logical_call := {
  lc_index : Z;
  lc_id : string;
  lc_name : string;
}.

(** The calls a stream has opened, in the order in which it opened
    them, each with the fragments of its arguments received so far. *)
Definition open_calls := list (logical_call * list string).

(** [chunk] is a streaming chunk whose delta carries the entries
    [entries] of [tool_calls]. *)
Definition calls_chunk (chunk : json)
    (entries : list (option OpenAI.wire_tool_call)) : Prop :=
  exists d choice delta,
    OpenAI.as_data chunk = Some d
    /\ OpenAI.d_choice0 d = Some choice
    /\ OpenAI.c_delta choice = Some delta
    /\ OpenAI.m_tool_calls delta = Some entries.

(** [toolCall] is an entry of [tool_calls] for the position [idx], with
    the given id, name and argument fragment. *)
Definition call_fragment (toolCall : OpenAI.wire_tool_call) (idx : Z)
    (id name : option string) (fragment : string) : Prop :=
  exists fn,
    or_num (OpenAI.tc_index toolCall) 0 = idx
    /\ OpenAI.tc_id toolCall = id
    /\ OpenAI.tc_function toolCall = Some fn
    /\ OpenAI.fn_name fn = name
    /\ (OpenAI.fn_arguments fn = Some (JStr fragment)
        \/ (OpenAI.fn_arguments fn = None /\ fragment = "")).

(** The entries of one chunk, received by the calls [opened].  An entry
    without a function is skipped; an entry opens a call at a position
    and with an id that no open call has (it carries the id, the name
    and the first fragment); or an entry carries the next fragment of
    the open call at its position (and may repeat the id and the name
    of that call). *)
Inductive receives
  : open_calls -> list (option OpenAI.wire_tool_call) -> open_calls
    -> Prop :=
| receives_nil opened : receives opened [] opened
| receives_skip opened toolCall entries final :
    OpenAI.tc_function toolCall = None ->
    receives opened entries final ->
    receives opened (Some toolCall :: entries) final
| receives_open opened toolCall call fragment entries final :
    call_fragment toolCall (lc_index call) (Some (lc_id call))
      (Some (lc_name call)) fragment ->
    lc_id call <> "" ->
    lc_index call ∉ map (fun entry => lc_index entry.1) opened ->
    lc_id call ∉ map (fun entry => lc_id entry.1) opened ->
    receives (opened ++ [(call, [fragment])]) entries final ->
    receives opened (Some toolCall :: entries) final
| receives_fragment before call fragments after toolCall oid oname fragment
    entries final :
    call_fragment toolCall (lc_index call) oid oname fragment ->
    oid = None \/ oid = Some (lc_id call) ->
    oname = None \/ oname = Some (lc_name call) ->
    receives (before ++ (call, fragments ++ [fragment]) :: after) entries
      final ->
    receives (before ++ (call, fragments) :: after) (Some toolCall :: entries)
      final.

(** [lines] deliver tool calls.  Starting with the calls [opened], each
    line is passed over or is a [data: ] line whose chunk carries
    entries that the open calls receive; [final] are the calls and
    their fragments at the end. *)
Inductive delivers `{JSRuntime Part}
  : open_calls -> list string -> open_calls -> Prop :=
| delivers_nil opened : delivers opened [] opened
| delivers_pass opened line lines final :
    passes line ->
    delivers opened lines final ->
    delivers opened (line :: lines) final
| delivers_chunk opened line chunk entries received lines final :
    data_line line chunk ->
    calls_chunk chunk entries ->
    receives opened entries received ->
    delivers received lines final ->
    delivers opened (line :: lines) final.

(** Open calls have pairwise distinct positions and pairwise distinct
    ids, none of them empty. *)
Definition distinct_calls (opened : open_calls) : Prop :=
  NoDup (map (fun entry => lc_index entry.1) opened)
  /\ NoDup (map (fun entry => lc_id entry.1) opened)
  /\ Forall (fun entry => lc_id entry.1 <> "") opened.

(** The accumulators of the generator when it has received the
    fragments of [opened]. *)
Definition call_entry (entry : logical_call * list string)
  : string * OpenAI.Accumulated :=
  (lc_id entry.1,
   {| OpenAI.acc_id := lc_id entry.1; OpenAI.acc_name := lc_name entry.1;
      OpenAI.acc_arguments := joined entry.2 |}).

Definition index_map (calls : list logical_call) : gmap Z string :=
  fold_left (fun m call => <[lc_index call := lc_id call]> m) calls ∅.

Definition calls_state (opened : open_calls) : OpenAI.stream_state :=
  {| OpenAI.toolCallAccumulator := map call_entry opened;
     OpenAI.indexToIdMap := index_map (map fst opened) |}.

(** *** The stream of the calls [search] and [fetch]

    Two tool calls whose fragments alternate: [search] at position 0
    with the id [c1], [fetch] at position 1 with the id [c2]. *)
Module Parallel.
Import Scenario.

Definition search : logical_call :=
  {| lc_index := 0; lc_id := "c1"; lc_name := "search" |}.
Definition fetch : logical_call :=
  {| lc_index := 1; lc_id := "c2"; lc_name := "fetch" |}.

(** A chunk whose delta carries the given entries of [tool_calls]. *)
Definition entries_payload (toolCalls : list string) : string :=
  object
    [member "choices"
       (array
          [object
             [member "delta"
                (object [member "tool_calls" (array toolCalls)])]])].

Definition fragment_payload (position fragment : string) : string :=
  entries_payload
    [object
       [member "index" position;
        member "function" (object [member "arguments" (str fragment)])]].

(** The first chunk opens both calls; then their fragments
    alternate. *)
Definition lines : list string :=
  ["data: "
   +:+ entries_payload
         [object
            [member "index" "0"; member "id" (str "c1");
             member "function" (object [member "name" (str "search")])];
          object
            [member "index" "1"; member "id" (str "c2");
             member "function"
               (object [member "name" (str "fetch");
                        member "arguments" (str "{")])]];
   "";
   "data: " +:+ fragment_payload "0" ("{" +:+ quoted "q" +:+ ":");
   "data: " +:+ fragment_payload "1" (quoted "u" +:+ ":1}");
   "data: " +:+ fragment_payload "0" (quoted "cats" +:+ "}");
   "data: " +:+ finish_payload;
   ""].

(** The text of the stream, cut into reads in the middle of lines. *)
Definition reads : list string :=
  let text := unlines (lines ++ [done_line]) in
  [String.substring 0 120 text;
   String.substring 120 200 text;
   String.substring 320 (String.length text - 320) text].

End Parallel.

(** Discharging [calls_chunk] and [call_fragment] on concrete wire text
    by evaluation. *)
Ltac read_calls_chunk :=
  do 3 eexists; split_and!; vm_compute; reflexivity.

Ltac read_call_fragment :=
  eexists; split_and!;
  [vm_compute; reflexivity .. | first [left; vm_compute; reflexivity
                                     | right; split; reflexivity]].

(** ** Chunks whose ids and positions have the type of the protocol *)




(* ===================================================================== *)
(** * A concrete runtime *)
(* ===================================================================== *)

Module Concrete.
(** A runtime that reads JSON with [parse_json]; the renderers stand in
    for [JSON.stringify] and [String]. *)
Definition runtime : JSRuntime Part := {|
  JSON_parse := parse_json;
  JSON_stringify := fun _ => "{}";
  JSON_stringify_indent := fun _ => "{}";
  JSON_stringify_part := fun _ => "{}";
  JS_String := fun _ => "[object Object]";
|}.

Definition config : ContentGeneratorConfig :=
  {| cfg_model := "m"; cfg_apiKey := None; cfg_authType := None;
     cfg_baseUrl := None; cfg_apiVersion := None; cfg_timeout := None |}.
End Concrete.

(* ===================================================================== *)
(** * Properties of the adapter registry *)
(* ===================================================================== *)

Section RegistryFacts.
Context {GeneratorClass : Type}.
Implicit Types (reg : gmap string GeneratorClass) (sel : string).

Lemma builtin_ignores_registry reg reg' sel config :
  sel ∈ Registry.builtin_selectors ->
  Registry.createCustomContentGenerator GeneratorClass reg sel config
  = Registry.createCustomContentGenerator GeneratorClass reg' sel config.
Proof.
  unfold Registry.builtin_selectors. intros Hin.
  repeat (apply elem_of_cons in Hin as [-> | Hin]; [reflexivity |]).
  by apply elem_of_nil in Hin.
Qed.

Lemma custom_consults_registry reg sel config :
  sel ∉ Registry.builtin_selectors ->
  Registry.createCustomContentGenerator GeneratorClass reg sel config
  = match reg !! sel with
    | Some cls => Ok (Registry.Registered GeneratorClass cls config)
    | None =>
        Throw ("No content generator available for auth type: " +:+ sel)
    end.
Proof.
  unfold Registry.builtin_selectors, Registry.createCustomContentGenerator.
  intros Hnot.
  repeat match goal with
         | |- context [String.eqb sel ?k] =>
             destruct (String.eqb_spec sel k) as [-> | _];
             [exfalso; apply Hnot; set_solver |]
         end.
  reflexivity.
Qed.
End RegistryFacts.

(** C10: the four built-in selectors resolve to their built-in adapter
    whatever the registry holds, also right after a registration under
    that very selector; every other selector is resolved by the registry
    alone, and fails with an error naming the selector when nothing is
    registered for it. *)
Theorem builtin_selectors_shadow_registry :
  forall (GeneratorClass : Type) (reg : gmap string GeneratorClass)
         (cls : GeneratorClass) (sel : string)
         (config : ContentGeneratorConfig),
    let create := Registry.createCustomContentGenerator GeneratorClass in
    let register := Registry.registerContentGenerator GeneratorClass in
    create (register "openai-compatible" cls reg) "openai-compatible" config
    = Ok (Registry.OpenAICompatibleContentGenerator GeneratorClass config)
    /\ create (register "local-llm" cls reg) "local-llm" config
       = Ok (Registry.OpenAICompatibleContentGenerator GeneratorClass config)
    /\ create (register "anthropic" cls reg) "anthropic" config
       = Ok (Registry.AnthropicContentGenerator GeneratorClass config)
    /\ create (register "azure" cls reg) "azure" config
       = Ok (Registry.AzureContentGenerator GeneratorClass
               (Azure.constructed config))
    /\ create reg sel config
       = (if bool_decide (sel ∈ Registry.builtin_selectors)
          then create ∅ sel config
          else match reg !! sel with
               | Some c => Ok (Registry.Registered GeneratorClass c config)
               | None =>
                   Throw ("No content generator available for auth type: "
                          +:+ sel)
               end).
Proof.
  intros GeneratorClass reg cls sel config create register.
  repeat split; try reflexivity.
  case_bool_decide as Hsel.
  - by apply builtin_ignores_registry.
  - by apply custom_consults_registry.
Qed.

(* ===================================================================== *)
(** * Properties of the Anthropic adapter: embeddings *)
(* ===================================================================== *)

(** C9: [embedContent] of the Anthropic adapter fails on every request
    with the error "Anthropic does not support embeddings"; it never
    resolves to a response, be it a zero vector or an empty one. *)
Theorem anthropic_embedContent_unsupported :
  forall (number : Type) (request : EmbedContentParameters),
    Anthropic.embedContent (number := number) request
    = Throw "Anthropic does not support embeddings"
    /\ forall response : EmbedContentResponse number,
         Anthropic.embedContent request <> Ok response.
Proof.
  intros number request. split; [reflexivity | discriminate].
Qed.

(* ===================================================================== *)
(** * Properties of the tool executor *)
(* ===================================================================== *)

Section ExecutorFacts.
Import TurnEngine Executor.
Context {PartListUnion ToolResultDisplay : Type}.
Variable convertToFunctionResponse :
  string -> string -> PartListUnion -> exc Raised PartListUnion.
Variable toolRegistry :
  gmap string (RegisteredTool PartListUnion ToolResultDisplay).
Variable Date_now : nat -> Z.

Let run := executeToolCall PartListUnion ToolResultDisplay
             convertToFunctionResponse toolRegistry Date_now.

Lemma executeToolCall_not_found request abortSignal :
  toolRegistry !! name request = None ->
  (run request abortSignal).1
  = error_response PartListUnion ToolResultDisplay request
      ("Tool " +:+ quoted (name request) +:+ " not found in registry.").
Proof. intros Hnone. unfold run, executeToolCall. by rewrite Hnone. Qed.

Lemma executeToolCall_execute_raises request abortSignal tool e :
  toolRegistry !! name request = Some tool ->
  execute _ _ tool (args request) (default false abortSignal) = Throw e ->
  (run request abortSignal).1
  = error_response PartListUnion ToolResultDisplay request
      (error_message e).
Proof.
  intros Hsome Hraise. unfold run, executeToolCall.
  by rewrite Hsome, Hraise.
Qed.

(** Every call writes a telemetry record, and every record carries the
    name and the arguments of the request. *)
Lemma executeToolCall_logs request abortSignal :
  (run request abortSignal).2 <> []
  /\ Forall (fun ev => function_name ev = name request
                       /\ function_args ev = args request)
       (run request abortSignal).2.
Proof.
  unfold run, executeToolCall.
  destruct (toolRegistry !! name request) as [tool |]; simpl.
  - destruct (execute _ _ tool _ _) as [e | result]; simpl.
    + split; [discriminate | repeat constructor].
    + destruct (convertToFunctionResponse _ _ _); simpl;
        (split; [discriminate | repeat constructor]).
  - split; [discriminate | repeat constructor].
Qed.
End ExecutorFacts.

(** C5: when the requested tool is not in the registry, and when the
    tool's [execute] raises (or the conversion of its result does),
    [executeToolCall] returns a response: its [callId] is the request's,
    its [responseParts] hold one [functionResponse] whose response is
    [{error: message}], its display is [message] and its [error] field
    is set to [message], where [message] is
    [Tool "<name>" not found in registry.] in the first case and, in
    the second, the message of the [Error] raised, or what [String]
    makes of a raised value that is not an [Error]. *)
Theorem executeToolCall_structured_failure :
  forall (PartListUnion ToolResultDisplay : Type)
         (convertToFunctionResponse :
            string -> string -> PartListUnion
            -> exc Executor.Raised PartListUnion)
         (toolRegistry :
            gmap string (Executor.RegisteredTool PartListUnion
                           ToolResultDisplay))
         (Date_now : nat -> Z)
         (request : TurnEngine.ToolCallRequestInfo)
         (abortSignal : option bool) (message : string),
    (toolRegistry !! TurnEngine.name request = None
     /\ message = "Tool " +:+ quoted (TurnEngine.name request)
                  +:+ " not found in registry.")
    \/ (exists tool e,
          toolRegistry !! TurnEngine.name request = Some tool
          /\ (e = Executor.RaisedError message
              \/ e = Executor.RaisedOther message)
          /\ (Executor.execute _ _ tool (TurnEngine.args request)
                (default false abortSignal) = Throw e
              \/ exists toolResult,
                   Executor.execute _ _ tool (TurnEngine.args request)
                     (default false abortSignal) = Ok toolResult
                   /\ convertToFunctionResponse (TurnEngine.name request)
                        (TurnEngine.callId request)
                        (Executor.llmContent _ _ toolResult) = Throw e)) ->
    let response :=
      (Executor.executeToolCall PartListUnion ToolResultDisplay
         convertToFunctionResponse toolRegistry Date_now request
         abortSignal).1 in
    Executor.resp_callId _ _ response = TurnEngine.callId request
    /\ Executor.responseParts _ _ response
       = Executor.ErrorParts _
           [{| fr_id := Some (TurnEngine.callId request);
               fr_name := Some (TurnEngine.name request);
               fr_response := Some (JObj [("error", JStr message)]) |}]
    /\ Executor.resultDisplay _ _ response = Executor.MessageDisplay _ message
    /\ Executor.error _ _ response = Some message.
Proof.
  intros P D conv reg now request abortSignal message Hcase response.
  subst response.
  destruct Hcase as [[Hnone ->] | (tool & e & Hsome & He & Hraise)].
  - rewrite (executeToolCall_not_found conv reg now _ _ Hnone). by repeat split.
  - assert (Hmessage : Executor.error_message e = message)
      by (by destruct He as [-> | ->]).
    destruct Hraise as [Hraise | (toolResult & Hresult & Hraise)].
    + rewrite (executeToolCall_execute_raises conv reg now _ _ _ _ Hsome
                 Hraise), Hmessage.
      by repeat split.
    + unfold Executor.executeToolCall.
      rewrite Hsome, Hresult, Hraise, Hmessage. by repeat split.
Qed.

(** The request for the unregistered tool [foo] on an empty registry,
    and a request for the tool [grep], which raises an [Error]. *)
Lemma executeToolCall_structured_failure_witness :
  (let request :=
     {| TurnEngine.callId := "call-1"; TurnEngine.name := "foo";
        TurnEngine.args := JObj []; TurnEngine.isClientInitiated := false |} in
   let response :=
     (Executor.executeToolCall unit unit (fun _ _ p => Ok p) ∅
        (fun _ => 0) request None).1 in
   Executor.resp_callId _ _ response = "call-1"
   /\ Executor.responseParts _ _ response
      = Executor.ErrorParts _
          [{| fr_id := Some "call-1"; fr_name := Some "foo";
              fr_response :=
                Some (JObj [("error",
                             JStr ("Tool " +:+ quoted "foo"
                                   +:+ " not found in registry."))]) |}]
   /\ Executor.resultDisplay _ _ response
      = Executor.MessageDisplay _
          ("Tool " +:+ quoted "foo" +:+ " not found in registry.")
   /\ Executor.error _ _ response
      = Some ("Tool " +:+ quoted "foo" +:+ " not found in registry."))
  /\ (let request :=
        {| TurnEngine.callId := "call-2"; TurnEngine.name := "grep";
           TurnEngine.args := JObj [];
           TurnEngine.isClientInitiated := false |} in
      let tool : Executor.RegisteredTool unit unit :=
        {| Executor.execute :=
             fun _ _ => Throw (Executor.RaisedError "pattern missing") |} in
      let response :=
        (Executor.executeToolCall unit unit (fun _ _ p => Ok p)
           {[ "grep" := tool ]} (fun _ => 0) request None).1 in
      Executor.resp_callId _ _ response = "call-2"
      /\ Executor.responseParts _ _ response
         = Executor.ErrorParts _
             [{| fr_id := Some "call-2"; fr_name := Some "grep";
                 fr_response :=
                   Some (JObj [("error", JStr "pattern missing")]) |}]
      /\ Executor.resultDisplay _ _ response
         = Executor.MessageDisplay _ "pattern missing"
      /\ Executor.error _ _ response = Some "pattern missing").
Proof.
  split.
  - intros request.
    apply (executeToolCall_structured_failure unit unit (fun _ _ p => Ok p) ∅
             (fun _ => 0) request None
             ("Tool " +:+ quoted "foo" +:+ " not found in registry.")).
    left. split; reflexivity.
  - intros request tool.
    apply (executeToolCall_structured_failure unit unit (fun _ _ p => Ok p)
             {[ "grep" := tool ]} (fun _ => 0) request None
             "pattern missing").
    right. exists tool, (Executor.RaisedError "pattern missing").
    split_and!; [reflexivity | by left | by left].
Defined.

(* ===================================================================== *)
(** * Properties of the outbound request translation *)
(* ===================================================================== *)

Section OutboundFacts.
Context `{JSRuntime Part}.
Variable config : ContentGeneratorConfig.

(** No block the Anthropic translation builds has type [tool_result]. *)
Lemma no_tool_result_block (blocks : list Anthropic.ContentBlock) :
  existsb (fun item => String.eqb (Anthropic.block_type item) "tool_result")
    blocks = false.
Proof.
  induction blocks as [| [t | i n a] blocks IH]; simpl; auto.
Qed.

Lemma anthropic_message_of_content content :
  Anthropic.message_of_content content
  = if has_parts content
    then Some {| Anthropic.msg_role := anthropic_role content;
                 Anthropic.msg_content :=
                   map Anthropic.block_of_part
                     (default [] (parts content)) |}
    else None.
Proof.
  unfold Anthropic.message_of_content, has_parts, anthropic_role.
  destruct (parts content) as [[| p ps] |]; simpl; try reflexivity.
  pose proof (no_tool_result_block (map Anthropic.block_of_part (p :: ps)))
    as Hnone.
  simpl in Hnone. rewrite Hnone, andb_false_r.
  by destruct (bool_decide (role content = Some "user")).
Qed.

Lemma anthropic_messages (contents : list Content) :
  omap Anthropic.message_of_content contents
  = map (fun content =>
           {| Anthropic.msg_role := anthropic_role content;
              Anthropic.msg_content :=
                map Anthropic.block_of_part (default [] (parts content)) |})
      (filter (fun content => has_parts content = true) contents).
Proof.
  induction contents as [| content contents IH]; [reflexivity |].
  cbn [omap list_omap]. rewrite anthropic_message_of_content.
  fold (omap Anthropic.message_of_content contents). rewrite IH.
  rewrite filter_cons. by destruct (has_parts content).
Qed.

Lemma tool_results_to_text_role content :
  role (Anthropic.tool_results_to_text content) = role content.
Proof.
  unfold Anthropic.tool_results_to_text.
  destruct (parts content) as [ps |]; [| reflexivity].
  destruct (_ && _); [| reflexivity].
  by destruct (omap functionResponse ps).
Qed.

Lemma with_json_instruction_roles schema (contents : list Content) :
  map role (Anthropic.with_json_instruction schema contents)
  = map role contents.
Proof.
  destruct contents as [| content rest]; [reflexivity |]. simpl.
  destruct (parts content); [| reflexivity].
  by destruct (bool_decide (role content = Some "user")).
Qed.

Lemma anthropic_processed_roles request :
  map role (anthropic_processed request)
  = map role (normalizeContents (contents request)).
Proof.
  unfold anthropic_processed.
  transitivity
    (map role (Anthropic.convertToolResultsToTextForAnthropic
                 (normalizeContents (contents request)))).
  - destruct (json_schema_request request);
      [apply with_json_instruction_roles | reflexivity].
  - unfold Anthropic.convertToolResultsToTextForAnthropic.
    rewrite map_map. apply map_ext. intros c. apply tool_results_to_text_role.
Qed.

Lemma anthropic_request_messages request :
  Anthropic.req_messages (Anthropic.convertToAnthropicFormat config request)
  = map (fun content =>
           {| Anthropic.msg_role := anthropic_role content;
              Anthropic.msg_content :=
                map Anthropic.block_of_part (default [] (parts content)) |})
      (filter (fun content => has_parts content = true)
         (anthropic_processed request)).
Proof.
  unfold Anthropic.convertToAnthropicFormat,
    Anthropic.convertContentsToAnthropicMessages, anthropic_processed.
  simpl. apply anthropic_messages.
Qed.



Lemma openai_request_messages request :
  OpenAI.req_messages (OpenAI.convertToOpenAIFormat config request)
  = match json_schema_request request with
    | Some schema =>
        [{| OpenAI.msg_role := Some "system";
            OpenAI.msg_content := jsonInstruction schema |}]
    | None => []
    end
    ++ map OpenAI.message_of_content (normalizeContents (contents request)).
Proof.
  unfold OpenAI.convertToOpenAIFormat. simpl.
  by destruct (json_schema_request request).
Qed.
End OutboundFacts.



(** The same history in a request that asks for no JSON: the Anthropic
    translation transmits nothing. *)
Example anthropic_drops_empty_content :
  Anthropic.req_messages
    (Anthropic.convertToAnthropicFormat (H := Concrete.runtime)
       Concrete.config Scenario.zero_parts_request)
  = [].
Proof. reflexivity. Qed.


(** C8, as the code has it: the OpenAI-compatible translation writes
    [assistant] for the role [model] and any other role as it is (after
    the [system] message of a JSON-schema request); the Anthropic
    translation writes [assistant] for [model] and [user] for every other
    role, for the contents that have parts; the passes before it keep the
    roles of the history. *)
Theorem outbound_role_mapping :
  forall (rt : JSRuntime Part) (config : ContentGeneratorConfig)
         (request : GenerateContentParameters),
    map OpenAI.msg_role
      (OpenAI.req_messages (OpenAI.convertToOpenAIFormat config request))
    = match json_schema_request request with
      | Some _ => [Some "system"]
      | None => []
      end
      ++ map (fun content =>
                if bool_decide (role content = Some "model")
                then Some "assistant" else role content)
           (normalizeContents (contents request))
    /\ map Anthropic.msg_role
         (Anthropic.req_messages
            (Anthropic.convertToAnthropicFormat config request))
       = map (fun content =>
                if bool_decide (role content = Some "model")
                then "assistant" else "user")
           (filter (fun content => has_parts content = true)
              (anthropic_processed request))
    /\ map role (anthropic_processed request)
       = map role (normalizeContents (contents request)).
Proof.
  intros rt config request.
  rewrite anthropic_request_messages, openai_request_messages.
  split; [| split].
  - rewrite map_app, map_map. f_equal.
    by destruct (json_schema_request request).
  - by rewrite map_map.
  - apply anthropic_processed_roles.
Qed.

(** C8, as stated, fails for the Anthropic adapter: a [Content] with role
    [system] is serialised with role [user]. *)
Lemma anthropic_rewrites_system_role :
  map Anthropic.msg_role
    (Anthropic.req_messages
       (Anthropic.convertToAnthropicFormat (H := Concrete.runtime)
          Concrete.config Scenario.system_request))
  = ["user"]
  /\ map role (normalizeContents (contents Scenario.system_request))
     = [Some "system"].
Proof. split; reflexivity. Qed.

(* ===================================================================== *)
(** * Facts about strings *)
(* ===================================================================== *)

Section StringFacts.
Implicit Types (a b r s : string) (c : ascii).

Lemma append_assoc a b s : (a +:+ b) +:+ s = a +:+ (b +:+ s).
Proof.
  induction a as [| x a IH]; [reflexivity |].
  change (String x ((a +:+ b) +:+ s) = String x (a +:+ (b +:+ s))).
  by f_equal.
Qed.

Lemma append_nil_r a : a +:+ "" = a.
Proof.
  induction a as [| x a IH]; [reflexivity |].
  change (String x (a +:+ "") = String x a). by f_equal.
Qed.

Lemma contains_append c a b :
  contains c (a +:+ b) = contains c a || contains c b.
Proof.
  induction a as [| x a IH]; [reflexivity |].
  change (Ascii.eqb x c || contains c (a +:+ b)
          = (Ascii.eqb x c || contains c a) || contains c b).
  by rewrite IH, orb_assoc.
Qed.

(** Two strings that agree, cut at their last [c], agree on both
    sides. *)
Lemma last_separator c a a' r r' :
  contains c r = false -> contains c r' = false ->
  a +:+ String c r = a' +:+ String c r' ->
  a = a' /\ r = r'.
Proof.
  intros Hr Hr'. revert a'.
  induction a as [| x a IH]; intros [| x' a'] Heq; simpl in Heq.
  - by inversion Heq.
  - inversion Heq as [[Hx Hrest]]. subst x' r.
    rewrite contains_append in Hr. simpl in Hr.
    rewrite Ascii.eqb_refl, orb_true_r in Hr. discriminate.
  - inversion Heq as [[Hx Hrest]]. subst x r'.
    rewrite contains_append in Hr'. simpl in Hr'.
    rewrite Ascii.eqb_refl, orb_true_r in Hr'. discriminate.
  - inversion Heq as [[Hx Hrest]]. subst x'.
    destruct (IH _ Hrest) as [-> ->]. by split.
Qed.

Lemma string_of_uint_no_dash (d : Decimal.uint) :
  contains "-" (NilEmpty.string_of_uint d) = false.
Proof. induction d; simpl; auto. Qed.

Lemma dec_N_no_dash (n : N) : contains "-" (dec_N n) = false.
Proof. apply string_of_uint_no_dash. Qed.

Lemma dec_N_inj (m n : N) : dec_N m = dec_N n -> m = n.
Proof.
  unfold dec_N. intros Heq.
  assert (Huint : N.to_uint m = N.to_uint n).
  { apply (f_equal NilEmpty.uint_of_string) in Heq.
    rewrite !NilEmpty.usu in Heq. by inversion Heq. }
  rewrite <- (DecimalN.Unsigned.of_to m), <- (DecimalN.Unsigned.of_to n).
  by rewrite Huint.
Qed.
End StringFacts.

(* ===================================================================== *)
(** * Properties of the turn engine *)
(* ===================================================================== *)

Section TurnFacts.
Import TurnEngine.
Variable getResponseText : GenerateContentResponse -> option string.
Variable toFriendlyError : Thrown -> Thrown.
Variable getErrorMessage : Thrown -> string.
Variable Date_now : nat -> N.
Variable random_hex : nat -> string.

Let handle := handlePendingFunctionCall Date_now random_hex.
Let calls := function_call_loop Date_now random_hex.
Let body := process_unit getResponseText Date_now random_hex.
Let loop := run_loop getResponseText toFriendlyError getErrorMessage
              Date_now random_hex.

Lemma backfilled_id_inj fn1 fn2 n1 n2 :
  contains "-" (random_hex n1) = false ->
  contains "-" (random_hex n2) = false ->
  backfilled_id Date_now random_hex fn1 n1
  = backfilled_id Date_now random_hex fn2 n2 ->
  spliced (fc_name fn1) = spliced (fc_name fn2)
  /\ Date_now n1 = Date_now n2 /\ random_hex n1 = random_hex n2.
Proof.
  unfold backfilled_id. intros Hr1 Hr2 Heq.
  assert (Hshape : forall a t r,
             a +:+ "-" +:+ t +:+ "-" +:+ r
             = (a +:+ String "-" t) +:+ String "-" r).
  { intros a t r. by rewrite append_assoc. }
  rewrite !Hshape in Heq.
  apply last_separator in Heq as [Heq Hr]; [| assumption | assumption].
  apply last_separator in Heq as [Hname Htime];
    [| apply dec_N_no_dash | apply dec_N_no_dash].
  auto using dec_N_inj.
Qed.

Lemma backfilled_id_nonempty fn n :
  backfilled_id Date_now random_hex fn n <> "".
Proof.
  unfold backfilled_id.
  destruct (spliced (fc_name fn)); discriminate.
Qed.

(** ** The events of the loop body *)

Lemma function_call_loop_events fcs st :
  length (calls fcs st).2 = length fcs
  /\ Forall (fun ev => exists info, ev = ToolCallRequest info)
       (calls fcs st).2.
Proof.
  revert st. induction fcs as [| fc fcs IH]; intros st; simpl.
  - by split.
  - subst calls. simpl.
    destruct (function_call_loop _ _ fcs _) as [st'' events] eqn:Hloop.
    specialize (IH (handlePendingFunctionCall Date_now random_hex fc st).1).
    unfold handlePendingFunctionCall in *. simpl in *.
    rewrite Hloop in IH. simpl in *. destruct IH as [Hlen Hall].
    split; [by rewrite Hlen |]. constructor; [eauto | assumption].
Qed.

Lemma process_unit_events resp st :
  (length (body resp st).2 <= unit_event_bound resp)%nat
  /\ UserCancelled ∉ (body resp st).2.
Proof.
  subst body. unfold process_unit, unit_event_bound.
  set (st' := {| pendingToolCalls := _; debugResponses := _ |}).
  pose proof (function_call_loop_events (default [] (functionCalls resp)) st')
    as [Hlen Hall].
  subst calls. simpl in Hlen, Hall.
  destruct (function_call_loop _ _ _ st') as [st'' callEvents].
  simpl in Hlen, Hall.
  assert (Hgeneral :
    (length (match getResponseText resp with
             | Some t => if truthy_str t then [Content t] else []
             | None => []
             end ++ callEvents)
     <= S (length (default [] (functionCalls resp))))%nat
    /\ UserCancelled ∉ match getResponseText resp with
                        | Some t => if truthy_str t then [Content t] else []
                        | None => []
                        end ++ callEvents).
  { split.
    - rewrite length_app, Hlen.
      destruct (getResponseText resp) as [t |]; simpl; [| lia].
      destruct (truthy_str t); simpl; lia.
    - intros Hin. apply elem_of_app in Hin as [Hin | Hin].
      + destruct (getResponseText resp) as [t |];
          [destruct (truthy_str t) |];
          repeat (apply elem_of_cons in Hin as [Hin | Hin];
                  [discriminate |]);
          by apply elem_of_nil in Hin.
      + rewrite Forall_forall in Hall.
        destruct (Hall _ Hin) as [info Hinfo]. discriminate. }
  destruct (first_part resp) as [[t [[|] |] fc fr inl] |]; simpl;
    try exact Hgeneral.
  split; [lia |]. intros Hin.
  apply elem_of_cons in Hin as [Hin | Hin];
    [discriminate | by apply elem_of_nil in Hin].
Qed.

(** ** Cancellation *)

Lemma run_loop_cancelled us failure n st events k :
  (n <= k)%nat -> (k - n < length us)%nat ->
  loop (fun m => (k <=? m)%nat) us failure n st events
  = let r := loop (fun _ => false) (take (k - n) us) None n st events in
    {| emitted := emitted r ++ [UserCancelled];
       units_read := S k;
       final_state := final_state r;
       reported := [];
       completion := Returned |}.
Proof.
  revert n st events.
  induction us as [| resp us IH]; intros n st events Hle Hlt;
    simpl in Hlt; [lia |].
  subst loop. simpl.
  destruct (Nat.leb_spec k n) as [Hkn | Hkn].
  - assert (k = n) as -> by lia. by rewrite Nat.sub_diag.
  - destruct (k - n)%nat as [| d] eqn:Hd; [lia |]. simpl.
    destruct (process_unit _ _ _ resp st) as [st' new_events].
    rewrite IH by lia.
    by replace (k - S n)%nat with d by lia.
Qed.

(** Without cancellation and failure, the loop yields at most
    [unit_event_bound] events per unit, none of them [UserCancelled]. *)
Lemma run_loop_undisturbed us n st events :
  let r := loop (fun _ => false) us None n st events in
  exists new_events,
    emitted r = events ++ new_events
    /\ (length new_events <= sum_list (map unit_event_bound us))%nat
    /\ (UserCancelled ∉ new_events)
    /\ units_read r = (n + length us)%nat
    /\ completion r = Returned.
Proof.
  revert n st events.
  induction us as [| resp us IH]; intros n st events; subst loop; simpl.
  - exists []. rewrite app_nil_r, Nat.add_0_r.
    split_and!; [done | simpl; lia | apply not_elem_of_nil | done | done].
  - pose proof (process_unit_events resp st) as [Hlen Hnone].
    subst body. destruct (process_unit _ _ _ resp st) as [st' evs].
    simpl in Hlen, Hnone.
    destruct (IH (S n) st' (events ++ evs))
      as (more & Hemit & Hbound & Hnot & Hread & Hdone).
    exists (evs ++ more). rewrite Hemit, <- app_assoc.
    split_and!; [done | | | | done].
    + rewrite length_app. unfold unit_event_bound in Hlen. lia.
    + intros Hin. apply elem_of_app in Hin as [Hin | Hin]; auto.
    + rewrite Hread. lia.
Qed.
End TurnFacts.

(** C3, as the code has it: when the signal is set once [k] units have
    been processed and the stream delivers a further unit, the run yields
    what the first [k] units yield without cancellation, then one
    [UserCancelled], and returns; the unit read after the signal adds
    nothing else and no later unit is read.  The events before the
    cancellation hold no [UserCancelled] and are at most one per unit
    plus one per function call of the unit, which can be more than
    [k]. *)
Theorem cancellation_after_k_units :
  forall (getResponseText : GenerateContentResponse -> option string)
         (toFriendlyError : TurnEngine.Thrown -> TurnEngine.Thrown)
         (getErrorMessage : TurnEngine.Thrown -> string)
         (Date_now : nat -> N) (random_hex : nat -> string)
         (stream : TurnEngine.ResponseStream) (k : nat),
    (k < length (TurnEngine.units stream))%nat ->
    let run := TurnEngine.run getResponseText toFriendlyError
                 getErrorMessage Date_now random_hex in
    let cancelled := run (fun n => (k <=? n)%nat) stream in
    let before :=
      run (fun _ => false)
        {| TurnEngine.units := take k (TurnEngine.units stream);
           TurnEngine.failure := None |} in
    TurnEngine.emitted cancelled
    = TurnEngine.emitted before ++ [TurnEngine.UserCancelled]
    /\ (TurnEngine.UserCancelled ∉ TurnEngine.emitted before)
    /\ (length (TurnEngine.emitted before)
        <= sum_list (map unit_event_bound
                       (take k (TurnEngine.units stream))))%nat
    /\ TurnEngine.units_read cancelled = S k
    /\ TurnEngine.final_state cancelled = TurnEngine.final_state before
    /\ TurnEngine.completion cancelled = TurnEngine.Returned.
Proof.
  intros text friendly msg now rnd [us failure] k Hk run cancelled before.
  simpl in Hk. subst cancelled before run. unfold TurnEngine.run. simpl.
  rewrite run_loop_cancelled by lia. rewrite Nat.sub_0_r. simpl.
  destruct (run_loop_undisturbed text friendly msg now rnd (take k us) 0
              TurnEngine.new_turn [])
    as (evs & Hemit & Hbound & Hnot & _ & _).
  simpl in Hemit. rewrite Hemit. by split_and!.
Qed.

(** Cancellation after the first of two units. *)
Lemma cancellation_after_k_units_witness :
  let stream :=
    {| TurnEngine.units :=
         [Scenario.text_unit "Hello"; Scenario.text_unit "world"];
       TurnEngine.failure := None |} in
  TurnEngine.emitted
    (Scenario.run Scenario.frozen_clock Scenario.repeating_random
       (fun n => (1 <=? n)%nat) stream)
  = TurnEngine.emitted
      (Scenario.run Scenario.frozen_clock Scenario.repeating_random
         (fun _ => false)
         {| TurnEngine.units := [Scenario.text_unit "Hello"];
            TurnEngine.failure := None |})
    ++ [TurnEngine.UserCancelled].
Proof.
  intros stream.
  apply (cancellation_after_k_units response_text (fun e => e)
           TurnEngine.thrown_message Scenario.frozen_clock
           Scenario.repeating_random stream 1).
  simpl. lia.
Defined.

(** C3, as stated, fails: with the signal set after the first unit, a
    first unit with two function calls has yielded two events before the
    cancellation event. *)
Lemma cancellation_prior_events_exceed_k :
  let stream :=
    {| TurnEngine.units :=
         [Scenario.calls_unit [Scenario.call (Some "a") "read";
                               Scenario.call (Some "b") "write"];
          Scenario.text_unit "done"];
       TurnEngine.failure := None |} in
  let request id name :=
    TurnEngine.ToolCallRequest
      {| TurnEngine.callId := id; TurnEngine.name := name;
         TurnEngine.args := JObj []; TurnEngine.isClientInitiated := false |} in
  TurnEngine.emitted
    (Scenario.run Scenario.frozen_clock Scenario.repeating_random
       (fun n => (1 <=? n)%nat) stream)
  = [request "a" "read"; request "b" "write"; TurnEngine.UserCancelled]
  /\ ~ (length [request "a" "read"; request "b" "write"] <= 1)%nat.
Proof. split; [reflexivity | simpl; lia]. Qed.

(** C4, as the code has it: a function call without id is given the id
    [name-time-random], which is not empty; two such ids are equal
    exactly when the name, the clock reading and the random suffix are
    all the same (the suffix, a rendering in base 16, has no dash). *)
Theorem backfilled_call_id :
  forall (Date_now : nat -> N) (random_hex : nat -> string)
         (fn1 fn2 : FunctionCall) (st1 st2 : TurnEngine.TurnState),
    fc_id fn1 = None -> fc_id fn2 = None ->
    let n1 := length (TurnEngine.pendingToolCalls st1) in
    let n2 := length (TurnEngine.pendingToolCalls st2) in
    contains "-" (random_hex n1) = false ->
    contains "-" (random_hex n2) = false ->
    let id_of (fn : FunctionCall) (n : nat) :=
      spliced (fc_name fn) +:+ "-" +:+ dec_N (Date_now n)
      +:+ "-" +:+ random_hex n in
    let handled :=
      TurnEngine.handlePendingFunctionCall Date_now random_hex fn1 st1 in
    (exists info,
        handled.2 = TurnEngine.ToolCallRequest info
        /\ TurnEngine.callId info = id_of fn1 n1
        /\ TurnEngine.pendingToolCalls handled.1
           = TurnEngine.pendingToolCalls st1 ++ [info])
    /\ id_of fn1 n1 <> ""
    /\ (id_of fn1 n1 = id_of fn2 n2
        <-> spliced (fc_name fn1) = spliced (fc_name fn2)
            /\ Date_now n1 = Date_now n2
            /\ random_hex n1 = random_hex n2).
Proof.
  intros now rnd fn1 fn2 st1 st2 Hid1 Hid2 n1 n2 Hr1 Hr2 id_of handled.
  split; [| split].
  - subst handled. unfold TurnEngine.handlePendingFunctionCall.
    rewrite Hid1. simpl. eexists. split; [reflexivity |]. by split.
  - apply (backfilled_id_nonempty now rnd fn1 n1).
  - split.
    + apply (backfilled_id_inj now rnd fn1 fn2 n1 n2 Hr1 Hr2).
    + intros (Hname & Htime & Hrand). subst id_of. simpl.
      by rewrite Hname, Htime, Hrand.
Qed.

(** Two calls of one tool for which the random source gives different
    suffixes. *)
Lemma backfilled_call_id_witness :
  let random_hex (n : nat) := match n with O => "8f3a" | _ => "c41" end in
  let st1 := TurnEngine.new_turn in
  let st2 :=
    (TurnEngine.handlePendingFunctionCall Scenario.frozen_clock random_hex
       (Scenario.call None "read") st1).1 in
  "read-1700000000000-8f3a" <> ""
  /\ ("read-1700000000000-8f3a" = "read-1700000000000-c41"
      <-> "read" = "read" /\ 1700000000000%N = 1700000000000%N
          /\ "8f3a" = "c41").
Proof.
  intros random_hex st1 st2.
  apply (backfilled_call_id Scenario.frozen_clock random_hex
           (Scenario.call None "read") (Scenario.call None "read") st1 st2);
    reflexivity.
Defined.

(** C4, as stated, fails: when the clock has not advanced and the random
    source repeats, two calls of one tool in a run are given the same
    id. *)
Lemma backfilled_call_ids_collide :
  let result :=
    Scenario.run Scenario.frozen_clock Scenario.repeating_random
      (fun _ => false)
      {| TurnEngine.units :=
           [Scenario.calls_unit [Scenario.call None "read";
                                 Scenario.call None "read"]];
         TurnEngine.failure := None |} in
  map TurnEngine.callId
    (TurnEngine.pendingToolCalls (TurnEngine.final_state result))
  = ["read-1700000000000-8f3a"; "read-1700000000000-8f3a"]
  /\ ~ NoDup (map TurnEngine.callId
                (TurnEngine.pendingToolCalls
                   (TurnEngine.final_state result))).
Proof.
  assert (Hids :
    map TurnEngine.callId
      (TurnEngine.pendingToolCalls
         (TurnEngine.final_state
            (Scenario.run Scenario.frozen_clock Scenario.repeating_random
               (fun _ => false)
               {| TurnEngine.units :=
                    [Scenario.calls_unit [Scenario.call None "read";
                                          Scenario.call None "read"]];
                  TurnEngine.failure := None |})))
    = ["read-1700000000000-8f3a"; "read-1700000000000-8f3a"])
    by (vm_compute; reflexivity).
  intros result. subst result. rewrite Hids. split; [reflexivity |].
  intros Hnodup. apply NoDup_cons in Hnodup as [Hnotin _].
  apply Hnotin. by left.
Qed.

(* ===================================================================== *)
(** * Facts about splitting text into lines *)
(* ===================================================================== *)

Section SplitFacts.
Variable c : ascii.
Implicit Types (a b s l : string).

Lemma split_cons_eq s : split c (String c s) = "" :: split c s.
Proof. simpl. by rewrite Ascii.eqb_refl. Qed.

Lemma split_not_nil s : split c s <> [].
Proof.
  destruct s as [| x s]; simpl; [discriminate |].
  destruct (Ascii.eqb x c); [discriminate |].
  by destruct (split c s).
Qed.

Lemma split_cons_ne x s :
  Ascii.eqb x c = false ->
  split c (String x s)
  = String x (hd "" (split c s)) :: tl (split c s).
Proof.
  intros Hx. simpl. rewrite Hx.
  pose proof (split_not_nil s). by destruct (split c s).
Qed.

(** A line without separator in front of a text joins its first
    line. *)
Lemma split_prefix l s :
  contains c l = false ->
  split c (l +:+ s) = (l +:+ hd "" (split c s)) :: tl (split c s).
Proof.
  induction l as [| x l IH]; intros Hl.
  - change ("" +:+ s) with s. pose proof (split_not_nil s).
    by destruct (split c s).
  - simpl in Hl. apply orb_false_elim in Hl as [Hx Hl].
    change (String x l +:+ s) with (String x (l +:+ s)).
    rewrite split_cons_ne by assumption. by rewrite IH.
Qed.

Lemma split_line l s :
  contains c l = false ->
  split c (l +:+ String c s) = l :: split c s.
Proof.
  intros Hl. rewrite split_prefix by assumption.
  rewrite split_cons_eq. simpl. by rewrite append_nil_r.
Qed.

Lemma split_last_no_separator s :
  contains c (List.last (split c s) "") = false.
Proof.
  induction s as [| x s IH]; [reflexivity |].
  destruct (Ascii.eqb x c) eqn:Hx.
  - apply Ascii.eqb_eq in Hx as ->. rewrite split_cons_eq.
    pose proof (split_not_nil s). simpl.
    by destruct (split c s).
  - rewrite split_cons_ne by assumption.
    pose proof (split_not_nil s) as Hne.
    destruct (split c s) as [| w [| w' ws]]; [done | |].
    + simpl in *. by rewrite Hx.
    + exact IH.
Qed.

(** Splitting a text in two places: the complete lines of the first
    part, then the lines of what the first part left over followed by
    the second part. *)
Lemma split_append a b :
  split c (a +:+ b)
  = List.removelast (split c a)
    ++ split c (List.last (split c a) "" +:+ b).
Proof.
  induction a as [| x a IH]; [reflexivity |].
  change (String x a +:+ b) with (String x (a +:+ b)).
  pose proof (split_not_nil a) as Hne.
  destruct (Ascii.eqb x c) eqn:Hx.
  - apply Ascii.eqb_eq in Hx as ->. rewrite !split_cons_eq, IH.
    by destruct (split c a).
  - rewrite !split_cons_ne, IH by assumption.
    destruct (split c a) as [| w [| w' ws]]; [done | |].
    + cbn [hd tail List.removelast List.last app].
      change (String x w +:+ b) with (String x (w +:+ b)).
      by rewrite split_cons_ne.
    + reflexivity.
Qed.

Lemma removelast_app_not_nil {A} (l1 l2 : list A) :
  l2 <> [] -> List.removelast (l1 ++ l2) = l1 ++ List.removelast l2.
Proof. intros Hne. by apply removelast_app. Qed.
End SplitFacts.

Lemma split_unlines (lines : list string) (rest : string) :
  Forall (fun line => contains nl line = false) lines ->
  split nl (unlines lines +:+ rest) = lines ++ split nl rest.
Proof.
  induction 1 as [| line lines Hline _ IH]; [reflexivity |].
  simpl. rewrite append_assoc.
  change (String nl (unlines lines) +:+ rest)
    with (String nl (unlines lines +:+ rest)).
  by rewrite split_line, IH.
Qed.

(* ===================================================================== *)
(** * Properties of the OpenAI-compatible stream *)
(* ===================================================================== *)

Section OpenAIStreamFacts.
Context `{JSRuntime Part}.
Import OpenAI.

Implicit Types (st : stream_state) (line : string) (lines : list string).

(** ** Nothing but text is yielded before the terminator *)

Lemma tool_call_loop_streaming tcs acc idx calls :
  exists acc' idx' completed,
    tool_call_loop true tcs
      {| ls_acc := Some acc; ls_idx := Some idx; ls_calls := calls |}
    = ({| ls_acc := Some acc'; ls_idx := Some idx'; ls_calls := calls |},
       completed).
Proof.
  revert acc idx.
  induction tcs as [| [toolCall |] tcs IH]; intros acc idx;
    cbn [tool_call_loop ls_acc ls_idx ls_calls]; [by eauto | | by eauto].
  destruct (tc_function toolCall) as [fn |]; [| apply IH].
  rewrite orb_true_r.
  destruct (accumulate toolCall fn (acc, idx)) as [acc' idx']. apply IH.
Qed.

Lemma convertFromOpenAIFormat_streaming data acc idx :
  exists acc' idx' result,
    convertFromOpenAIFormat data true (Some acc) (Some idx)
    = (Some acc', Some idx', result)
    /\ forall response,
         result = Ok (Some response) -> functionCalls response = Some [].
Proof.
  unfold convertFromOpenAIFormat.
  destruct (as_data data) as [d |];
    [| by exists acc, idx, (Throw "TypeError")].
  destruct (d_choice0 d) as [choice |];
    [| by exists acc, idx, (Throw "No choices in response")].
  set (st0 := {| ls_acc := Some acc; ls_idx := Some idx; ls_calls := [] |}).
  assert (Hloop : exists acc' idx' completed,
             match c_delta choice with
             | Some m =>
                 match m_tool_calls m with
                 | Some tcs => tool_call_loop true tcs st0
                 | None => (st0, true)
                 end
             | None => (st0, true)
             end
             = ({| ls_acc := Some acc'; ls_idx := Some idx';
                   ls_calls := [] |}, completed)).
  { destruct (c_delta choice) as [m |]; [| by exists acc, idx, true].
    destruct (m_tool_calls m) as [tcs |]; [| by exists acc, idx, true].
    apply tool_call_loop_streaming. }
  destruct Hloop as (acc' & idx' & completed & ->). simpl.
  destruct completed; simpl;
    [| by exists acc', idx', (Throw "TypeError")].
  destruct (negb _ && true); simpl.
  - exists acc', idx', (Ok None). split; [reflexivity | discriminate].
  - eexists acc', idx', _. split; [reflexivity |].
    intros response Hresp. by inversion Hresp.
Qed.

Lemma process_line_yields line st :
  (exists ys st',
      process_line line st = Continue ys st'
      /\ Forall (fun r => functionCalls r = Some []) ys)
  \/ process_line line st = Return (flush st).
Proof.
  unfold process_line.
  destruct (startsWith "data: " line); [| left; by exists [], st].
  destruct (String.eqb _ "[DONE]"); [by right | left].
  destruct (JSON_parse _) as [parsed |]; [| by exists [], st].
  destruct (convertFromOpenAIFormat_streaming parsed
              (toolCallAccumulator st) (indexToIdMap st))
    as (acc' & idx' & result & -> & Hcalls).
  eexists _, _. split; [reflexivity |].
  destruct result as [e | [response |]]; repeat constructor.
  by apply Hcalls.
Qed.

(** Every response yielded for a line that is not the terminator has
    no function call; function calls are yielded by [flush] alone. *)
Lemma process_lines_yields lines st :
  exists ys st',
    Forall (fun r => functionCalls r = Some []) ys
    /\ (process_lines lines st = Continue ys st'
        \/ process_lines lines st = Return (ys ++ flush st')).
Proof.
  revert st. induction lines as [| line lines IH]; intros st; simpl.
  - exists [], st. by split; [constructor | left].
  - destruct (process_line_yields line st)
      as [(ys & st' & -> & Hys) | ->].
    + destruct (IH st') as (zs & st'' & Hzs & [-> | ->]).
      * exists (ys ++ zs), st''. split; [by apply Forall_app | by left].
      * exists (ys ++ zs), st''.
        split; [by apply Forall_app | right; by rewrite app_assoc].
    + exists [], st. by split; [constructor | right].
Qed.

(** ** Lines that are passed over *)

Lemma prefix_nil s : String.prefix "" s = true.
Proof. by destruct s. Qed.

Lemma process_data_line payload st :
  payload <> "[DONE]" ->
  process_line ("data: " +:+ payload) st
  = match JSON_parse payload with
    | Some parsed =>
        let '(acc, idx, result) :=
          convertFromOpenAIFormat parsed true
            (Some (toolCallAccumulator st)) (Some (indexToIdMap st)) in
        Continue
          (match result with
           | Ok (Some geminiResponse) => [geminiResponse]
           | Ok None | Throw _ => []
           end)
          {| toolCallAccumulator := default (toolCallAccumulator st) acc;
             indexToIdMap := default (indexToIdMap st) idx |}
    | None => Continue [] st
    end.
Proof.
  intros Hpayload. unfold process_line, startsWith. simpl.
  rewrite prefix_nil. change ("" +:+ payload) with payload.
  by destruct (String.eqb_spec payload "[DONE]").
Qed.

(** For a line that is passed over the generator may yield, and its
    accumulators stay as they are. *)
Lemma passes_unchanged line st :
  passes line -> exists ys, process_line line st = Continue ys st.
Proof.
  intros [Hline | (payload & -> & Hpayload & Hchunk)].
  - exists []. unfold process_line. by rewrite Hline.
  - rewrite process_data_line by assumption.
    destruct (JSON_parse payload) as [chunk |]; [| by eauto].
    unfold quiet_chunk in Hchunk. unfold convertFromOpenAIFormat.
    destruct st as [acc idx].
    destruct (as_data chunk) as [d |]; [| by eauto].
    destruct (d_choice0 d) as [choice |]; [| by eauto].
    destruct (c_delta choice) as [delta |]; [rewrite Hchunk |]; simpl;
      [| by eauto].
    destruct (negb (truthy_str _) && true); simpl; eauto.
Qed.

Lemma process_done_line st : process_line done_line st = Return (flush st).
Proof. reflexivity. Qed.

(** ** One call whose arguments arrive in fragments *)

Lemma or_str_truthy s d : s <> "" -> or_str (Some s) d = s.
Proof. by destruct s. Qed.

Lemma Map_get_head {V} k (v : V) m : Map_get k ((k, v) :: m) = Some v.
Proof. simpl. by rewrite String.eqb_refl. Qed.

Lemma Map_set_head {V} k (v v' : V) m :
  Map_set k v' ((k, v) :: m) = (k, v') :: m.
Proof. simpl. by rewrite String.eqb_refl. Qed.

(** The argument text after a fragment has been appended. *)
Lemma append_fragment (arguments fragment : string) (o : option json)
    (entry : Accumulated) :
  o = Some (JStr fragment) \/ (o = None /\ fragment = "") ->
  acc_arguments entry = arguments ->
  match o with
  | Some a =>
      if truthy a
      then {| acc_id := acc_id entry; acc_name := acc_name entry;
              acc_arguments :=
                acc_arguments entry
                +:+ match a with JStr s => s | _ => JS_String a end |}
      else entry
  | None => entry
  end
  = {| acc_id := acc_id entry; acc_name := acc_name entry;
       acc_arguments := arguments +:+ fragment |}.
Proof.
  intros [-> | [-> ->]] <-; destruct entry as [i n a]; simpl.
  - destruct fragment; simpl; by rewrite ?append_nil_r.
  - by rewrite append_nil_r.
Qed.

Lemma accumulate_first toolCall fn idx id name fragment :
  or_num (tc_index toolCall) 0 = idx ->
  tc_id toolCall = Some id -> id <> "" ->
  fn_name fn = Some name ->
  fn_arguments fn = Some (JStr fragment)
  \/ (fn_arguments fn = None /\ fragment = "") ->
  accumulate toolCall fn (Map_empty, ∅)
  = (toolCallAccumulator (call_state idx id name fragment),
     indexToIdMap (call_state idx id name fragment)).
Proof.
  intros Hidx Hid Hne Hname Hargs. unfold accumulate.
  rewrite Hidx, Hid, Hname.
  replace (truthy_ostr (Some id)) with true by by destruct id.
  change (default "" (Some id)) with id.
  rewrite lookup_insert_eq, or_str_truthy by assumption.
  change (Map_has id Map_empty) with false. cbv iota.
  change (Map_set id ?v Map_empty) with [(id, v)].
  rewrite Map_get_head, Map_set_head, insert_empty.
  set (entry := if truthy_ostr (Some name) then _ else _).
  assert (Hentry : entry = {| acc_id := id; acc_name := name;
                              acc_arguments := "" |})
    by (subst entry; by destruct name).
  rewrite (append_fragment "" fragment (fn_arguments fn) entry Hargs)
    by (by rewrite Hentry).
  by rewrite Hentry.
Qed.

Lemma accumulate_later toolCall fn idx id name arguments oid oname
    fragment :
  or_num (tc_index toolCall) 0 = idx ->
  tc_id toolCall = oid -> oid = None \/ oid = Some id -> id <> "" ->
  fn_name fn = oname -> oname = None \/ oname = Some name ->
  fn_arguments fn = Some (JStr fragment)
  \/ (fn_arguments fn = None /\ fragment = "") ->
  accumulate toolCall fn
    (toolCallAccumulator (call_state idx id name arguments),
     indexToIdMap (call_state idx id name arguments))
  = (toolCallAccumulator
       (call_state idx id name (arguments +:+ fragment)),
     indexToIdMap (call_state idx id name (arguments +:+ fragment))).
Proof.
  intros Hidx Hid Hoid Hne Hname Honame Hargs. unfold accumulate.
  rewrite Hidx, Hid, Hname. cbn [call_state toolCallAccumulator indexToIdMap].
  assert (Hmap :
    (if truthy_ostr oid
     then <[idx := default "" oid]> ({[idx := id]} : gmap Z string)
     else {[idx := id]}) = {[idx := id]}).
  { destruct Hoid as [-> | ->]; [reflexivity |].
    replace (truthy_ostr (Some id)) with true by by destruct id.
    apply insert_singleton_eq. }
  rewrite Hmap, lookup_singleton_eq, or_str_truthy by assumption.
  unfold Map_has. rewrite !Map_get_head, Map_set_head.
  set (entry := if truthy_ostr oname then _ else _).
  assert (Hentry : entry = {| acc_id := id; acc_name := name;
                              acc_arguments := arguments |}).
  { subst entry. destruct Honame as [-> | ->]; [reflexivity |].
    by destruct name. }
  rewrite (append_fragment arguments fragment (fn_arguments fn) entry Hargs)
    by (by rewrite Hentry).
  by rewrite Hentry.
Qed.

(** What the stream conversion does with a fragment chunk: the one
    tool call is accumulated, and nothing is thrown. *)
Lemma convert_fragment_chunk chunk idx oid oname fragment acc im :
  fragment_chunk chunk idx oid oname fragment ->
  exists toolCall fn result,
    or_num (tc_index toolCall) 0 = idx
    /\ tc_id toolCall = oid
    /\ fn_name fn = oname
    /\ (fn_arguments fn = Some (JStr fragment)
        \/ (fn_arguments fn = None /\ fragment = ""))
    /\ convertFromOpenAIFormat chunk true (Some acc) (Some im)
       = (Some (accumulate toolCall fn (acc, im)).1,
          Some (accumulate toolCall fn (acc, im)).2, Ok result).
Proof.
  intros (d & choice & delta & toolCall & fn & Hd & Hchoice & Hdelta
          & Hcalls & Hidx & Hid & Hfn & Hname & Hargs).
  exists toolCall, fn. unfold convertFromOpenAIFormat.
  rewrite Hd, Hchoice, Hdelta, Hcalls.
  cbn [tool_call_loop ls_acc ls_idx ls_calls]. rewrite Hfn, orb_true_r.
  destruct (accumulate toolCall fn (acc, im)) as [acc' im'].
  cbn [negb fst snd ls_acc ls_idx ls_calls length Nat.eqb andb].
  destruct (negb (truthy_str _) && true); eauto 10.
Qed.

Lemma process_first_fragment line chunk idx id name fragment :
  data_line line chunk ->
  fragment_chunk chunk idx (Some id) (Some name) fragment ->
  id <> "" ->
  exists ys,
    process_line line initial_state
    = Continue ys (call_state idx id name fragment).
Proof.
  intros (payload & -> & Hpayload & Hparse) Hchunk Hne.
  rewrite process_data_line, Hparse by assumption.
  destruct (convert_fragment_chunk _ _ _ _ _
              (toolCallAccumulator initial_state)
              (indexToIdMap initial_state) Hchunk)
    as (toolCall & fn & result & Hidx & Hid & Hname & Hargs & ->).
  cbn [initial_state toolCallAccumulator indexToIdMap].
  rewrite (accumulate_first toolCall fn idx id name fragment)
    by assumption.
  eexists. reflexivity.
Qed.

Lemma process_later_fragment line chunk idx id name arguments oid oname
    fragment :
  data_line line chunk ->
  fragment_chunk chunk idx oid oname fragment ->
  oid = None \/ oid = Some id -> oname = None \/ oname = Some name ->
  id <> "" ->
  exists ys,
    process_line line (call_state idx id name arguments)
    = Continue ys (call_state idx id name (arguments +:+ fragment)).
Proof.
  intros (payload & -> & Hpayload & Hparse) Hchunk Hoid Honame Hne.
  rewrite process_data_line, Hparse by assumption.
  destruct (convert_fragment_chunk _ _ _ _ _
              (toolCallAccumulator (call_state idx id name arguments))
              (indexToIdMap (call_state idx id name arguments)) Hchunk)
    as (toolCall & fn & result & Hidx & Hid & Hname & Hargs & ->).
  rewrite (accumulate_later toolCall fn idx id name arguments oid oname
             fragment) by assumption.
  eexists. reflexivity.
Qed.

Lemma process_lines_continue_yields lines st ys st' :
  process_lines lines st = Continue ys st' ->
  Forall (fun r => functionCalls r = Some []) ys.
Proof.
  intros Hrun.
  destruct (process_lines_yields lines st) as (zs & st'' & Hzs & [Hc | Hr]);
    rewrite Hrun in *; [by inversion Hc; subst | discriminate].
Qed.

Lemma process_lines_app lines lines' st :
  process_lines (lines ++ lines') st
  = match process_lines lines st with
    | Return ys => Return ys
    | Continue ys st' =>
        match process_lines lines' st' with
        | Return zs => Return (ys ++ zs)
        | Continue zs st'' => Continue (ys ++ zs) st''
        end
    end.
Proof.
  revert st. induction lines as [| line lines IH]; intros st; simpl.
  - by destruct (process_lines lines' st).
  - destruct (process_line line st) as [ys st' |]; [| reflexivity].
    rewrite IH. destruct (process_lines lines st') as [zs st'' |];
      [| reflexivity].
    destruct (process_lines lines' st''); by rewrite app_assoc.
Qed.

Lemma process_lines_passes lines st :
  Forall passes lines -> exists ys, process_lines lines st = Continue ys st.
Proof.
  induction 1 as [| line lines Hline _ [zs IH]]; simpl; [by eauto |].
  destruct (passes_unchanged line st Hline) as [ys ->]. rewrite IH. eauto.
Qed.

Lemma process_lines_continues idx id name lines fragments arguments :
  id <> "" ->
  continues idx id name lines fragments ->
  exists ys,
    process_lines lines (call_state idx id name arguments)
    = Continue ys (call_state idx id name (arguments +:+ joined fragments)).
Proof.
  intros Hne Hlines. revert arguments.
  induction Hlines
    as [| line lines fragments Hline _ IH
        | line chunk oid oname fragment lines fragments Hline Hchunk
            Hoid Honame _ IH];
    intros arguments; simpl.
  - rewrite append_nil_r. eauto.
  - destruct (passes_unchanged line (call_state idx id name arguments)
                Hline) as [ys ->].
    destruct (IH arguments) as [zs ->]. eauto.
  - destruct (process_later_fragment line chunk idx id name arguments
                oid oname fragment) as [ys ->]; try assumption.
    destruct (IH (arguments +:+ fragment)) as [zs ->].
    rewrite append_assoc. eauto.
Qed.

Lemma flush_call_state idx id name arguments :
  flush (call_state idx id name arguments)
  = [completed_response
       [completed_call {| acc_id := id; acc_name := name;
                          acc_arguments := arguments |}]].
Proof. reflexivity. Qed.

(** ** Reads and lines

    However the text of the stream is cut into reads, the generator
    processes the complete lines of the text, in order. *)
Lemma read_loop_lines reads buffer st :
  contains nl buffer = false ->
  read_loop reads buffer st
  = yielded
      (process_lines
         (List.removelast (split nl (buffer +:+ joined reads))) st).
Proof.
  revert buffer st.
  induction reads as [| value reads IH]; intros buffer st Hbuffer.
  - simpl. rewrite append_nil_r.
    rewrite <- (append_nil_r buffer) at 1.
    rewrite split_prefix by assumption. reflexivity.
  - cbn [read_loop joined foldr]. unfold take_lines.
    rewrite <- append_assoc.
    rewrite (split_append nl (buffer +:+ value)).
    rewrite removelast_app_not_nil by apply split_not_nil.
    rewrite process_lines_app.
    destruct (process_lines _ st) as [ys st' |]; [| reflexivity].
    rewrite IH by apply split_last_no_separator.
    fold (joined reads).
    by destruct (process_lines _ st').
Qed.

Lemma generateContentStreamInternal_lines reads :
  generateContentStreamInternal reads
  = yielded
      (process_lines (List.removelast (split nl (joined reads)))
         initial_state).
Proof.
  unfold generateContentStreamInternal. by rewrite read_loop_lines.
Qed.

(** ** The stream of one fragmented call *)

Section FragmentedCall.
Variables (before rest : list string) (first : string).
Variables (chunk : json) (idx : Z) (id name fragment : string).
Variable fragments : list string.
Hypothesis before_passed : Forall passes before.
Hypothesis first_line : data_line first chunk.
Hypothesis first_chunk :
  fragment_chunk chunk idx (Some id) (Some name) fragment.
Hypothesis id_not_empty : id <> "".
Hypothesis rest_continues : continues idx id name rest fragments.

Lemma fragmented_call_lines :
  exists texts,
    process_lines (before ++ first :: rest) initial_state
    = Continue texts
        (call_state idx id name (joined (fragment :: fragments)))
    /\ Forall (fun r => functionCalls r = Some []) texts.
Proof.
  destruct (process_lines_passes before initial_state before_passed)
    as [ys0 Hbefore].
  destruct (process_first_fragment first chunk idx id name fragment
              first_line first_chunk id_not_empty) as [ys1 Hfirst].
  destruct (process_lines_continues idx id name rest fragments fragment
              id_not_empty rest_continues) as [ys2 Hrest].
  assert (Hrun :
    process_lines (before ++ first :: rest) initial_state
    = Continue (ys0 ++ ys1 ++ ys2)
        (call_state idx id name (joined (fragment :: fragments)))).
  { rewrite process_lines_app, Hbefore. simpl.
    by rewrite Hfirst, Hrest. }
  eexists. split; [exact Hrun |].
  exact (process_lines_continue_yields _ _ _ _ Hrun).
Qed.

Hypothesis no_newline :
  Forall (fun line => contains nl line = false) (before ++ first :: rest).

(** With the terminator: the text responses, then one response with
    the one completed call. *)
Lemma fragmented_call_stream reads tail :
  joined reads
  = unlines (before ++ first :: rest ++ [done_line]) +:+ tail ->
  exists texts,
    generateContentStreamInternal reads
    = texts
      ++ [completed_response
            [completed_call
               {| acc_id := id; acc_name := name;
                  acc_arguments := joined (fragment :: fragments) |}]]
    /\ Forall (fun r => functionCalls r = Some []) texts.
Proof.
  intros Hreads.
  destruct fragmented_call_lines as (texts & Hrun & Htexts).
  exists texts. split; [| assumption].
  rewrite generateContentStreamInternal_lines, Hreads.
  replace (before ++ first :: rest ++ [done_line])
    with ((before ++ first :: rest) ++ [done_line])
    by (by rewrite <- app_assoc).
  rewrite split_unlines
    by (apply Forall_app; split; [assumption | by repeat constructor]).
  rewrite removelast_app_not_nil by apply split_not_nil.
  rewrite <- app_assoc, process_lines_app, Hrun. simpl.
  by rewrite flush_call_state.
Qed.

End FragmentedCall.

(** ** Insertion order *)

Lemma Map_set_keys {V} k (v : V) (m : Map V) :
  map fst (Map_set k v m)
  = if Map_has k m then map fst m else map fst m ++ [k].
Proof.
  unfold Map_has. induction m as [| [k' v'] m IH]; [reflexivity |]. simpl.
  destruct (String.eqb k k'); [reflexivity |]. simpl. rewrite IH.
  by destruct (Map_get k m).
Qed.

Lemma Map_has_set {V} k (v : V) (m : Map V) : Map_has k (Map_set k v m) = true.
Proof.
  unfold Map_has. induction m as [| [k' v'] m IH]; simpl.
  - by rewrite String.eqb_refl.
  - destruct (String.eqb k k') eqn:Hk; simpl; by rewrite Hk.
Qed.

(** A chunk's tool call keeps the entries accumulated so far in their
    order, and a call not seen before goes last. *)
Lemma accumulate_keys toolCall fn acc im :
  exists callId,
    map fst (accumulate toolCall fn (acc, im)).1
    = if Map_has callId acc then map fst acc else map fst acc ++ [callId].
Proof.
  unfold accumulate.
  set (index := or_num (tc_index toolCall) 0).
  set (im' := if truthy_ostr (tc_id toolCall) then _ else im).
  set (callId := or_str (im' !! index) _).
  set (acc' := if Map_has callId acc then acc else _).
  exists callId.
  assert (Hkeys : map fst acc'
                  = if Map_has callId acc then map fst acc
                    else map fst acc ++ [callId]).
  { subst acc'. destruct (Map_has callId acc) eqn:Hhas; [reflexivity |].
    by rewrite Map_set_keys, Hhas. }
  assert (Hhas' : Map_has callId acc' = true).
  { subst acc'. destruct (Map_has callId acc) eqn:Hhas; [assumption |].
    apply Map_has_set. }
  destruct (Map_get callId acc') as [accumulated |]; [| exact Hkeys].
  cbn [fst]. by rewrite Map_set_keys, Hhas'.
Qed.

Lemma process_done_line_not_empty k entry acc im :
  process_line done_line
    {| toolCallAccumulator := (k, entry) :: acc; indexToIdMap := im |}
  = Return [completed_response
              (map completed_call (entry :: Map_values acc))].
Proof. reflexivity. Qed.

(** ** Arguments that do not parse *)

Lemma completed_call_unparseable entry :
  JSON_parse (acc_arguments entry) = None ->
  completed_call entry
  = {| fc_id := Some (acc_id entry); fc_name := Some (acc_name entry);
       fc_args := Some empty_object |}.
Proof.
  intros Hparse. unfold completed_call. rewrite Hparse.
  by destruct (truthy_str _).
Qed.

Lemma convertAccumulated_not_nil before entry after :
  convertAccumulatedToolCallsToGemini (before ++ entry :: after)
  = Some (completed_response
            (map completed_call before
             ++ completed_call entry :: map completed_call after)).
Proof.
  unfold convertAccumulatedToolCallsToGemini. rewrite map_app. simpl.
  by destruct (map completed_call before).
Qed.

(** The non-streaming loop over well-formed entries. *)
Lemma tool_call_loop_single_shot toolCalls acc idx calls :
  tool_call_loop false (map Some toolCalls)
    {| ls_acc := acc; ls_idx := idx; ls_calls := calls |}
  = ({| ls_acc := acc; ls_idx := idx;
        ls_calls := calls ++ single_shot_calls toolCalls |}, true).
Proof.
  revert calls. induction toolCalls as [| toolCall toolCalls IH];
    intros calls; cbn [map tool_call_loop ls_acc ls_idx ls_calls].
  - by rewrite app_nil_r.
  - unfold single_shot_calls. cbn [flat_map].
    fold (single_shot_calls toolCalls).
    destruct (tc_function toolCall) as [fn |]; [| apply IH].
    rewrite orb_false_r.
    destruct (bool_decide (tc_type toolCall = Some "function")).
    + rewrite IH, <- app_assoc. reflexivity.
    + apply IH.
Qed.
End OpenAIStreamFacts.

(** ** Streams of several calls *)

Lemma joined_singleton (s : string) : joined [s] = s.
Proof. apply append_nil_r. Qed.

Section ParallelCalls.
Context `{JSRuntime Part}.
Import OpenAI.

Implicit Types (opened final : open_calls) (call : logical_call).

Lemma Map_get_middle {V} k (v : V) (before after : Map V) :
  k ∉ map fst before -> Map_get k (before ++ (k, v) :: after) = Some v.
Proof.
  induction before as [| [k' v'] before IH]; simpl; intros Hnot.
  - by rewrite String.eqb_refl.
  - destruct (String.eqb_spec k k') as [-> | _].
    + exfalso. apply Hnot. apply list_elem_of_here.
    + apply IH. intros Hin. apply Hnot. by apply list_elem_of_further.
Qed.

Lemma Map_set_middle {V} k (v v' : V) (before after : Map V) :
  k ∉ map fst before ->
  Map_set k v' (before ++ (k, v) :: after) = before ++ (k, v') :: after.
Proof.
  induction before as [| [k' v0] before IH]; simpl; intros Hnot.
  - by rewrite String.eqb_refl.
  - destruct (String.eqb_spec k k') as [-> | _].
    + exfalso. apply Hnot. apply list_elem_of_here.
    + f_equal. apply IH. intros Hin. apply Hnot.
      by apply list_elem_of_further.
Qed.

Lemma Map_get_absent {V} k (m : Map V) :
  k ∉ map fst m -> Map_get k m = None.
Proof.
  induction m as [| [k' v'] m IH]; simpl; intros Hnot; [reflexivity |].
  destruct (String.eqb_spec k k') as [-> | _].
  - exfalso. apply Hnot. apply list_elem_of_here.
  - apply IH. intros Hin. apply Hnot. by apply list_elem_of_further.
Qed.

Lemma Map_set_absent {V} k (v : V) (m : Map V) :
  k ∉ map fst m -> Map_set k v m = m ++ [(k, v)].
Proof.
  induction m as [| [k' v'] m IH]; simpl; intros Hnot; [reflexivity |].
  destruct (String.eqb_spec k k') as [-> | _].
  - exfalso. apply Hnot. apply list_elem_of_here.
  - f_equal. apply IH. intros Hin. apply Hnot. by apply list_elem_of_further.
Qed.

Lemma joined_app (l l' : list string) :
  joined (l ++ l') = joined l +:+ joined l'.
Proof.
  induction l as [| s l IH]; [reflexivity |].
  cbn [app joined foldr]. fold (joined (l ++ l')) (joined l).
  by rewrite IH, append_assoc.
Qed.

Lemma call_entry_keys opened :
  map fst (map call_entry opened) = map (fun entry => lc_id entry.1) opened.
Proof. by rewrite map_map. Qed.

Lemma index_map_snoc (calls : list logical_call) call :
  index_map (calls ++ [call])
  = <[lc_index call := lc_id call]> (index_map calls).
Proof. unfold index_map. by rewrite fold_left_app. Qed.

Lemma index_map_later (calls : list logical_call) (m : gmap Z string) k :
  k ∉ map lc_index calls ->
  fold_left (fun m call => <[lc_index call := lc_id call]> m) calls m !! k
  = m !! k.
Proof.
  revert m. induction calls as [| call calls IH]; intros m Hnot;
    [reflexivity |].
  cbn [fold_left]. rewrite IH.
  - apply lookup_insert_ne. intros Heq. apply Hnot. rewrite <- Heq.
    apply list_elem_of_here.
  - intros Hin. apply Hnot. by apply list_elem_of_further.
Qed.

Lemma index_map_lookup (before after : list logical_call) call :
  NoDup (map lc_index (before ++ call :: after)) ->
  index_map (before ++ call :: after) !! lc_index call = Some (lc_id call).
Proof.
  intros Hdistinct. unfold index_map. rewrite fold_left_app.
  cbn [fold_left]. rewrite index_map_later.
  - apply lookup_insert_eq.
  - rewrite map_app in Hdistinct.
    apply NoDup_app in Hdistinct as (_ & _ & Hafter).
    cbn [map] in Hafter. by apply NoDup_cons in Hafter as [Hnot _].
Qed.

(** A chunk that opens a call. *)
Lemma accumulate_open toolCall fn opened call fragment :
  lc_index call ∉ map (fun entry => lc_index entry.1) opened ->
  lc_id call ∉ map (fun entry => lc_id entry.1) opened ->
  lc_id call <> "" ->
  or_num (tc_index toolCall) 0 = lc_index call ->
  tc_id toolCall = Some (lc_id call) ->
  fn_name fn = Some (lc_name call) ->
  fn_arguments fn = Some (JStr fragment)
  \/ (fn_arguments fn = None /\ fragment = "") ->
  accumulate toolCall fn
    (toolCallAccumulator (calls_state opened),
     indexToIdMap (calls_state opened))
  = (toolCallAccumulator (calls_state (opened ++ [(call, [fragment])])),
     indexToIdMap (calls_state (opened ++ [(call, [fragment])]))).
Proof.
  intros Hindex Hfresh Hne Hidx Hid Hname Hargs. unfold accumulate.
  rewrite Hidx, Hid, Hname. cbn [calls_state toolCallAccumulator indexToIdMap].
  replace (truthy_ostr (Some (lc_id call))) with true
    by by destruct (lc_id call).
  change (default "" (Some (lc_id call))) with (lc_id call).
  rewrite lookup_insert_eq, or_str_truthy by assumption.
  assert (Hkeys : lc_id call ∉ map fst (map call_entry opened))
    by by rewrite call_entry_keys.
  unfold Map_has. rewrite (Map_get_absent _ _ Hkeys).
  rewrite (Map_set_absent _ _ _ Hkeys), (Map_get_middle _ _ _ [] Hkeys).
  set (entry := if truthy_ostr (Some (lc_name call)) then _ else _).
  assert (Hentry : entry = {| acc_id := lc_id call; acc_name := lc_name call;
                              acc_arguments := "" |})
    by (subst entry; by destruct (lc_name call)).
  rewrite (append_fragment "" fragment (fn_arguments fn) entry Hargs)
    by (by rewrite Hentry).
  rewrite Hentry, (Map_set_middle _ _ _ _ [] Hkeys).
  rewrite !map_app. cbn [map fst].
  change (call_entry (call, [fragment])) with
    (lc_id call,
     {| acc_id := lc_id call; acc_name := lc_name call;
        acc_arguments := joined [fragment] |}).
  by rewrite index_map_snoc, joined_singleton.
Qed.

(** A chunk that carries a further fragment of an open call. *)
Lemma accumulate_fragment toolCall fn before call fragments after oid oname
    fragment :
  distinct_calls (before ++ (call, fragments) :: after) ->
  or_num (tc_index toolCall) 0 = lc_index call ->
  tc_id toolCall = oid -> oid = None \/ oid = Some (lc_id call) ->
  fn_name fn = oname -> oname = None \/ oname = Some (lc_name call) ->
  fn_arguments fn = Some (JStr fragment)
  \/ (fn_arguments fn = None /\ fragment = "") ->
  accumulate toolCall fn
    (toolCallAccumulator (calls_state (before ++ (call, fragments) :: after)),
     indexToIdMap (calls_state (before ++ (call, fragments) :: after)))
  = (toolCallAccumulator
       (calls_state (before ++ (call, fragments ++ [fragment]) :: after)),
     indexToIdMap
       (calls_state (before ++ (call, fragments ++ [fragment]) :: after))).
Proof.
  intros (Hindexes & Hids & Hne) Hidx Hid Hoid Hname Honame Hargs.
  unfold accumulate. rewrite Hidx, Hid, Hname.
  cbn [calls_state toolCallAccumulator indexToIdMap].
  assert (Hcall : lc_id call <> "").
  { apply Forall_app in Hne as [_ Hne]. by inversion Hne. }
  assert (Hlookup :
    index_map (map fst (before ++ (call, fragments) :: after))
    !! lc_index call = Some (lc_id call)).
  { rewrite map_app. cbn [map fst]. apply index_map_lookup.
    rewrite map_app in Hindexes |- *. cbn [map fst] in Hindexes |- *.
    by rewrite !map_map. }
  assert (Hmap :
    (if truthy_ostr oid
     then <[lc_index call := default "" oid]>
            (index_map (map fst (before ++ (call, fragments) :: after)))
     else index_map (map fst (before ++ (call, fragments) :: after)))
    = index_map (map fst (before ++ (call, fragments) :: after))).
  { destruct Hoid as [-> | ->]; [reflexivity |].
    replace (truthy_ostr (Some (lc_id call))) with true
      by by destruct (lc_id call).
    by apply insert_id. }
  rewrite Hmap, Hlookup, or_str_truthy by assumption.
  assert (Hkeys : lc_id call ∉ map fst (map call_entry before)).
  { rewrite call_entry_keys. rewrite map_app in Hids.
    apply NoDup_app in Hids as (_ & Hdisjoint & _).
    intros Hin. apply (Hdisjoint _ Hin). cbn [map]. apply list_elem_of_here. }
  rewrite !map_app. cbn [map]. unfold Map_has.
  change (call_entry (call, fragments)) with
    (lc_id call,
     {| acc_id := lc_id call; acc_name := lc_name call;
        acc_arguments := joined fragments |}).
  rewrite !(Map_get_middle _ _ _ _ Hkeys), (Map_set_middle _ _ _ _ _ Hkeys).
  set (entry := if truthy_ostr oname then _ else _).
  assert (Hentry : entry = {| acc_id := lc_id call; acc_name := lc_name call;
                              acc_arguments := joined fragments |}).
  { subst entry. destruct Honame as [-> | ->]; [reflexivity |].
    by destruct (lc_name call). }
  rewrite (append_fragment (joined fragments) fragment (fn_arguments fn)
             entry Hargs) by (by rewrite Hentry).
  rewrite Hentry. cbn [acc_id acc_name fst].
  change (call_entry (call, fragments ++ [fragment])) with
    (lc_id call,
     {| acc_id := lc_id call; acc_name := lc_name call;
        acc_arguments := joined (fragments ++ [fragment]) |}).
  by rewrite joined_app, joined_singleton.
Qed.

Lemma distinct_calls_open opened call fragment :
  distinct_calls opened ->
  lc_index call ∉ map (fun entry => lc_index entry.1) opened ->
  lc_id call ∉ map (fun entry => lc_id entry.1) opened ->
  lc_id call <> "" ->
  distinct_calls (opened ++ [(call, [fragment])]).
Proof.
  intros (Hindexes & Hids & Hne) Hindex Hid Hcall. unfold distinct_calls.
  rewrite !map_app. cbn [map fst]. split_and!.
  - apply NoDup_app. split_and!; [assumption | | apply NoDup_singleton].
    intros k Hin Hin'. apply list_elem_of_singleton in Hin' as ->. done.
  - apply NoDup_app. split_and!; [assumption | | apply NoDup_singleton].
    intros k Hin Hin'. apply list_elem_of_singleton in Hin' as ->. done.
  - apply Forall_app. split; [assumption | by repeat constructor].
Qed.

Lemma distinct_calls_fragment before call fragments fragments' after :
  distinct_calls (before ++ (call, fragments) :: after) ->
  distinct_calls (before ++ (call, fragments') :: after).
Proof.
  unfold distinct_calls. rewrite !map_app, !Forall_app, !Forall_cons.
  cbn [map fst]. tauto.
Qed.

(** The tool-call loop on the entries of a chunk. *)
Lemma receives_loop opened entries received calls :
  receives opened entries received ->
  distinct_calls opened ->
  distinct_calls received
  /\ tool_call_loop true entries
       {| ls_acc := Some (toolCallAccumulator (calls_state opened));
          ls_idx := Some (indexToIdMap (calls_state opened));
          ls_calls := calls |}
     = ({| ls_acc := Some (toolCallAccumulator (calls_state received));
           ls_idx := Some (indexToIdMap (calls_state received));
           ls_calls := calls |}, true).
Proof.
  induction 1
    as [opened
       | opened toolCall entries final Hnone _ IH
       | opened toolCall call fragment entries final Hentry Hne Hindex Hid
           _ IH
       | before call fragments after toolCall oid oname fragment entries
           final Hentry Hoid Honame _ IH];
    intros Hdistinct; cbn [tool_call_loop ls_acc ls_idx ls_calls].
  - by split.
  - rewrite Hnone. by apply IH.
  - destruct (IH (distinct_calls_open _ _ fragment Hdistinct Hindex Hid Hne))
      as [Hfinal Hloop].
    split; [assumption |].
    destruct Hentry as (fn & Hidx & Htid & Hfn & Hname & Hargs).
    rewrite Hfn, orb_true_r.
    rewrite (accumulate_open toolCall fn opened call fragment)
      by assumption.
    exact Hloop.
  - destruct (IH (distinct_calls_fragment _ _ _ (fragments ++ [fragment]) _
                    Hdistinct)) as [Hfinal Hloop].
    split; [assumption |].
    destruct Hentry as (fn & Hidx & Htid & Hfn & Hname & Hargs).
    rewrite Hfn, orb_true_r.
    rewrite (accumulate_fragment toolCall fn before call fragments after
               oid oname fragment) by assumption.
    exact Hloop.
Qed.

(** The lines of a stream of several calls leave the accumulators with
    one entry for each call, in the order in which the calls were
    opened, with the fragments of that call put together. *)
Lemma delivers_processed opened lines final :
  delivers opened lines final ->
  distinct_calls opened ->
  distinct_calls final
  /\ exists ys,
       process_lines lines (calls_state opened)
       = Continue ys (calls_state final).
Proof.
  induction 1
    as [opened
       | opened line lines final Hline _ IH
       | opened line chunk entries received lines final Hline Hchunk
           Hreceived _ IH];
    intros Hdistinct; cbn [process_lines].
  - split; [assumption | by eauto].
  - destruct (IH Hdistinct) as [Hfinal [zs Hzs]]. split; [assumption |].
    destruct (passes_unchanged line (calls_state opened) Hline) as [ys ->].
    rewrite Hzs. eauto.
  - destruct (receives_loop _ _ _ [] Hreceived Hdistinct)
      as [Hdistinct' Hloop].
    destruct (IH Hdistinct') as [Hfinal [zs Hzs]]. split; [assumption |].
    destruct Hline as (payload & -> & Hpayload & Hparse).
    destruct Hchunk as (d & choice & delta & Hd & Hchoice & Hdelta & Hcalls).
    rewrite process_data_line, Hparse by assumption.
    unfold convertFromOpenAIFormat.
    rewrite Hd, Hchoice, Hdelta, Hcalls, Hloop.
    cbn [negb fst snd ls_acc ls_idx ls_calls length Nat.eqb andb].
    destruct (negb (truthy_str _) && true);
      (match goal with
       | |- context [process_lines lines ?st] =>
           change st with (calls_state received)
       end;
       rewrite Hzs; eauto).
Qed.

(** What the terminator yields for the calls of a stream. *)
Lemma flush_calls_state entry final :
  flush (calls_state (entry :: final))
  = [completed_response
       (map (fun entry =>
               {| fc_id := Some (lc_id entry.1);
                  fc_name := Some (lc_name entry.1);
                  fc_args := Some (parsed_arguments (joined entry.2)) |})
          (entry :: final))].
Proof.
  unfold flush, Map_size, Map_values.
  cbn [calls_state toolCallAccumulator map length].
  change (0 <? S _)%nat with true. cbv iota.
  rewrite (convertAccumulated_not_nil [] (call_entry entry).2
             (map snd (map call_entry final))).
  cbn [map app]. do 3 f_equal.
  - unfold completed_call, parsed_arguments, call_entry.
    cbn [fst snd acc_id acc_name acc_arguments].
    by destruct (truthy_str (joined entry.2)).
  - rewrite !map_map. apply map_ext. intros e.
    unfold completed_call, parsed_arguments, call_entry.
    cbn [fst snd acc_id acc_name acc_arguments].
    by destruct (truthy_str (joined e.2)).
Qed.

Lemma distinct_calls_nil : distinct_calls [].
Proof. split_and!; constructor. Qed.
End ParallelCalls.

(** C1: the OpenAI-compatible generator, given a stream that delivers
    tool calls and then the terminator, yields responses without
    function calls followed by exactly one response, which holds exactly
    one function call for each logical call of the stream, in the order
    in which the calls were opened: each with the id and the name of its
    call and, as arguments, the parse of the concatenation of the
    fragments of that call, in however many chunks (one or more) they
    arrive, whatever stands between them (lines that are passed over,
    fragments of other calls, in chunks of their own or in the same
    chunk), and however the text is cut into reads.  The same stream
    without its terminator yields no function call at all.  In any
    stream, a chunk's tool call keeps the accumulated entries in their
    order and puts a new one last, and the terminator yields the
    accumulated entries in that order. *)
Theorem openai_stream_fragmented_tool_call :
  forall (rt : JSRuntime Part) (reads lines : list string) (tail : string)
         (calls : open_calls),
    joined reads = unlines (lines ++ [done_line]) +:+ tail ->
    Forall (fun line => contains nl line = false) lines ->
    delivers [] lines calls ->
    calls <> [] ->
    (exists texts,
        OpenAI.generateContentStreamInternal reads
        = texts
          ++ [completed_response
                (map (fun entry =>
                        {| fc_id := Some (lc_id entry.1);
                           fc_name := Some (lc_name entry.1);
                           fc_args :=
                             Some (parsed_arguments (joined entry.2)) |})
                   calls)]
        /\ Forall (fun r => functionCalls r = Some []) texts)
    /\ (forall entry v,
           In entry calls ->
           JSON_parse (joined entry.2) = Some v ->
           joined entry.2 <> "" ->
           parsed_arguments (joined entry.2) = v)
    /\ (forall reads' partial,
           joined reads' = unlines lines +:+ partial ->
           contains nl partial = false ->
           Forall (fun r => functionCalls r = Some [])
             (OpenAI.generateContentStreamInternal reads'))
    /\ (forall toolCall fn acc im,
           exists callId,
             map fst (OpenAI.accumulate toolCall fn (acc, im)).1
             = if Map_has callId acc then map fst acc
               else map fst acc ++ [callId])
    /\ (forall k entry acc im,
           OpenAI.process_line done_line
             {| OpenAI.toolCallAccumulator := (k, entry) :: acc;
                OpenAI.indexToIdMap := im |}
           = OpenAI.Return
               [completed_response
                  (map OpenAI.completed_call (entry :: Map_values acc))]).
Proof.
  intros rt reads lines trailing calls Hreads Hlines Hdelivers Hcalls.
  destruct (delivers_processed [] lines calls Hdelivers distinct_calls_nil)
    as [_ [texts Hrun]].
  change (calls_state []) with OpenAI.initial_state in Hrun.
  pose proof (process_lines_continue_yields _ _ _ _ Hrun) as Htexts.
  split_and!; [| | | apply accumulate_keys | apply process_done_line_not_empty].
  - exists texts. split; [| assumption].
    rewrite generateContentStreamInternal_lines, Hreads.
    rewrite split_unlines
      by (apply Forall_app; split; [assumption | by repeat constructor]).
    rewrite removelast_app_not_nil by apply split_not_nil.
    rewrite <- app_assoc, process_lines_app, Hrun.
    cbn [app OpenAI.process_lines]. rewrite process_done_line.
    cbn [yielded]. destruct calls as [| entry calls]; [done |].
    by rewrite flush_calls_state.
  - intros entry v _ Hparse Hne. unfold parsed_arguments. rewrite Hparse.
    by destruct (joined entry.2).
  - intros reads' partial Hreads' Hpartial.
    rewrite generateContentStreamInternal_lines, Hreads'.
    rewrite split_unlines by assumption.
    rewrite <- (append_nil_r partial), split_prefix by assumption.
    cbn [split hd tail]. rewrite removelast_last, Hrun. exact Htexts.
Qed.

(** The stream of the calls [search] and [fetch], which one chunk
    opens and whose fragments then alternate, cut into three reads in
    the middle of lines. *)
Lemma openai_stream_fragmented_tool_call_witness :
  exists texts,
    OpenAI.generateContentStreamInternal (H := Concrete.runtime)
      Parallel.reads
    = texts
      ++ [completed_response
            [{| fc_id := Some "c1"; fc_name := Some "search";
                fc_args := Some (JObj [("q", JStr "cats")]) |};
             {| fc_id := Some "c2"; fc_name := Some "fetch";
                fc_args := Some (JObj [("u", JNum 1)]) |}]]
    /\ Forall (fun r => functionCalls r = Some []) texts.
Proof.
  destruct (openai_stream_fragmented_tool_call Concrete.runtime
              Parallel.reads Parallel.lines ""
              [(Parallel.search,
                [""; "{" +:+ quoted "q" +:+ ":"; quoted "cats" +:+ "}"]);
               (Parallel.fetch, ["{"; quoted "u" +:+ ":1}"])])
    as [(texts & Hrun & Htexts) _].
  - vm_compute. reflexivity.
  - repeat (constructor; [vm_compute; reflexivity |]). constructor.
  - unfold Parallel.lines.
    eapply (delivers_chunk (H := Concrete.runtime) []);
      [read_data_line | read_calls_chunk | |].
    { eapply (receives_open [] _ Parallel.search "");
        [read_call_fragment | discriminate
        | apply not_elem_of_nil | apply not_elem_of_nil |].
      cbn [app].
      eapply (receives_open _ _ Parallel.fetch "{");
        [read_call_fragment | discriminate
        | intros Hin; apply list_elem_of_singleton in Hin; discriminate
        | intros Hin; apply list_elem_of_singleton in Hin; discriminate |].
      apply receives_nil. }
    cbn [app]. apply delivers_pass; [by left |].
    eapply (delivers_chunk (H := Concrete.runtime));
      [read_data_line | read_calls_chunk | |].
    { eapply (receives_fragment [] Parallel.search [""]
                [(Parallel.fetch, ["{"])] _ None None
                ("{" +:+ quoted "q" +:+ ":"));
        [read_call_fragment | by left | by left | apply receives_nil]. }
    cbn [app].
    eapply (delivers_chunk (H := Concrete.runtime));
      [read_data_line | read_calls_chunk | |].
    { eapply (receives_fragment
                [(Parallel.search, [""; "{" +:+ quoted "q" +:+ ":"])]
                Parallel.fetch ["{"] [] _ None None (quoted "u" +:+ ":1}"));
        [read_call_fragment | by left | by left | apply receives_nil]. }
    cbn [app].
    eapply (delivers_chunk (H := Concrete.runtime));
      [read_data_line | read_calls_chunk | |].
    { eapply (receives_fragment [] Parallel.search
                [""; "{" +:+ quoted "q" +:+ ":"]
                [(Parallel.fetch, ["{"; quoted "u" +:+ ":1}"])] _ None None
                (quoted "cats" +:+ "}"));
        [read_call_fragment | by left | by left | apply receives_nil]. }
    cbn [app].
    apply delivers_pass.
    { right. eexists. split; [reflexivity |].
      split; [vm_compute; discriminate | vm_compute; reflexivity]. }
    apply delivers_pass; [by left |].
    constructor.
  - discriminate.
  - exists texts. split; [| assumption]. rewrite Hrun. do 2 f_equal.
Defined.

(* ===================================================================== *)
(** * Properties of the Anthropic stream *)
(* ===================================================================== *)

Section AnthropicStreamFacts.
Context `{JSRuntime Part}.
Import Anthropic.

Implicit Types (acc : ToolCallAccumulator) (line : string).

Lemma anthropic_skips line acc :
  startsWith "event: " line || negb (startsWith "data: " line) = true ->
  process_line line acc = ([], acc).
Proof.
  unfold process_line. intros Hline.
  destruct (startsWith "event: " line); [reflexivity |].
  by destruct (startsWith "data: " line).
Qed.

Lemma anthropic_process_data_line payload acc :
  process_line ("data: " +:+ payload) acc
  = match JSON_parse payload with
    | Some parsed =>
        let '(acc', result) :=
          convertFromAnthropicFormat parsed true (Some acc) in
        (match result with
         | Ok (Some geminiResponse) => [geminiResponse]
         | Ok None | Throw _ => []
         end,
         default acc acc')
    | None => ([], acc)
    end.
Proof.
  unfold process_line, startsWith. simpl.
  rewrite prefix_nil. reflexivity.
Qed.

(** A streaming event never returns function calls. *)
Lemma handleAnthropicStreamingEvent_no_calls data acc :
  exists acc' result,
    handleAnthropicStreamingEvent data (Some acc) = (Some acc', result)
    /\ forall response,
         result = Some response -> functionCalls response = Some [].
Proof.
  unfold handleAnthropicStreamingEvent.
  repeat match goal with
         | |- context [bool_decide ?P] => destruct (bool_decide P)
         | |- context [Map_get ?k ?m] => destruct (Map_get k m)
         | |- context [match d_content_block ?d with _ => _ end] =>
             destruct (d_content_block d)
         end;
    eexists _, _; (split; [reflexivity |]);
    intros response Hresponse; by inversion Hresponse.
Qed.

Lemma anthropic_process_line_yields line acc :
  Forall (fun r => functionCalls r = Some []) (process_line line acc).1.
Proof.
  unfold process_line.
  destruct (startsWith "event: " line); [constructor |].
  destruct (startsWith "data: " line); [| constructor].
  destruct (JSON_parse _) as [parsed |]; [| constructor].
  unfold convertFromAnthropicFormat.
  destruct (as_data parsed) as [d |]; [| constructor]. simpl.
  destruct (handleAnthropicStreamingEvent_no_calls d acc)
    as (acc' & result & -> & Hcalls).
  destruct result as [response |]; repeat constructor. by apply Hcalls.
Qed.

(** Every response yielded inside the read loop has no function call;
    function calls are yielded by [flush] alone. *)
Lemma anthropic_process_lines_yields lines acc :
  Forall (fun r => functionCalls r = Some []) (process_lines lines acc).1.
Proof.
  revert acc. induction lines as [| line lines IH]; intros acc; simpl;
    [constructor |].
  pose proof (anthropic_process_line_yields line acc) as Hline.
  destruct (process_line line acc) as [ys acc'].
  specialize (IH acc'). destruct (process_lines lines acc') as [zs acc''].
  by apply Forall_app.
Qed.

Lemma anthropic_process_lines_app lines lines' acc :
  process_lines (lines ++ lines') acc
  = let '(ys, acc') := process_lines lines acc in
    let '(zs, acc'') := process_lines lines' acc' in
    (ys ++ zs, acc'').
Proof.
  revert acc. induction lines as [| line lines IH]; intros acc; simpl.
  - by destruct (process_lines lines' acc).
  - destruct (process_line line acc) as [ys acc']. rewrite IH.
    destruct (process_lines lines acc') as [zs acc''].
    destruct (process_lines lines' acc''). by rewrite app_assoc.
Qed.

Lemma anthropic_read_loop_lines reads buffer acc :
  contains nl buffer = false ->
  read_loop reads buffer acc
  = let '(ys, acc') :=
      process_lines
        (List.removelast (split nl (buffer +:+ joined reads))) acc in
    ys ++ flush acc'.
Proof.
  revert buffer acc.
  induction reads as [| value reads IH]; intros buffer acc Hbuffer.
  - simpl. rewrite append_nil_r.
    rewrite <- (append_nil_r buffer) at 1.
    rewrite split_prefix by assumption. reflexivity.
  - cbn [read_loop joined foldr]. unfold OpenAI.take_lines.
    rewrite <- append_assoc.
    rewrite (split_append nl (buffer +:+ value)).
    rewrite removelast_app_not_nil by apply split_not_nil.
    rewrite anthropic_process_lines_app.
    destruct (process_lines _ acc) as [ys acc'].
    rewrite IH by apply split_last_no_separator.
    fold (joined reads).
    destruct (process_lines _ acc') as [zs acc'']. by rewrite app_assoc.
Qed.

Lemma generateContentStreamInternal_anthropic_lines reads lines :
  joined reads = unlines lines ->
  Forall (fun line => contains nl line = false) lines ->
  generateContentStreamInternal reads
  = (process_lines lines Map_empty).1
    ++ flush (process_lines lines Map_empty).2.
Proof.
  intros Hreads Hlines. unfold generateContentStreamInternal.
  rewrite anthropic_read_loop_lines by reflexivity.
  change ("" +:+ joined reads) with (joined reads).
  rewrite Hreads, <- (append_nil_r (unlines lines)).
  rewrite split_unlines by assumption.
  cbn [split]. rewrite removelast_last.
  by destruct (process_lines lines Map_empty).
Qed.

Lemma anthropic_completed_call_unparseable entry :
  JSON_parse (acc_input entry) = None ->
  completed_call entry
  = {| fc_id := acc_id entry; fc_name := acc_name entry;
       fc_args := Some empty_object |}.
Proof.
  intros Hparse. unfold completed_call. rewrite Hparse.
  by destruct (truthy_str _).
Qed.

Lemma anthropic_convertAccumulated_not_nil before entry after :
  convertAccumulatedAnthropicToolCallsToGemini (before ++ entry :: after)
  = Some (completed_response
            (map completed_call before
             ++ completed_call entry :: map completed_call after)).
Proof.
  unfold convertAccumulatedAnthropicToolCallsToGemini.
  rewrite map_app. simpl. by destruct (map completed_call before).
Qed.

(** ** Stepping through lines *)

Lemma anthropic_step_skip line lines acc :
  startsWith "event: " line || negb (startsWith "data: " line) = true ->
  process_lines (line :: lines) acc = process_lines lines acc.
Proof.
  intros Hline. simpl. rewrite anthropic_skips by assumption.
  by destruct (process_lines lines acc).
Qed.

Lemma anthropic_step_event payload lines acc parsed acc' :
  JSON_parse payload = Some parsed ->
  convertFromAnthropicFormat parsed true (Some acc) = (Some acc', Ok None) ->
  process_lines (("data: " +:+ payload) :: lines) acc
  = process_lines lines acc'.
Proof.
  intros Hparse Hconvert. cbn [process_lines].
  rewrite anthropic_process_data_line, Hparse, Hconvert. simpl.
  by destruct (process_lines lines acc').
Qed.

(** The accumulator at the end of the stream of [lookup]. *)
Lemma lookup_lines_processed :
  Scenario.reads_lookup _ ->
  process_lines Scenario.lookup_lines Map_empty
  = ([], [("index_0",
           {| acc_id := Some "t1"; acc_name := Some "lookup";
              acc_input :=
                Scenario.lookup_fragment_1 +:+ Scenario.lookup_fragment_2 |})]).
Proof.
  intros (Hstart & Hdelta1 & Hdelta2 & Hstop & _).
  unfold Scenario.lookup_lines.
  rewrite anthropic_step_skip by reflexivity.
  erewrite anthropic_step_event;
    [| exact Hstart | vm_compute; reflexivity].
  do 2 rewrite anthropic_step_skip by reflexivity.
  erewrite anthropic_step_event;
    [| exact Hdelta1 | vm_compute; reflexivity].
  do 2 rewrite anthropic_step_skip by reflexivity.
  erewrite anthropic_step_event;
    [| exact Hdelta2 | vm_compute; reflexivity].
  do 2 rewrite anthropic_step_skip by reflexivity.
  erewrite anthropic_step_event;
    [| exact Hstop | vm_compute; reflexivity].
  rewrite anthropic_step_skip by reflexivity.
  vm_compute. reflexivity.
Qed.
End AnthropicStreamFacts.

(** C2: for the Anthropic stream of [content_block_start] (index 0,
    [tool_use], id [t1], name [lookup]), two [input_json_delta] deltas
    with the fragments [{"x":1] and [}], and [message_stop], however it
    is cut into reads, the generator yields exactly one response; it
    holds exactly one function call, with name [lookup], id [t1] and
    args [{"x": 1}], and it is yielded by the flush after the read loop,
    which itself yields nothing. *)
Theorem anthropic_stream_lookup_scenario :
  forall (rt : JSRuntime Part) (reads : list string),
    Scenario.reads_lookup rt ->
    joined reads = unlines Scenario.lookup_lines ->
    Anthropic.generateContentStreamInternal reads
    = [completed_response
         [{| fc_id := Some "t1"; fc_name := Some "lookup";
             fc_args := Some (JObj [("x", JNum 1)]) |}]]
    /\ (Anthropic.process_lines Scenario.lookup_lines Map_empty).1 = [].
Proof.
  intros rt reads Hruntime Hreads.
  pose proof (lookup_lines_processed Hruntime) as Hlines.
  split; [| by rewrite Hlines].
  rewrite (generateContentStreamInternal_anthropic_lines reads
             Scenario.lookup_lines Hreads)
    by (repeat (constructor; [vm_compute; reflexivity |]); constructor).
  rewrite Hlines. destruct Hruntime as (_ & _ & _ & _ & Hparse).
  unfold Anthropic.flush, Anthropic.convertAccumulatedAnthropicToolCallsToGemini,
    Anthropic.completed_call.
  simpl. unfold Scenario.lookup_fragment_1, Scenario.lookup_fragment_2 in *.
  simpl in *. by rewrite Hparse.
Qed.

(** The stream of [lookup], delivered in two reads, on the concrete
    runtime. *)
Lemma anthropic_stream_lookup_scenario_witness :
  let text := unlines Scenario.lookup_lines in
  Anthropic.generateContentStreamInternal (H := Concrete.runtime)
    [String.substring 0 200 text;
     String.substring 200 (String.length text - 200) text]
  = [completed_response
       [{| fc_id := Some "t1"; fc_name := Some "lookup";
           fc_args := Some (JObj [("x", JNum 1)]) |}]].
Proof.
  intros text.
  apply (anthropic_stream_lookup_scenario Concrete.runtime).
  - repeat split; vm_compute; reflexivity.
  - vm_compute. reflexivity.
Defined.

(** C6: an argument text that does not parse becomes the empty object,
    and the function call is still emitted: in the conversion of the
    accumulated calls of both adapters, in the single-shot conversion of
    the OpenAI-compatible adapter, and at the end of an
    OpenAI-compatible stream whose fragments make up that text. *)
Theorem unparseable_arguments_become_empty_object :
  forall (rt : JSRuntime Part) (arguments : string),
    JSON_parse arguments = None ->
    (forall before id name after,
        OpenAI.convertAccumulatedToolCallsToGemini
          (before
           ++ {| OpenAI.acc_id := id; OpenAI.acc_name := name;
                 OpenAI.acc_arguments := arguments |} :: after)
        = Some (completed_response
                  (map OpenAI.completed_call before
                   ++ {| fc_id := Some id; fc_name := Some name;
                         fc_args := Some empty_object |}
                   :: map OpenAI.completed_call after)))
    /\ (forall before id name after,
           Anthropic.convertAccumulatedAnthropicToolCallsToGemini
             (before
              ++ {| Anthropic.acc_id := id; Anthropic.acc_name := name;
                    Anthropic.acc_input := arguments |} :: after)
           = Some (completed_response
                     (map Anthropic.completed_call before
                      ++ {| fc_id := id; fc_name := name;
                            fc_args := Some empty_object |}
                      :: map Anthropic.completed_call after)))
    /\ (forall data d choice message before toolCall fn after,
           OpenAI.as_data data = Some d ->
           OpenAI.d_choice0 d = Some choice ->
           OpenAI.c_message choice = Some message ->
           OpenAI.m_tool_calls message
           = Some (map Some (before ++ toolCall :: after)) ->
           OpenAI.tc_type toolCall = Some "function" ->
           OpenAI.tc_function toolCall = Some fn ->
           OpenAI.fn_arguments fn = Some (JStr arguments) ->
           exists response,
             OpenAI.convertFromOpenAIFormat data false None None
             = (None, None, Ok (Some response))
             /\ functionCalls response
                = Some (single_shot_calls before
                        ++ {| fc_id := OpenAI.tc_id toolCall;
                              fc_name := OpenAI.fn_name fn;
                              fc_args := Some empty_object |}
                        :: single_shot_calls after))
    /\ (forall reads before rest first tail chunk idx id name fragment
               fragments,
           joined reads
           = unlines (before ++ first :: rest ++ [done_line]) +:+ tail ->
           Forall (fun line => contains nl line = false)
             (before ++ first :: rest) ->
           Forall passes before ->
           data_line first chunk ->
           fragment_chunk chunk idx (Some id) (Some name) fragment ->
           id <> "" ->
           continues idx id name rest fragments ->
           joined (fragment :: fragments) = arguments ->
           exists texts,
             OpenAI.generateContentStreamInternal reads
             = texts
               ++ [completed_response
                     [{| fc_id := Some id; fc_name := Some name;
                         fc_args := Some empty_object |}]]
             /\ Forall (fun r => functionCalls r = Some []) texts).
Proof.
  intros rt arguments Hparse. split_and!.
  - intros before id name after.
    rewrite convertAccumulated_not_nil.
    by rewrite (completed_call_unparseable
                  {| OpenAI.acc_id := id; OpenAI.acc_name := name;
                     OpenAI.acc_arguments := arguments |}).
  - intros before id name after.
    rewrite anthropic_convertAccumulated_not_nil.
    by rewrite (anthropic_completed_call_unparseable
                  {| Anthropic.acc_id := id; Anthropic.acc_name := name;
                     Anthropic.acc_input := arguments |}).
  - intros data d choice message before toolCall fn after
      Hd Hchoice Hmessage Hcalls Htype Hfn Hargs.
    unfold OpenAI.convertFromOpenAIFormat.
    rewrite Hd, Hchoice, Hmessage, Hcalls, tool_call_loop_single_shot.
    cbn [negb andb OpenAI.ls_acc OpenAI.ls_idx OpenAI.ls_calls app].
    eexists. split; [reflexivity |]. cbn [functionCalls]. f_equal.
    unfold single_shot_calls. rewrite flat_map_app. cbn [flat_map].
    rewrite Hfn, Htype. cbn [bool_decide decide_rel app]. f_equal.
    rewrite bool_decide_eq_true_2 by reflexivity. cbn [app]. f_equal.
    unfold OpenAI.single_shot. by rewrite Hargs, Hparse.
  - intros reads before rest first tail chunk idx id name fragment fragments
      Hreads Hlines Hbefore Hfirst Hchunk Hid Hrest Hjoined.
    destruct (fragmented_call_stream before rest first chunk idx id name
                fragment fragments Hbefore Hfirst Hchunk Hid Hrest Hlines
                reads tail Hreads) as (texts & Hrun & Htexts).
    exists texts. split; [| assumption].
    rewrite Hrun, completed_call_unparseable; [reflexivity |].
    simpl in *. by rewrite Hjoined.
Qed.

(** The truncated argument text [{"q":] of the call [search]. *)
Lemma unparseable_arguments_become_empty_object_witness :
  OpenAI.convertAccumulatedToolCallsToGemini (H := Concrete.runtime)
    [{| OpenAI.acc_id := "c1"; OpenAI.acc_name := "search";
        OpenAI.acc_arguments := "{" +:+ quoted "q" +:+ ":" |}]
  = Some (completed_response
            [{| fc_id := Some "c1"; fc_name := Some "search";
                fc_args := Some empty_object |}]).
Proof.
  refine (proj1 (unparseable_arguments_become_empty_object Concrete.runtime
                   ("{" +:+ quoted "q" +:+ ":") _) [] "c1" "search" []).
  vm_compute. reflexivity.
Defined.

(** The stream of [search] with [oops] in place of its last fragment:
    the call is emitted at the terminator, with empty arguments. *)
Example openai_stream_unparseable_example :
  OpenAI.generateContentStreamInternal (H := Concrete.runtime)
    [unlines (Scenario.search_first :: Scenario.broken_rest ++ [done_line])]
  = [completed_response
       [{| fc_id := Some "c1"; fc_name := Some "search";
           fc_args := Some empty_object |}]].
Proof. vm_compute. reflexivity. Qed.

(** The generator of the Azure adapter, which overrides
    [generateContentStream] and converts each chunk without
    accumulators, is not covered by the properties above: on the stream
    of [search] it yields a function call for every chunk, each with
    empty arguments, and nothing at the terminator. *)
Example azure_stream_example :
  map functionCalls
    (Azure.generateContentStream (H := Concrete.runtime)
       Scenario.search_reads)
  = [Some [{| fc_id := Some "c1"; fc_name := Some "search";
              fc_args := Some empty_object |}];
     Some [{| fc_id := None; fc_name := None;
              fc_args := Some empty_object |}];
     Some [{| fc_id := None; fc_name := None;
              fc_args := Some empty_object |}]].
Proof. vm_compute. reflexivity. Qed.

(** A tool that raises: the executor answers with the error shape. *)
Example executeToolCall_raising_tool_example :
  let request :=
    {| TurnEngine.callId := "call-2"; TurnEngine.name := "grep";
       TurnEngine.args := JObj []; TurnEngine.isClientInitiated := false |} in
  let tool : Executor.RegisteredTool unit unit :=
    {| Executor.execute :=
         fun _ _ => Throw (Executor.RaisedError "pattern missing") |} in
  Executor.error _ _
    (Executor.executeToolCall unit unit (fun _ _ p => Ok p)
       {[ "grep" := tool ]} (fun _ => 0) request None).1
  = Some "pattern missing".
Proof. reflexivity. Qed.

(* ===================================================================== *)
(** * Further properties of the OpenAI-compatible stream *)
(* ===================================================================== *)

Lemma split_after_separator (c : ascii) (t s : string) :
  split c (t +:+ String c s) = split c t ++ split c s.
Proof.
  rewrite split_append, split_line by apply split_last_no_separator.
  rewrite (app_removelast_last "" (split_not_nil c t)) at 3.
  by rewrite <- app_assoc.
Qed.

(** The complete lines of a text: what follows the last newline is left
    out. *)
Lemma complete_lines_partial (t partial : string) :
  contains nl partial = false ->
  List.removelast (split nl (t +:+ String nl partial)) = split nl t.
Proof.
  intros Hpartial. rewrite split_after_separator.
  rewrite removelast_app_not_nil by apply split_not_nil.
  replace (split nl partial) with [partial]; [by rewrite app_nil_r |].
  clear t. induction partial as [| x r IH]; [reflexivity |].
  simpl in Hpartial. apply orb_false_elim in Hpartial as [Hx Hr].
  rewrite split_cons_ne by assumption. by rewrite <- IH.
Qed.

Section OpenAIStreamInvariants.
Context `{JSRuntime Part}.
Import OpenAI.

Implicit Types (st : stream_state) (line : string) (lines : list string).

Lemma flush_closing st : closing (flush st).
Proof.
  unfold flush, Map_size, Map_values.
  destruct (toolCallAccumulator st) as [| [k entry] acc]; [by left |].
  simpl length. change (0 <? S (length acc))%nat with true. cbv iota.
  rewrite (convertAccumulated_not_nil [] (k, entry).2 (map snd acc)).
  right. eexists. split; [| reflexivity]. discriminate.
Qed.

Lemma skipped_line line st : skipped line -> process_line line st = Continue [] st.
Proof.
  intros [Hstart | (payload & -> & Hdone & Hparse)].
  - unfold process_line. by rewrite Hstart.
  - rewrite process_data_line by assumption. by rewrite Hparse.
Qed.

Lemma process_lines_skipped before noise after st :
  skipped noise ->
  process_lines (before ++ noise :: after) st
  = process_lines (before ++ after) st.
Proof.
  intros Hnoise. rewrite !process_lines_app.
  destruct (process_lines before st) as [ys st' |]; [| reflexivity].
  cbn [process_lines]. rewrite skipped_line by assumption.
  by destruct (process_lines after st').
Qed.

Lemma process_lines_after_done lines after st :
  process_lines (lines ++ done_line :: after) st
  = process_lines (lines ++ [done_line]) st.
Proof.
  rewrite !process_lines_app.
  destruct (process_lines lines st) as [ys st' |]; [| reflexivity].
  cbn [process_lines]. by rewrite process_done_line.
Qed.

(** ** The accumulator is keyed by call id *)



Lemma Map_get_set {V} k (v : V) (m : Map V) :
  Map_get k (Map_set k v m) = Some v.
Proof.
  induction m as [| [k' v'] m IH]; simpl.
  - by rewrite String.eqb_refl.
  - destruct (String.eqb_spec k k') as [-> | Hne]; simpl.
    + by rewrite String.eqb_refl.
    + destruct (String.eqb_spec k k'); [congruence | assumption].
Qed.

Lemma Map_get_set_other {V} k k' (v : V) (m : Map V) :
  k' <> k -> Map_get k' (Map_set k v m) = Map_get k' m.
Proof.
  intros Hne. induction m as [| [k0 v0] m IH]; simpl.
  - destruct (String.eqb_spec k' k); [congruence | reflexivity].
  - destruct (String.eqb_spec k k0) as [-> | Hk]; simpl.
    + destruct (String.eqb_spec k' k0); [congruence | reflexivity].
    + by rewrite IH.
Qed.











End OpenAIStreamInvariants.



(** X2: a line that is not a [data: ] line (an empty line, a comment, an
    [event: ] line) and a [data: ] line whose payload does not parse are
    ignored: the generator yields the same responses with and without
    such a line, wherever it stands. *)
Theorem openai_stream_ignores_noise :
  forall (rt : JSRuntime Part) (reads reads' before after : list string)
         (noise tail : string),
    skipped noise ->
    Forall (fun line => contains nl line = false) (before ++ noise :: after) ->
    joined reads = unlines (before ++ noise :: after) +:+ tail ->
    joined reads' = unlines (before ++ after) +:+ tail ->
    OpenAI.generateContentStreamInternal reads
    = OpenAI.generateContentStreamInternal reads'.
Proof.
  intros rt reads reads' before after noise tail Hnoise Hlines Hreads Hreads'.
  rewrite !generateContentStreamInternal_lines, Hreads, Hreads'.
  assert (Hlines' :
    Forall (fun line => contains nl line = false) (before ++ after)).
  { apply Forall_app in Hlines as [Hbefore Hafter].
    apply Forall_app. split; [assumption |]. by inversion Hafter. }
  rewrite !split_unlines by assumption.
  rewrite !removelast_app_not_nil by apply split_not_nil.
  rewrite <- !app_assoc. simpl.
  by rewrite (process_lines_skipped before noise).
Qed.

(** The stream of [search] with a comment line and a line of broken
    JSON put in. *)
Lemma openai_stream_ignores_noise_witness :
  OpenAI.generateContentStreamInternal (H := Concrete.runtime)
    [unlines ([Scenario.search_first; "data: {oops"]
              ++ Scenario.search_rest ++ [done_line])]
  = OpenAI.generateContentStreamInternal (H := Concrete.runtime)
      [unlines ([Scenario.search_first]
                ++ Scenario.search_rest ++ [done_line])].
Proof.
  apply (openai_stream_ignores_noise Concrete.runtime _ _
           [Scenario.search_first] (Scenario.search_rest ++ [done_line])
           "data: {oops" "").
  - right. exists "{oops". split_and!; [reflexivity | discriminate |].
    vm_compute. reflexivity.
  - vm_compute. repeat constructor.
  - rewrite joined_singleton, append_nil_r. reflexivity.
  - rewrite joined_singleton, append_nil_r. reflexivity.
Defined.

(** X3: nothing that follows the terminator line changes what the
    OpenAI-compatible generator yields: when [data: [DONE]] stands on a
    line of its own, at the start of the stream or after a newline, the
    lines after it are not processed. *)
Theorem openai_stream_stops_at_terminator :
  forall (rt : JSRuntime Part) (reads : list string) (head tail : string),
    head = "" \/ (exists text, head = text +:+ nls) ->
    joined reads = head +:+ done_line +:+ nls +:+ tail ->
    OpenAI.generateContentStreamInternal reads
    = OpenAI.generateContentStreamInternal [head +:+ done_line +:+ nls].
Proof.
  intros rt reads head tail Hhead Hreads.
  rewrite !generateContentStreamInternal_lines, joined_singleton, Hreads.
  destruct Hhead as [-> | [text ->]].
  - change ("" +:+ done_line +:+ nls +:+ tail)
      with (done_line +:+ String nl tail).
    change ("" +:+ done_line +:+ nls) with (done_line +:+ String nl "").
    rewrite !split_line by reflexivity.
    change (done_line :: split nl tail) with ([done_line] ++ split nl tail).
    change (done_line :: split nl "") with ([done_line] ++ split nl "").
    rewrite !(removelast_app_not_nil [done_line]) by apply split_not_nil.
    cbn [app OpenAI.process_lines]. by rewrite process_done_line.
  - rewrite !append_assoc.
    change (text +:+ nls +:+ done_line +:+ nls +:+ tail)
      with (text +:+ String nl (done_line +:+ String nl tail)).
    change (text +:+ nls +:+ done_line +:+ nls)
      with (text +:+ String nl (done_line +:+ String nl "")).
    rewrite !split_after_separator.
    change (split nl done_line) with [done_line].
    rewrite !(removelast_app_not_nil (split nl text)) by discriminate.
    rewrite !(removelast_app_not_nil [done_line]) by apply split_not_nil.
    by rewrite (process_lines_after_done (split nl text)
                  (List.removelast (split nl tail))).
Qed.

(** The stream of [search], followed by a further chunk after the
    terminator. *)
Lemma openai_stream_stops_at_terminator_witness :
  OpenAI.generateContentStreamInternal (H := Concrete.runtime)
    [unlines [Scenario.search_first] +:+ "data: [DONE]" +:+ nls;
     Scenario.search_first +:+ nls]
  = OpenAI.generateContentStreamInternal (H := Concrete.runtime)
      [(Scenario.search_first +:+ nls) +:+ done_line +:+ nls].
Proof.
  apply (openai_stream_stops_at_terminator Concrete.runtime _
           (Scenario.search_first +:+ nls) (Scenario.search_first +:+ nls)).
  - right. by exists Scenario.search_first.
  - vm_compute. reflexivity.
Defined.

(** X4: the text after the last newline of the stream is never
    processed by the OpenAI-compatible generator: a stream whose last
    line is not ended by a newline yields what the stream without that
    line yields.  In particular a terminator line that is not followed
    by a newline yields nothing, and a stream without any newline yields
    nothing at all. *)
Theorem openai_stream_drops_unterminated_line :
  forall (rt : JSRuntime Part) (reads : list string) (head partial : string),
    head = "" \/ (exists text, head = text +:+ nls) ->
    contains nl partial = false ->
    joined reads = head +:+ partial ->
    OpenAI.generateContentStreamInternal reads
    = OpenAI.generateContentStreamInternal [head].
Proof.
  intros rt reads head partial Hhead Hpartial Hreads.
  rewrite !generateContentStreamInternal_lines, joined_singleton, Hreads.
  destruct Hhead as [-> | [text ->]].
  - change ("" +:+ partial) with partial.
    rewrite <- (append_nil_r partial).
    by rewrite (split_prefix nl partial "") by assumption.
  - rewrite append_assoc.
    change (text +:+ nls +:+ partial) with (text +:+ String nl partial).
    change (text +:+ nls) with (text +:+ String nl "").
    by rewrite !complete_lines_partial.
Qed.

(** The first chunk of [search] and a terminator without newline: the
    call is not yielded. *)
Lemma openai_stream_drops_unterminated_line_witness :
  OpenAI.generateContentStreamInternal (H := Concrete.runtime)
    [Scenario.search_first +:+ nls +:+ done_line]
  = OpenAI.generateContentStreamInternal (H := Concrete.runtime)
      [Scenario.search_first +:+ nls].
Proof.
  apply (openai_stream_drops_unterminated_line Concrete.runtime _
           (Scenario.search_first +:+ nls) done_line).
  - right. by exists Scenario.search_first.
  - reflexivity.
  - rewrite joined_singleton. vm_compute. reflexivity.
Defined.

(* ===================================================================== *)
(** * Further properties of the Anthropic stream *)
(* ===================================================================== *)

Section AnthropicStreamInvariants.
Context `{JSRuntime Part}.
Import Anthropic.

Implicit Types (acc : ToolCallAccumulator) (line : string).

Lemma anthropic_flush_closing acc : closing (flush acc).
Proof.
  unfold flush, Map_size, Map_values.
  destruct acc as [| [k entry] acc]; [by left |].
  simpl length. change (0 <? S (length acc))%nat with true. cbv iota.
  rewrite (anthropic_convertAccumulated_not_nil [] (k, entry).2
             (map snd acc)).
  right. eexists. split; [| reflexivity]. discriminate.
Qed.

Lemma anthropic_lines reads :
  generateContentStreamInternal reads
  = (process_lines (List.removelast (split nl (joined reads))) Map_empty).1
    ++ flush
         (process_lines (List.removelast (split nl (joined reads)))
            Map_empty).2.
Proof.
  unfold generateContentStreamInternal.
  rewrite anthropic_read_loop_lines by reflexivity.
  change ("" +:+ joined reads) with (joined reads).
  by destruct (process_lines _ Map_empty).
Qed.

Lemma event_line_step line event acc :
  event_line line event ->
  process_line line acc
  = ((match (handleAnthropicStreamingEvent event (Some acc)).2 with
      | Some response => [response]
      | None => []
      end),
     default acc (handleAnthropicStreamingEvent event (Some acc)).1).
Proof.
  intros (payload & chunk & -> & Hparse & Hdata).
  rewrite anthropic_process_data_line, Hparse.
  unfold convertFromAnthropicFormat. rewrite Hdata. cbv iota.
  by destruct (handleAnthropicStreamingEvent event (Some acc)) as [acc' [r |]].
Qed.

Lemma quiet_event_unchanged event acc :
  quiet_event event ->
  (handleAnthropicStreamingEvent event (Some acc)).1 = Some acc.
Proof.
  unfold quiet_event, handleAnthropicStreamingEvent, delta_type.
  destruct (bool_decide (d_type event = Some "content_block_delta")).
  - intros Hquiet. destruct (bool_decide (_ = Some "text_delta"));
      [reflexivity |].
    by rewrite bool_decide_eq_false_2.
  - destruct (bool_decide (d_type event = Some "content_block_start"));
      [| reflexivity].
    destruct (d_content_block event) as [block |]; [| reflexivity].
    intros Hquiet. by rewrite bool_decide_eq_false_2.
Qed.

Lemma anthropic_passes_unchanged line acc :
  anthropic_passes line -> (process_line line acc).2 = acc.
Proof.
  intros [Hevent | [Hdata | (payload & -> & Hpayload)]].
  - rewrite anthropic_skips; [reflexivity |]. by rewrite Hevent.
  - rewrite anthropic_skips; [reflexivity |]. by rewrite Hdata, orb_true_r.
  - rewrite anthropic_process_data_line.
    destruct (JSON_parse payload) as [chunk |]; [| reflexivity].
    unfold convertFromAnthropicFormat.
    destruct (as_data chunk) as [event |]; [| reflexivity]. cbv iota.
    pose proof (quiet_event_unchanged event acc Hpayload) as Hsame.
    destruct (handleAnthropicStreamingEvent event (Some acc)) as [acc' r].
    simpl in Hsame. by rewrite Hsame.
Qed.

Lemma anthropic_process_lines_passes lines acc :
  Forall anthropic_passes lines -> (process_lines lines acc).2 = acc.
Proof.
  intros Hlines. induction Hlines as [| line lines Hline Hlines IH];
    [reflexivity |].
  cbn [process_lines].
  pose proof (anthropic_passes_unchanged line acc Hline) as Hsame.
  destruct (process_line line acc) as [ys acc']. simpl in Hsame. subst acc'.
  by destruct (process_lines lines acc).
Qed.

Lemma block_start_step event id name acc :
  block_start event id name ->
  handleAnthropicStreamingEvent event (Some acc)
  = (Some (Map_set (block_key (block_index event))
             {| acc_id := id; acc_name := name; acc_input := "" |} acc),
     None).
Proof.
  intros (Htype & block & Hblock & Htool & <- & <-).
  unfold handleAnthropicStreamingEvent. rewrite Htype, Hblock.
  rewrite bool_decide_eq_false_2 by discriminate.
  rewrite bool_decide_eq_true_2 by reflexivity.
  by rewrite bool_decide_eq_true_2 by assumption.
Qed.

Lemma input_delta_step event fragment acc :
  input_delta event fragment ->
  handleAnthropicStreamingEvent event (Some acc)
  = (Some match Map_get (block_key (block_index event)) acc with
          | Some accumulated =>
              Map_set (block_key (block_index event))
                {| acc_id := acc_id accumulated;
                   acc_name := acc_name accumulated;
                   acc_input := acc_input accumulated +:+ fragment |} acc
          | None => acc
          end,
     None).
Proof.
  intros (Htype & Hdelta & <-).
  unfold handleAnthropicStreamingEvent. unfold delta_type in Hdelta.
  rewrite Htype, Hdelta.
  rewrite bool_decide_eq_true_2 by reflexivity.
  rewrite bool_decide_eq_false_2 by discriminate.
  by rewrite bool_decide_eq_true_2 by reflexivity.
Qed.

Lemma text_delta_step event t acc :
  text_delta event t ->
  handleAnthropicStreamingEvent event (Some acc)
  = (Some acc, Some (createStreamingTextResponse t)).
Proof.
  intros (Htype & Hdelta & <-).
  unfold handleAnthropicStreamingEvent. unfold delta_type in Hdelta.
  rewrite Htype, Hdelta.
  by rewrite !bool_decide_eq_true_2 by reflexivity.
Qed.

Lemma input_delta_block_state line event fragment idx id name input :
  event_line line event ->
  input_delta event fragment ->
  block_index event = idx ->
  process_line line (block_state idx id name input)
  = ([], block_state idx id name (input +:+ fragment)).
Proof.
  intros Hline Hdelta Hidx.
  rewrite (event_line_step _ _ _ Hline), (input_delta_step _ _ _ Hdelta), Hidx.
  unfold block_state. by rewrite !Map_get_head, !Map_set_head.
Qed.

Lemma anthropic_process_lines_continues idx id name lines fragments input :
  anthropic_continues idx lines fragments ->
  (process_lines lines (block_state idx id name input)).2
  = block_state idx id name (input +:+ joined fragments).
Proof.
  intros Hlines. revert input.
  induction Hlines
    as [| line lines fragments Hline Hlines IH
        | line event fragment lines fragments Hline Hdelta Hidx Hlines IH];
    intros input.
  - simpl. by rewrite append_nil_r.
  - cbn [process_lines].
    pose proof (anthropic_passes_unchanged line
                  (block_state idx id name input) Hline) as Hsame.
    destruct (process_line line _) as [ys acc']. simpl in Hsame. subst acc'.
    specialize (IH input).
    by destruct (process_lines lines (block_state idx id name input)).
  - cbn [process_lines].
    rewrite (input_delta_block_state _ _ _ _ _ _ _ Hline Hdelta Hidx).
    specialize (IH (input +:+ fragment)).
    destruct (process_lines lines _) as [zs acc''].
    simpl in IH. simpl. by rewrite IH, append_assoc.
Qed.

Lemma flush_block_state idx id name input :
  flush (block_state idx id name input)
  = [completed_response
       [{| fc_id := id; fc_name := name;
           fc_args := Some (parsed_arguments input) |}]].
Proof.
  unfold flush, block_state, parsed_arguments. simpl.
  unfold completed_call, completed_response. simpl.
  by destruct (truthy_str input).
Qed.
End AnthropicStreamInvariants.

(** X5: whatever the stream holds, the OpenAI-compatible generator and
    the Anthropic generator yield responses without function calls,
    followed by at most one response that carries function calls; that
    response is the last one and its list of calls is not empty.  The
    OpenAI-compatible generator yields it at the terminator line, the
    Anthropic generator when the stream has ended, with or without a
    [message_stop] event. *)
Theorem stream_calls_only_last :
  forall (rt : JSRuntime Part) (reads : list string),
    (exists texts final,
        OpenAI.generateContentStreamInternal reads = texts ++ final
        /\ Forall no_calls texts
        /\ closing final)
    /\ (exists texts final,
           Anthropic.generateContentStreamInternal reads = texts ++ final
           /\ Forall no_calls texts
           /\ closing final).
Proof.
  intros rt reads. split.
  - rewrite generateContentStreamInternal_lines.
    destruct (process_lines_yields
                (List.removelast (split nl (joined reads)))
                OpenAI.initial_state)
      as (ys & st' & Hys & [-> | ->]); simpl.
    + exists ys, []. rewrite app_nil_r. split_and!; [done | done | by left].
    + exists ys, (OpenAI.flush st'). split_and!; [done | done |].
      apply flush_closing.
  - rewrite anthropic_lines.
    eexists _, _. split_and!; [reflexivity | |].
    + apply anthropic_process_lines_yields.
    + apply anthropic_flush_closing.
Qed.

(** X6: the Anthropic generator, given a stream in which a
    [content_block_start] event opens a tool-use block with an id and a
    name and [input_json_delta] events for that block carry the
    fragments of its input, among lines that have nothing to do with
    tool calls, yields responses without function calls and then exactly
    one response with exactly one function call: the id and the name of
    the block, and the parse of the concatenated fragments (the empty
    object when there is no fragment text or it does not parse).  The
    text may be cut into reads anywhere, and what follows the last
    newline is not processed. *)
Theorem anthropic_stream_fragmented_tool_call :
  forall (rt : JSRuntime Part) (reads before rest : list string)
         (start partial : string) (event : Anthropic.wire_data) (idx : Z)
         (id name : option string) (fragments : list string),
    joined reads = unlines (before ++ start :: rest) +:+ partial ->
    contains nl partial = false ->
    Forall (fun line => contains nl line = false) (before ++ start :: rest) ->
    Forall anthropic_passes before ->
    event_line start event ->
    block_start event id name ->
    block_index event = idx ->
    anthropic_continues idx rest fragments ->
    exists texts,
      Anthropic.generateContentStreamInternal reads
      = texts
        ++ [completed_response
              [{| fc_id := id; fc_name := name;
                  fc_args := Some (parsed_arguments (joined fragments)) |}]]
      /\ Forall no_calls texts.
Proof.
  intros rt reads before rest start partial event idx id name fragments
    Hreads Hpartial Hlines Hbefore Hstart Hblock Hidx Hrest.
  rewrite anthropic_lines, Hreads, split_unlines by assumption.
  rewrite removelast_app_not_nil by apply split_not_nil.
  replace (List.removelast (split nl partial)) with (@nil string).
  2:{ rewrite <- (append_nil_r partial).
      rewrite (split_prefix nl partial "") by assumption. reflexivity. }
  rewrite app_nil_r.
  pose proof (anthropic_process_lines_yields (before ++ start :: rest)
                Map_empty) as Htexts.
  assert (Hstate :
    (Anthropic.process_lines (before ++ start :: rest) Map_empty).2
    = block_state idx id name (joined fragments)).
  { rewrite anthropic_process_lines_app.
    pose proof (anthropic_process_lines_passes before Map_empty Hbefore)
      as Hsame.
    destruct (Anthropic.process_lines before Map_empty) as [ys acc].
    simpl in Hsame. subst acc. cbn [Anthropic.process_lines].
    rewrite (event_line_step _ _ _ Hstart).
    rewrite (block_start_step _ _ _ _ Hblock), Hidx.
    cbn [fst snd default Map_set Map_empty].
    fold (block_state idx id name "").
    pose proof (anthropic_process_lines_continues idx id name rest
                  fragments "" Hrest) as Hnext.
    destruct (Anthropic.process_lines rest _) as [zs acc'].
    simpl in Hnext. simpl. exact Hnext. }
  rewrite Hstate, flush_block_state. eexists. split; [reflexivity |].
  exact Htexts.
Qed.

(** The stream of [lookup], cut in two reads in the middle of a
    line. *)
Lemma anthropic_stream_fragmented_tool_call_witness :
  exists texts,
    Anthropic.generateContentStreamInternal (H := Concrete.runtime)
      [String.substring 0 40 (unlines Scenario.lookup_lines);
       String.substring 40 1000 (unlines Scenario.lookup_lines)]
    = texts
      ++ [completed_response
            [{| fc_id := Some "t1"; fc_name := Some "lookup";
                fc_args :=
                  Some (parsed_arguments (H := Concrete.runtime)
                          (joined [Scenario.lookup_fragment_1;
                                   Scenario.lookup_fragment_2])) |}]]
    /\ Forall no_calls texts.
Proof.
  eapply (anthropic_stream_fragmented_tool_call Concrete.runtime _
            ["event: content_block_start"]
            (tl (tl Scenario.lookup_lines))
            ("data: " +:+ Scenario.lookup_start) "" _ 0
            (Some "t1") (Some "lookup")
            [Scenario.lookup_fragment_1; Scenario.lookup_fragment_2]).
  - vm_compute. reflexivity.
  - reflexivity.
  - vm_compute. repeat constructor.
  - constructor; [by left | constructor].
  - eexists _, _. split_and!; [reflexivity | vm_compute; reflexivity ..].
  - split; [reflexivity |]. eexists. split_and!; reflexivity.
  - reflexivity.
  - simpl.
    apply anthropic_continues_pass; [by right; left |].
    apply anthropic_continues_pass; [by left |].
    eapply anthropic_continues_fragment;
      [eexists _, _; split_and!;
         [reflexivity | vm_compute; reflexivity ..]
      | split_and!; reflexivity | reflexivity |].
    apply anthropic_continues_pass; [by right; left |].
    apply anthropic_continues_pass; [by left |].
    eapply anthropic_continues_fragment;
      [eexists _, _; split_and!;
         [reflexivity | vm_compute; reflexivity ..]
      | split_and!; reflexivity | reflexivity |].
    apply anthropic_continues_pass; [by right; left |].
    apply anthropic_continues_pass; [by left |].
    apply anthropic_continues_pass.
    { right; right. eexists. split; [reflexivity |]. vm_compute. auto. }
    apply anthropic_continues_pass; [by right; left |].
    constructor.
Defined.

(** X7: a [content_block_start] event of a tool-use block puts a fresh
    entry, with the id and the name of the block and no input text,
    under the key of its position: input text accumulated earlier for
    that position is discarded, entries of other positions are kept,
    and the line yields nothing. *)
Theorem anthropic_block_start_resets :
  forall (rt : JSRuntime Part) (line : string)
         (event : Anthropic.wire_data) (id name : option string)
         (acc : Anthropic.ToolCallAccumulator),
    event_line line event ->
    block_start event id name ->
    exists acc',
      Anthropic.process_line line acc = ([], acc')
      /\ Map_get (block_key (block_index event)) acc'
         = Some {| Anthropic.acc_id := id; Anthropic.acc_name := name;
                   Anthropic.acc_input := "" |}
      /\ (forall k, k <> block_key (block_index event) ->
                    Map_get k acc' = Map_get k acc)
      /\ map fst acc'
         = if Map_has (block_key (block_index event)) acc then map fst acc
           else map fst acc ++ [block_key (block_index event)].
Proof.
  intros rt line event id name acc Hline Hstart.
  rewrite (event_line_step _ _ _ Hline), (block_start_step _ _ _ _ Hstart).
  eexists. split_and!; [reflexivity | | |].
  - apply Map_get_set.
  - intros k Hk. by apply Map_get_set_other.
  - apply Map_set_keys.
Qed.

(** The start of the block of [lookup], when input text has already
    been accumulated at its position. *)
Lemma anthropic_block_start_resets_witness :
  exists acc',
    Anthropic.process_line (H := Concrete.runtime)
      ("data: " +:+ Scenario.lookup_start)
      (block_state 0 (Some "t0") (Some "old") "{")
    = ([], acc')
    /\ Map_get "index_0" acc'
       = Some {| Anthropic.acc_id := Some "t1";
                 Anthropic.acc_name := Some "lookup";
                 Anthropic.acc_input := "" |}.
Proof.
  destruct (anthropic_block_start_resets Concrete.runtime
              ("data: " +:+ Scenario.lookup_start)
              (default
                 {| Anthropic.d_type := None; Anthropic.d_index := None;
                    Anthropic.d_delta := None;
                    Anthropic.d_content_block := None;
                    Anthropic.d_content := None;
                    Anthropic.d_stop_reason := None;
                    Anthropic.d_usage := None |}
                 (Anthropic.as_data Scenario.lookup_start_event))
              (Some "t1") (Some "lookup")
              (block_state 0 (Some "t0") (Some "old") "{"))
    as (acc' & Hline & Hget & _).
  - eexists _, _. split_and!; [reflexivity | vm_compute; reflexivity ..].
  - split; [reflexivity |]. eexists. split_and!; reflexivity.
  - exists acc'. split; assumption.
Defined.

(** X8: an [input_json_delta] event for a position at which no
    tool-use block has been started is dropped: the accumulator stays as
    it is and nothing is yielded, so the fragment is lost. *)
Theorem anthropic_delta_without_start_is_dropped :
  forall (rt : JSRuntime Part) (line : string)
         (event : Anthropic.wire_data) (fragment : string)
         (acc : Anthropic.ToolCallAccumulator),
    event_line line event ->
    input_delta event fragment ->
    Map_get (block_key (block_index event)) acc = None ->
    Anthropic.process_line line acc = ([], acc).
Proof.
  intros rt line event fragment acc Hline Hdelta Hnone.
  rewrite (event_line_step _ _ _ Hline), (input_delta_step _ _ _ Hdelta).
  by rewrite Hnone.
Qed.

(** The first fragment of [lookup], on an empty accumulator. *)
Lemma anthropic_delta_without_start_is_dropped_witness :
  Anthropic.process_line (H := Concrete.runtime)
    ("data: " +:+ Scenario.lookup_delta Scenario.lookup_fragment_1)
    Map_empty
  = ([], Map_empty).
Proof.
  eapply (anthropic_delta_without_start_is_dropped Concrete.runtime).
  - eexists _, _. split_and!; [reflexivity | vm_compute; reflexivity ..].
  - split_and!; reflexivity.
  - reflexivity.
Defined.

Section AnthropicText.
Context `{JSRuntime Part}.

Lemma text_delta_line line event t acc :
  event_line line event ->
  text_delta event t ->
  Anthropic.process_line line acc
  = ([Anthropic.createStreamingTextResponse t], acc).
Proof.
  intros Hline Hdelta.
  by rewrite (event_line_step _ _ _ Hline), (text_delta_step _ _ _ Hdelta).
Qed.

Lemma silent_event_nothing event acc :
  silent_event event ->
  Anthropic.handleAnthropicStreamingEvent event (Some acc) = (Some acc, None).
Proof.
  unfold silent_event, Anthropic.handleAnthropicStreamingEvent, delta_type.
  destruct (bool_decide (Anthropic.d_type event = Some "content_block_delta")).
  - intros [Htext Hinput]. by rewrite !bool_decide_eq_false_2.
  - destruct (bool_decide
                (Anthropic.d_type event = Some "content_block_start"));
      [| reflexivity].
    destruct (Anthropic.d_content_block event) as [block |]; [| reflexivity].
    intros Hquiet. by rewrite bool_decide_eq_false_2.
Qed.

Lemma anthropic_silent_line line acc :
  anthropic_silent line -> Anthropic.process_line line acc = ([], acc).
Proof.
  intros [Hevent | [Hdata | (payload & -> & Hpayload)]].
  - apply anthropic_skips. by rewrite Hevent.
  - apply anthropic_skips. by rewrite Hdata, orb_true_r.
  - rewrite anthropic_process_data_line.
    destruct (JSON_parse payload) as [chunk |]; [| reflexivity].
    unfold Anthropic.convertFromAnthropicFormat.
    destruct (Anthropic.as_data chunk) as [event |]; [| reflexivity].
    cbv iota. by rewrite silent_event_nothing.
Qed.

Lemma anthropic_text_lines_processed lines texts :
  anthropic_text_lines lines texts ->
  Anthropic.process_lines lines Map_empty
  = (map Anthropic.createStreamingTextResponse texts, Map_empty).
Proof.
  induction 1 as [| line lines texts Hline Hlines IH
                  | line event t lines texts Hline Hdelta Hlines IH];
    [reflexivity | |]; cbn [Anthropic.process_lines].
  - by rewrite (anthropic_silent_line _ _ Hline), IH.
  - by rewrite (text_delta_line _ _ _ _ Hline Hdelta), IH.
Qed.
End AnthropicText.

(** X9: an Anthropic stream of text deltas is passed through: when the
    lines of the stream are [text_delta] events among lines for which
    nothing is yielded, the generator yields exactly one response for
    every [text_delta] event, in the order of the stream, each with the
    text of its event (also when that is empty or missing), no function
    call and finish reason [STOP], and nothing after them, however
    the text is cut into reads. *)
Theorem anthropic_stream_text :
  forall (rt : JSRuntime Part) (reads lines : list string)
         (partial : string) (texts : list string),
    joined reads = unlines lines +:+ partial ->
    contains nl partial = false ->
    Forall (fun line => contains nl line = false) lines ->
    anthropic_text_lines lines texts ->
    Anthropic.generateContentStreamInternal reads
    = map Anthropic.createStreamingTextResponse texts.
Proof.
  intros rt reads lines partial texts Hreads Hpartial Hlines Htexts.
  rewrite anthropic_lines, Hreads, split_unlines by assumption.
  rewrite removelast_app_not_nil by apply split_not_nil.
  replace (List.removelast (split nl partial)) with (@nil string).
  2:{ rewrite <- (append_nil_r partial).
      rewrite (split_prefix nl partial "") by assumption. reflexivity. }
  rewrite app_nil_r, (anthropic_text_lines_processed _ _ Htexts).
  apply app_nil_r.
Qed.

(** Two text deltas, the second one empty. *)
Lemma anthropic_stream_text_witness :
  Anthropic.generateContentStreamInternal (H := Concrete.runtime)
    [unlines ["event: content_block_delta";
              "data: " +:+ Examples.anthropic_text_delta "Hello"; "";
              "data: " +:+ Examples.anthropic_text_delta ""; ""]]
  = map Anthropic.createStreamingTextResponse ["Hello"; ""].
Proof.
  apply (anthropic_stream_text Concrete.runtime _
           ["event: content_block_delta";
            "data: " +:+ Examples.anthropic_text_delta "Hello"; "";
            "data: " +:+ Examples.anthropic_text_delta ""; ""] "").
  - rewrite joined_singleton, append_nil_r. reflexivity.
  - reflexivity.
  - repeat (constructor; [vm_compute; reflexivity |]). constructor.
  - apply anthropic_text_silent; [by left |].
    eapply anthropic_text_delta;
      [eexists _, _; split_and!;
         [reflexivity | vm_compute; reflexivity ..]
      | split_and!; reflexivity |].
    apply anthropic_text_silent; [by right; left |].
    eapply anthropic_text_delta;
      [eexists _, _; split_and!;
         [reflexivity | vm_compute; reflexivity ..]
      | split_and!; reflexivity |].
    apply anthropic_text_silent; [by right; left |].
    constructor.
Defined.

(* ===================================================================== *)
(** * Text chunks, and the generator of the Azure adapter *)
(* ===================================================================== *)

Section TextChunks.
Context `{JSRuntime Part}.
Import OpenAI.

Lemma quiet_chunk_convert chunk a i :
  quiet_chunk chunk ->
  convertFromOpenAIFormat chunk true a i
  = (a, i, (convertFromOpenAIFormat chunk true None None).2).
Proof.
  unfold quiet_chunk, convertFromOpenAIFormat.
  destruct (as_data chunk) as [d |]; [| reflexivity].
  destruct (d_choice0 d) as [choice |]; [| reflexivity].
  destruct (c_delta choice) as [delta |]; [intros -> | intros _]; simpl;
    [| reflexivity].
  by destruct (negb (truthy_str (or_str (m_content delta) "")) && true).
Qed.

Lemma slice_data payload : slice 6 ("data: " +:+ payload) = payload.
Proof. reflexivity. Qed.

Lemma startsWith_data payload : startsWith "data: " ("data: " +:+ payload) = true.
Proof. unfold startsWith. simpl. apply prefix_nil. Qed.

(** On a line without tool calls whose payload is trimmed, the loop
    body of the Azure generator yields what the inherited one yields. *)
Lemma azure_passes_line line st :
  passes line -> trimmed line ->
  exists ys,
    process_line line st = Continue ys st
    /\ Azure.process_line line = Some ys.
Proof.
  intros [Hline | (payload & -> & Hpayload & Hchunk)] Htrim.
  - exists []. unfold process_line, Azure.process_line. by rewrite Hline.
  - unfold trimmed in Htrim. rewrite slice_data in Htrim.
    rewrite process_data_line by assumption.
    unfold Azure.process_line.
    rewrite startsWith_data, slice_data, Htrim.
    destruct (String.eqb_spec payload "[DONE]") as [-> | _]; [done |].
    destruct (JSON_parse payload) as [chunk |]; [| by eauto].
    rewrite (quiet_chunk_convert chunk (Some (toolCallAccumulator st))
               (Some (indexToIdMap st)) Hchunk).
    destruct (convertFromOpenAIFormat chunk true None None)
      as [[a i] [e | [r |]]]; destruct st; simpl; eauto.
Qed.

Lemma azure_passes_lines lines st :
  Forall passes lines -> Forall trimmed lines ->
  exists ys,
    process_lines lines st = Continue ys st
    /\ Azure.process_lines lines = (ys, false).
Proof.
  intros Hpasses. revert st.
  induction Hpasses as [| line lines Hline Hlines IH]; intros st Htrim.
  - exists []. by split.
  - apply Forall_cons in Htrim as [Htrim Htrims].
    destruct (azure_passes_line line st Hline Htrim) as (ys & Hys & Hazure).
    destruct (IH st Htrims) as (zs & Hzs & Hazures).
    exists (ys ++ zs). cbn [process_lines Azure.process_lines].
    by rewrite Hys, Hzs, Hazure, Hazures.
Qed.

Lemma azure_done_line : Azure.process_line done_line = None.
Proof. reflexivity. Qed.

Lemma azure_process_lines_app lines lines' :
  Azure.process_lines (lines ++ lines')
  = match Azure.process_lines lines with
    | (ys, true) => (ys, true)
    | (ys, false) =>
        let '(zs, returned) := Azure.process_lines lines' in
        (ys ++ zs, returned)
    end.
Proof.
  induction lines as [| line lines IH]; cbn [app Azure.process_lines].
  - by destruct (Azure.process_lines lines').
  - destruct (Azure.process_line line) as [ys |]; [| reflexivity].
    rewrite IH. destruct (Azure.process_lines lines) as [zs [|]];
      [reflexivity |].
    destruct (Azure.process_lines lines') as [ws returned].
    by rewrite app_assoc.
Qed.

Lemma azure_read_loop_lines reads buffer :
  contains nl buffer = false ->
  Azure.read_loop reads buffer
  = (Azure.process_lines
       (List.removelast (split nl (buffer +:+ joined reads)))).1.
Proof.
  revert buffer. induction reads as [| value reads IH]; intros buffer Hbuffer.
  - simpl. rewrite append_nil_r.
    rewrite <- (append_nil_r buffer) at 1.
    rewrite split_prefix by assumption. reflexivity.
  - cbn [Azure.read_loop joined foldr]. unfold take_lines.
    rewrite <- append_assoc.
    rewrite (split_append nl (buffer +:+ value)).
    rewrite removelast_app_not_nil by apply split_not_nil.
    rewrite azure_process_lines_app.
    destruct (Azure.process_lines _) as [ys [|]]; [reflexivity |].
    rewrite IH by apply split_last_no_separator.
    fold (joined reads).
    by destruct (Azure.process_lines _) as [zs returned].
Qed.

Lemma azure_lines reads :
  Azure.generateContentStream reads
  = (Azure.process_lines (List.removelast (split nl (joined reads)))).1.
Proof.
  unfold Azure.generateContentStream.
  by rewrite azure_read_loop_lines by reflexivity.
Qed.
End TextChunks.

(** X10: the three generators yield the same responses however the text
    of the stream is cut into reads: what each yields for a sequence of
    reads is what it yields when the whole text arrives in one read. *)
Theorem stream_rechunking :
  forall (rt : JSRuntime Part) (reads : list string),
    OpenAI.generateContentStreamInternal reads
    = OpenAI.generateContentStreamInternal [joined reads]
    /\ Anthropic.generateContentStreamInternal reads
       = Anthropic.generateContentStreamInternal [joined reads]
    /\ Azure.generateContentStream reads
       = Azure.generateContentStream [joined reads].
Proof.
  intros rt reads. split_and!.
  - by rewrite !generateContentStreamInternal_lines, joined_singleton.
  - by rewrite !anthropic_lines, joined_singleton.
  - by rewrite !azure_lines, joined_singleton.
Qed.

Section OpenAIText.
Context `{JSRuntime Part}.

(** A chunk without tool calls: its text is yielded at once when it is
    not empty, and the accumulators stay as they are. *)
Lemma text_chunk_line line chunk t reason st :
  data_line line chunk ->
  text_chunk chunk t reason ->
  exists ys,
    OpenAI.process_line line st = OpenAI.Continue ys st
    /\ map response_text ys = (if truthy_str t then [Some t] else [])
    /\ map (fun r => option_map (map finishReason) (candidates r)) ys
       = (if truthy_str t then [Some [Some (or_str reason "STOP")]]
          else [])
    /\ Forall no_calls ys.
Proof.
  intros (payload & -> & Hpayload & Hparse)
    (d & choice & Hdata & Hchoice & Hreason & Hdelta).
  rewrite process_data_line, Hparse by assumption.
  unfold OpenAI.convertFromOpenAIFormat. rewrite Hdata, Hchoice.
  destruct st as [acc idx].
  destruct (OpenAI.c_delta choice) as [delta |].
  - destruct Hdelta as [-> <-]. simpl.
    destruct (truthy_str (or_str (OpenAI.m_content delta) "")); simpl;
      eexists; (split_and!; [reflexivity | try reflexivity ..]);
      repeat constructor.
    by rewrite Hreason.
  - subst t. simpl. eexists. split_and!; [reflexivity ..| constructor].
Qed.

Lemma openai_text_lines_processed lines texts st :
  openai_text_lines lines texts ->
  exists ys,
    OpenAI.process_lines lines st = OpenAI.Continue ys st
    /\ map response_text ys = map Some texts
    /\ Forall no_calls ys.
Proof.
  induction 1 as [| line lines texts Hline Hlines IH
                  | line chunk reason lines texts Hline Hchunk Hlines IH
                  | line chunk c r reason lines texts Hline Hchunk Hlines IH];
    cbn [OpenAI.process_lines].
  - exists []. by split_and!.
  - destruct IH as (zs & Hzs & Htexts & Hcalls).
    exists zs. by rewrite (skipped_line _ _ Hline), Hzs.
  - destruct (text_chunk_line _ _ _ _ st Hline Hchunk)
      as (ys & Hys & Htext & _ & Hnone).
    destruct IH as (zs & Hzs & Htexts & Hcalls).
    exists (ys ++ zs). rewrite Hys, Hzs. split_and!; [done | |].
    + by rewrite map_app, Htext, Htexts.
    + by apply Forall_app.
  - destruct (text_chunk_line _ _ _ _ st Hline Hchunk)
      as (ys & Hys & Htext & _ & Hnone).
    destruct IH as (zs & Hzs & Htexts & Hcalls).
    exists (ys ++ zs). rewrite Hys, Hzs. split_and!; [done | |].
    + by rewrite map_app, Htext, Htexts.
    + by apply Forall_app.
Qed.
End OpenAIText.

(** X11: an OpenAI-compatible stream of text is passed through: when
    the lines of the stream are chunks without tool calls among ignored
    lines, ended by the terminator line or by the end of the stream, the
    generator yields exactly one response for every chunk whose text is
    not empty, in the order of the stream, each with the text of its
    chunk and no function call; chunks without text yield nothing, and
    nothing is yielded at the terminator. *)
Theorem openai_stream_text :
  forall (rt : JSRuntime Part) (reads lines : list string) (tail : string)
         (texts : list string),
    (joined reads = unlines (lines ++ [done_line]) +:+ tail
     \/ (joined reads = unlines lines +:+ tail
         /\ contains nl tail = false)) ->
    Forall (fun line => contains nl line = false) lines ->
    openai_text_lines lines texts ->
    map response_text (OpenAI.generateContentStreamInternal reads)
    = map Some texts
    /\ Forall no_calls (OpenAI.generateContentStreamInternal reads).
Proof.
  intros rt reads lines tail texts Hreads Hlines Htexts.
  rewrite generateContentStreamInternal_lines.
  destruct (openai_text_lines_processed lines texts OpenAI.initial_state
              Htexts) as (ys & Hys & Htext & Hcalls).
  destruct Hreads as [-> | [-> Htail]].
  - rewrite split_unlines.
    2:{ apply Forall_app. split; [assumption |]. by repeat constructor. }
    rewrite removelast_app_not_nil by apply split_not_nil.
    rewrite <- app_assoc, process_lines_app, Hys.
    cbn [app OpenAI.process_lines]. rewrite process_done_line.
    cbn [yielded]. change (OpenAI.flush OpenAI.initial_state) with
      (@nil GenerateContentResponse).
    by rewrite app_nil_r.
  - rewrite split_unlines by assumption.
    rewrite removelast_app_not_nil by apply split_not_nil.
    replace (List.removelast (split nl tail)) with (@nil string).
    2:{ rewrite <- (append_nil_r tail).
        rewrite (split_prefix nl tail "") by assumption. reflexivity. }
    rewrite app_nil_r, Hys. by split.
Qed.

(** Two chunks of text, a chunk without text, and the terminator. *)
Lemma openai_stream_text_witness :
  map response_text
    (OpenAI.generateContentStreamInternal (H := Concrete.runtime)
       [unlines ["data: " +:+ Examples.openai_text_chunk "Hel"; "";
                 "data: " +:+ Examples.openai_text_chunk "lo"; "";
                 "data: " +:+ Scenario.finish_payload; ""; done_line]])
  = map Some ["Hel"; "lo"].
Proof.
  refine (proj1 (openai_stream_text Concrete.runtime _
                   ["data: " +:+ Examples.openai_text_chunk "Hel"; "";
                    "data: " +:+ Examples.openai_text_chunk "lo"; "";
                    "data: " +:+ Scenario.finish_payload; ""] ""
                   ["Hel"; "lo"] _ _ _)).
  - left. vm_compute. reflexivity.
  - repeat (constructor; [vm_compute; reflexivity |]). constructor.
  - eapply openai_text_chunk;
      [read_data_line
      | eexists _, _; split_and!; [vm_compute; reflexivity ..|];
        vm_compute; split; reflexivity |].
    apply openai_text_skipped; [by left |].
    eapply openai_text_chunk;
      [read_data_line
      | eexists _, _; split_and!; [vm_compute; reflexivity ..|];
        vm_compute; split; reflexivity |].
    apply openai_text_skipped; [by left |].
    eapply openai_text_empty;
      [read_data_line
      | eexists _, _; split_and!; [vm_compute; reflexivity ..|];
        vm_compute; split; reflexivity |].
    apply openai_text_skipped; [by left |].
    constructor.
Defined.

(** X12: on a stream that carries no tool call (every line before the
    end is passed over by the tool-call accumulation, and the payloads
    have no white space around them), whether it ends with the
    terminator line or without it, the generator of the Azure adapter
    yields exactly what the generator it overrides yields. *)
Theorem azure_stream_agrees_without_tool_calls :
  forall (rt : JSRuntime Part) (reads lines : list string) (tail : string),
    Forall (fun line => contains nl line = false) lines ->
    Forall passes lines ->
    Forall trimmed lines ->
    (joined reads = unlines (lines ++ [done_line]) +:+ tail
     \/ (joined reads = unlines lines +:+ tail
         /\ contains nl tail = false)) ->
    Azure.generateContentStream reads
    = OpenAI.generateContentStreamInternal reads.
Proof.
  intros rt reads lines tail Hlines Hpasses Htrimmed Hreads.
  rewrite azure_lines, generateContentStreamInternal_lines.
  destruct (azure_passes_lines lines OpenAI.initial_state Hpasses Htrimmed)
    as (ys & Hys & Hazure).
  destruct Hreads as [-> | [-> Htail]].
  - rewrite split_unlines.
    2:{ apply Forall_app. split; [assumption |]. by repeat constructor. }
    rewrite removelast_app_not_nil by apply split_not_nil.
    rewrite <- app_assoc.
    rewrite process_lines_app, azure_process_lines_app, Hys, Hazure.
    cbn [app OpenAI.process_lines Azure.process_lines].
    rewrite process_done_line, azure_done_line. reflexivity.
  - rewrite split_unlines by assumption.
    rewrite removelast_app_not_nil by apply split_not_nil.
    replace (List.removelast (split nl tail)) with (@nil string).
    2:{ rewrite <- (append_nil_r tail).
        rewrite (split_prefix nl tail "") by assumption. reflexivity. }
    rewrite app_nil_r. by rewrite Hys, Hazure.
Qed.

(** A stream of two text chunks and the terminator. *)
Lemma azure_stream_agrees_without_tool_calls_witness :
  Azure.generateContentStream (H := Concrete.runtime)
    [unlines ["data: " +:+ Examples.openai_text_chunk "Hel"; "";
              "data: " +:+ Examples.openai_text_chunk "lo"; "";
              done_line]]
  = OpenAI.generateContentStreamInternal (H := Concrete.runtime)
      [unlines ["data: " +:+ Examples.openai_text_chunk "Hel"; "";
                "data: " +:+ Examples.openai_text_chunk "lo"; "";
                done_line]].
Proof.
  apply (azure_stream_agrees_without_tool_calls Concrete.runtime _
           ["data: " +:+ Examples.openai_text_chunk "Hel"; "";
            "data: " +:+ Examples.openai_text_chunk "lo"; ""] "").
  - repeat (constructor; [vm_compute; reflexivity |]). constructor.
  - constructor.
    { right. eexists. split; [reflexivity |].
      split; [vm_compute; discriminate | vm_compute; reflexivity]. }
    constructor; [by left |].
    constructor.
    { right. eexists. split; [reflexivity |].
      split; [vm_compute; discriminate | vm_compute; reflexivity]. }
    constructor; [by left | constructor].
  - repeat (constructor; [vm_compute; reflexivity |]). constructor.
  - left. vm_compute. reflexivity.
Defined.

(** X13: the generator of the Azure adapter does not accumulate: a
    chunk whose delta carries one tool call is answered at once with a
    response that holds one function call, with the id and the name the
    chunk itself has (none, when it has none) and, as arguments, the
    parse of the fragment of that chunk alone: the value the fragment
    parses to, and the empty object when it does not parse. *)
Theorem azure_chunk_call_yielded_at_once :
  forall (rt : JSRuntime Part) (payload : string) (chunk : json) (idx : Z)
         (id name : option string) (fragment : string),
    trim payload <> "[DONE]" ->
    JSON_parse (trim payload) = Some chunk ->
    fragment_chunk chunk idx id name fragment ->
    exists response arguments,
      Azure.process_line ("data: " +:+ payload) = Some [response]
      /\ functionCalls response
         = Some [{| fc_id := id; fc_name := name;
                    fc_args := Some arguments |}]
      /\ (JSON_parse fragment = None -> arguments = empty_object)
      /\ (forall v,
            JSON_parse fragment = Some v -> fragment <> "" -> arguments = v).
Proof.
  intros rt payload chunk idx id name fragment Hdone Hparse
    (d & choice & delta & toolCall & fn & Hdata & Hchoice & Hdelta & Hcalls
     & Hidx & Hid & Hfn & Hname & Hfragment).
  unfold Azure.process_line.
  rewrite startsWith_data, slice_data.
  destruct (String.eqb_spec (trim payload) "[DONE]") as [Heq | _]; [done |].
  rewrite Hparse. unfold OpenAI.convertFromOpenAIFormat.
  rewrite Hdata, Hchoice, Hdelta, Hcalls.
  cbn [OpenAI.tool_call_loop OpenAI.ls_acc OpenAI.ls_idx OpenAI.ls_calls].
  rewrite Hfn, orb_true_r. cbn [app negb andb length Nat.eqb].
  rewrite andb_false_r. subst id name.
  unfold OpenAI.single_shot.
  destruct Hfragment as [Hargs | [Hargs ->]]; rewrite Hargs.
  - destruct (JSON_parse fragment) as [v |] eqn:Hv;
      eexists _, _; (split_and!; [reflexivity | reflexivity | |]);
      congruence.
  - eexists _, _. split_and!; [reflexivity | reflexivity | done | done].
Qed.

(** A chunk that carries the call [search] whole: the arguments are
    parsed at once. *)
Lemma azure_chunk_call_yielded_at_once_witness :
  exists response,
    Azure.process_line (H := Concrete.runtime)
      ("data: " +:+ Examples.whole_call_payload)
    = Some [response]
    /\ functionCalls response
       = Some [{| fc_id := Some "c1"; fc_name := Some "search";
                  fc_args := Some (JObj [("q", JStr "cats")]) |}].
Proof.
  destruct (azure_chunk_call_yielded_at_once Concrete.runtime
              Examples.whole_call_payload
              (default JNull (parse_json Examples.whole_call_payload))
              0 (Some "c1") (Some "search") Examples.search_arguments)
    as (response & arguments & Hline & Hcalls & _ & Hparsed).
  - vm_compute. discriminate.
  - vm_compute. reflexivity.
  - read_fragment_chunk.
  - exists response. split; [assumption |].
    rewrite Hcalls.
    rewrite (Hparsed (JObj [("q", JStr "cats")]));
      [reflexivity | vm_compute; reflexivity | vm_compute; discriminate].
Defined.

(* ===================================================================== *)
(** * Further properties of the turn engine *)
(* ===================================================================== *)

Section CutFacts.
Implicit Types (p s a b : string).

Lemma prefix_slice p s :
  String.prefix p s = true -> s = p +:+ slice (String.length p) s.
Proof.
  revert s. induction p as [| x p IH]; intros s; [intros _; reflexivity |].
  destruct s as [| y s]; simpl; [discriminate |].
  destruct (Ascii.ascii_dec x y) as [-> | _]; [| discriminate].
  intros Hprefix.
  change (String y s = String y (p +:+ slice (String.length p) s)).
  f_equal. by apply IH.
Qed.

Lemma cut_eq p s :
  cut p s
  = if startsWith p s then Some ("", slice (String.length p) s)
    else match s with
         | EmptyString => None
         | String c r =>
             match cut p r with
             | Some (a, b) => Some (String c a, b)
             | None => None
             end
         end.
Proof. by destruct s. Qed.

Lemma prefix_append p b : String.prefix p (p +:+ b) = true.
Proof.
  induction p as [| x p IH]; [apply prefix_nil |].
  simpl. by destruct (Ascii.ascii_dec x x).
Qed.

Lemma append_cancel a u v : a +:+ u = a +:+ v -> u = v.
Proof.
  induction a as [| c a IH]; [done |].
  change (String c (a +:+ u) = String c (a +:+ v) -> u = v).
  intros [= Heq]. auto.
Qed.

(** [cut] splits at an occurrence of the pattern. *)
Lemma cut_sound p s a b : cut p s = Some (a, b) -> s = a +:+ p +:+ b.
Proof.
  revert a. induction s as [| c s IH]; intros a; rewrite cut_eq;
    destruct (startsWith p _) eqn:Hp;
    try (intros [= <- <-]; by apply prefix_slice).
  destruct (cut p s) as [[a' b'] |]; [| discriminate].
  intros [= <- <-]. change (String c s = String c (a' +:+ p +:+ b')).
  f_equal. by apply IH.
Qed.

(** [cut] finds an occurrence when there is one. *)
Lemma cut_complete p s a b : s = a +:+ p +:+ b -> cut p s <> None.
Proof.
  intros ->. induction a as [| c a IH]; rewrite cut_eq.
  - change ("" +:+ p +:+ b) with (p +:+ b).
    unfold startsWith. by rewrite prefix_append.
  - change (String c a +:+ p +:+ b) with (String c (a +:+ p +:+ b)).
    destruct (startsWith p _); [discriminate |].
    by destruct (cut p (a +:+ p +:+ b)) as [[a' b'] |].
Qed.

(** [cut] splits at the first occurrence of the pattern. *)
Lemma cut_first p s a b : cut p s = Some (a, b) -> first_cut p s a b.
Proof.
  intros Hcut. split; [by apply cut_sound |].
  revert a Hcut. induction s as [| c s IH]; intros a; rewrite cut_eq;
    destruct (startsWith p _) eqn:Hp;
    try (intros [= <- <-] a' b' _; by exists a').
  destruct (cut p s) as [[a0 b0] |] eqn:Hcut; [| discriminate].
  intros [= <- <-] a' b' Heq.
  destruct a' as [| c' a'].
  - change ("" +:+ p +:+ b') with (p +:+ b') in Heq.
    unfold startsWith in Hp. by rewrite Heq, prefix_append in Hp.
  - change (String c' a' +:+ p +:+ b')
      with (String c' (a' +:+ p +:+ b')) in Heq.
    injection Heq as <- Heq.
    destruct (IH a0 eq_refl a' b' Heq) as [x ->]. by exists x.
Qed.

(** When the text has two occurrences of the pattern [**] that do not
    overlap, the text after the first occurrence has one. *)
Lemma first_cut_rest s before rest a b c :
  first_cut "**" s before rest ->
  s = a +:+ "**" +:+ b +:+ "**" +:+ c ->
  exists u v, rest = u +:+ "**" +:+ v.
Proof.
  intros [Hs Hfirst] Heq.
  destruct (Hfirst a _ Heq) as [x ->].
  rewrite Hs, append_assoc in Heq. apply append_cancel in Heq.
  destruct x as [| c1 [| c2 x]].
  - change (String "*" (String "*" rest)
            = String "*" (String "*" (b +:+ "**" +:+ c))) in Heq.
    injection Heq as ->. by exists b, c.
  - change (String "*" (String "*" rest)
            = String c1 (String "*" (String "*" (b +:+ "**" +:+ c))))
      in Heq.
    injection Heq as <- ->. by exists (String "*" b), c.
  - change (String "*" (String "*" rest)
            = String c1 (String c2 (x +:+ "**" +:+ b +:+ "**" +:+ c)))
      in Heq.
    injection Heq as <- <- ->. exists (x +:+ "**" +:+ b), c.
    by rewrite !append_assoc.
Qed.
End CutFacts.

Section TurnInvariants.
Import TurnEngine.
Variable getResponseText : GenerateContentResponse -> option string.
Variable toFriendlyError : Thrown -> Thrown.
Variable getErrorMessage : Thrown -> string.
Variable Date_now : nat -> N.
Variable random_hex : nat -> string.
Variable aborted : nat -> bool.

Lemma requests_app events events' :
  requests (events ++ events') = requests events ++ requests events'.
Proof. apply omap_app. Qed.

Lemma function_call_loop_pending fcs st :
  let r := function_call_loop Date_now random_hex fcs st in
  pendingToolCalls r.1 = pendingToolCalls st ++ requests r.2
  /\ debugResponses r.1 = debugResponses st
  /\ Forall ordinary r.2.
Proof.
  revert st. induction fcs as [| fc fcs IH]; intros st; simpl.
  - rewrite app_nil_r. by split_and!.
  - specialize (IH (handlePendingFunctionCall Date_now random_hex fc st).1).
    unfold handlePendingFunctionCall in *. simpl in *.
    destruct (function_call_loop _ _ fcs _) as [st'' events]. simpl in *.
    destruct IH as (Hpending & Hdebug & Hordinary).
    split_and!; [| assumption | by constructor].
    rewrite Hpending, <- app_assoc. reflexivity.
Qed.

Lemma process_unit_pending resp st :
  let r := process_unit getResponseText Date_now random_hex resp st in
  pendingToolCalls r.1 = pendingToolCalls st ++ requests r.2
  /\ debugResponses r.1 = debugResponses st ++ [resp]
  /\ Forall ordinary r.2.
Proof.
  unfold process_unit.
  set (st' := {| pendingToolCalls := _; debugResponses := _ |}).
  pose proof (function_call_loop_pending (default [] (functionCalls resp)) st')
    as Hloop.
  destruct (function_call_loop _ _ _ st') as [st'' callEvents].
  simpl in Hloop. destruct Hloop as (Hpending & Hdebug & Hordinary).
  assert (Hgeneral :
    pendingToolCalls st''
    = pendingToolCalls st
      ++ requests (match getResponseText resp with
                   | Some t => if truthy_str t then [Content t] else []
                   | None => []
                   end ++ callEvents)
    /\ debugResponses st'' = debugResponses st ++ [resp]
    /\ Forall ordinary (match getResponseText resp with
                        | Some t => if truthy_str t then [Content t] else []
                        | None => []
                        end ++ callEvents)).
  { split_and!; [| assumption |].
    - rewrite requests_app, Hpending.
      destruct (getResponseText resp) as [t |]; [destruct (truthy_str t) |];
        reflexivity.
    - apply Forall_app. split; [| assumption].
      destruct (getResponseText resp) as [t |]; [destruct (truthy_str t) |];
        by repeat constructor. }
  destruct (first_part resp) as [[t [[|] |] fc fr inl] |]; simpl;
    try exact Hgeneral.
  rewrite app_nil_r. split_and!; [done | done | by repeat constructor].
Qed.

(** The invariant of the loop of [Turn.run]. *)
Lemma run_loop_invariant us failure n st events :
  let r := run_loop getResponseText toFriendlyError getErrorMessage
             Date_now random_hex aborted us failure n st events in
  pendingToolCalls st = requests events ->
  Forall ordinary events ->
  pendingToolCalls (final_state r) = requests (emitted r)
  /\ exists body,
       Forall ordinary body
       /\ ((emitted r = body /\ reported r = []
            /\ ((failure = None /\ completion r = Returned)
                \/ exists thrown,
                     failure = Some thrown
                     /\ completion r = Rethrown (toFriendlyError thrown)
                     /\ thrown_unauthorized (toFriendlyError thrown) = true))
           \/ (emitted r = body ++ [UserCancelled] /\ reported r = []
               /\ completion r = Returned
               /\ (aborted (units_read r) = true
                   \/ exists m, units_read r = S m /\ aborted m = true))
           \/ (exists thrown,
                 failure = Some thrown
                 /\ thrown_unauthorized (toFriendlyError thrown) = false
                 /\ aborted (units_read r) = false
                 /\ emitted r
                    = body
                      ++ [Error
                            {| message :=
                                 getErrorMessage (toFriendlyError thrown);
                               status :=
                                 thrown_status (toFriendlyError thrown) |}]
                 /\ reported r = [toFriendlyError thrown]
                 /\ completion r = Returned)).
Proof.
  revert n st events.
  induction us as [| resp us IH]; intros n st events; simpl;
    intros Hpending Hordinary.
  - destruct failure as [thrown |]; simpl.
    + unfold handle_failure.
      destruct (thrown_unauthorized (toFriendlyError thrown)) eqn:Hauth;
        [| destruct (aborted n) eqn:Habort]; simpl.
      * split; [assumption |]. exists events. split; [assumption |].
        left. split_and!; [done | done |]. right. by exists thrown.
      * rewrite requests_app, app_nil_r. split; [assumption |].
        exists events. split; [assumption |]. right; left.
        split_and!; [done | done | done | by left].
      * rewrite requests_app, app_nil_r. split; [assumption |].
        exists events. split; [assumption |]. right; right.
        exists thrown. by split_and!.
    + split; [assumption |]. exists events. split; [assumption |].
      left. split_and!; [done | done | by left].
  - destruct (aborted n) eqn:Habort; simpl.
    + rewrite requests_app, app_nil_r. split; [assumption |].
      exists events. split; [assumption |]. right; left.
      split_and!; [done | done | done |]. right. by exists n.
    + pose proof (process_unit_pending resp st) as Hunit.
      destruct (process_unit _ _ _ resp st) as [st' new_events].
      simpl in Hunit. destruct Hunit as (Hnew & _ & Hord).
      apply IH.
      * by rewrite requests_app, Hnew, Hpending.
      * by apply Forall_app.
Qed.

Lemma run_loop_debug us failure n st events :
  let r := run_loop getResponseText toFriendlyError getErrorMessage
             Date_now random_hex aborted us failure n st events in
  exists k,
    debugResponses (final_state r) = debugResponses st ++ take k us
    /\ (k <= length us)%nat
    /\ (units_read r = (n + k)%nat
        \/ (units_read r = S (n + k) /\ (k < length us)%nat
            /\ aborted (n + k)%nat = true
            /\ List.last (emitted r) UserCancelled = UserCancelled))
    /\ ((forall m, aborted m = false) -> k = length us).
Proof.
  revert n st events.
  induction us as [| resp us IH]; intros n st events; simpl.
  - exists 0%nat. rewrite app_nil_r, Nat.add_0_r.
    destruct failure as [thrown |]; simpl.
    + unfold handle_failure.
      destruct (thrown_unauthorized _); [| destruct (aborted n)]; simpl;
        split_and!; auto.
    + split_and!; auto.
  - destruct (aborted n) eqn:Habort; simpl.
    + exists 0%nat. rewrite app_nil_r, Nat.add_0_r.
      split_and!; [done | lia | | ].
      * right. split_and!; [done | lia | done |]. by rewrite last_last.
      * intros Hnever. by rewrite Hnever in Habort.
    + pose proof (process_unit_pending resp st) as Hunit.
      destruct (process_unit _ _ _ resp st) as [st' new_events].
      simpl in Hunit. destruct Hunit as (_ & Hdebug & _).
      destruct (IH (S n) st' (events ++ new_events))
        as (k & Hk & Hle & Hread & Hall).
      exists (S k). rewrite Hk, Hdebug, <- app_assoc. simpl.
      replace (n + S k)%nat with (S n + k)%nat by lia.
      split_and!; [done | lia | | ].
      * destruct Hread as [Hread | (Hread & Hlt & Hab & Hlast)];
          [by left | right].
        split_and!; [done | lia | done | done].
      * intros Hnever. by rewrite (Hall Hnever).
Qed.
End TurnInvariants.

(** X14: at the end of a run of [Turn.run] on a new turn, however it
    ends, the pending tool calls of the turn are exactly the tool call
    requests the run has yielded, in the order in which they were
    yielded. *)
Theorem turn_pending_calls_are_the_requests :
  forall (getResponseText : GenerateContentResponse -> option string)
         (toFriendlyError : TurnEngine.Thrown -> TurnEngine.Thrown)
         (getErrorMessage : TurnEngine.Thrown -> string)
         (Date_now : nat -> N) (random_hex : nat -> string)
         (aborted : nat -> bool) (stream : TurnEngine.ResponseStream),
    let r := TurnEngine.run getResponseText toFriendlyError getErrorMessage
               Date_now random_hex aborted stream in
    TurnEngine.pendingToolCalls (TurnEngine.final_state r)
    = requests (TurnEngine.emitted r).
Proof.
  intros text friendly msg now rnd aborted stream r. subst r.
  unfold TurnEngine.run.
  apply (run_loop_invariant text friendly msg now rnd aborted);
    [reflexivity | constructor].
Qed.

(** X15: the events of a run of [Turn.run] are events of the units
    (text, thoughts, tool call requests), followed by at most one
    closing event, and the run ends in exactly one of four ways.  The
    stream ends and the run returns with no closing event.  The stream
    fails with an [UnauthorizedError], which is thrown on, with no
    closing event and no report.  The signal is found set, at a unit or
    when the stream fails: [UserCancelled] is the last event and nothing
    is reported.  Or the stream fails with another error while the
    signal is not set: the error, made friendly, is reported, and an
    [Error] event with its message and status is the last event. *)
Theorem turn_closing_event :
  forall (getResponseText : GenerateContentResponse -> option string)
         (toFriendlyError : TurnEngine.Thrown -> TurnEngine.Thrown)
         (getErrorMessage : TurnEngine.Thrown -> string)
         (Date_now : nat -> N) (random_hex : nat -> string)
         (aborted : nat -> bool) (stream : TurnEngine.ResponseStream),
    let r := TurnEngine.run getResponseText toFriendlyError getErrorMessage
               Date_now random_hex aborted stream in
    exists body,
      Forall ordinary body
      /\ ((TurnEngine.emitted r = body /\ TurnEngine.reported r = []
           /\ ((TurnEngine.failure stream = None
                /\ TurnEngine.completion r = TurnEngine.Returned)
               \/ exists thrown,
                    TurnEngine.failure stream = Some thrown
                    /\ TurnEngine.completion r
                       = TurnEngine.Rethrown (toFriendlyError thrown)
                    /\ TurnEngine.thrown_unauthorized
                         (toFriendlyError thrown) = true))
          \/ (TurnEngine.emitted r = body ++ [TurnEngine.UserCancelled]
              /\ TurnEngine.reported r = []
              /\ TurnEngine.completion r = TurnEngine.Returned
              /\ (aborted (TurnEngine.units_read r) = true
                  \/ exists m,
                       TurnEngine.units_read r = S m /\ aborted m = true))
          \/ (exists thrown,
                TurnEngine.failure stream = Some thrown
                /\ TurnEngine.thrown_unauthorized (toFriendlyError thrown)
                   = false
                /\ aborted (TurnEngine.units_read r) = false
                /\ TurnEngine.emitted r
                   = body
                     ++ [TurnEngine.Error
                           {| TurnEngine.message :=
                                getErrorMessage (toFriendlyError thrown);
                              TurnEngine.status :=
                                TurnEngine.thrown_status
                                  (toFriendlyError thrown) |}]
                /\ TurnEngine.reported r = [toFriendlyError thrown]
                /\ TurnEngine.completion r = TurnEngine.Returned)).
Proof.
  intros text friendly msg now rnd aborted stream r. subst r.
  unfold TurnEngine.run.
  apply (run_loop_invariant text friendly msg now rnd aborted);
    [reflexivity | constructor].
Qed.

(** X16: the debug responses a run of [Turn.run] records are exactly
    the units it has processed, a prefix of the stream in order.  A unit
    at which the signal is found set is read but not recorded: then one
    unit more has been read than recorded and the run ends with
    [UserCancelled].  When the signal is never set, every unit of the
    stream is recorded. *)
Theorem turn_debug_responses_are_processed_units :
  forall (getResponseText : GenerateContentResponse -> option string)
         (toFriendlyError : TurnEngine.Thrown -> TurnEngine.Thrown)
         (getErrorMessage : TurnEngine.Thrown -> string)
         (Date_now : nat -> N) (random_hex : nat -> string)
         (aborted : nat -> bool) (stream : TurnEngine.ResponseStream),
    let r := TurnEngine.run getResponseText toFriendlyError getErrorMessage
               Date_now random_hex aborted stream in
    exists k,
      TurnEngine.debugResponses (TurnEngine.final_state r)
      = take k (TurnEngine.units stream)
      /\ (k <= length (TurnEngine.units stream))%nat
      /\ (TurnEngine.units_read r = k
          \/ (TurnEngine.units_read r = S k
              /\ (k < length (TurnEngine.units stream))%nat
              /\ aborted k = true
              /\ List.last (TurnEngine.emitted r) TurnEngine.UserCancelled
                 = TurnEngine.UserCancelled))
      /\ ((forall m, aborted m = false) ->
          k = length (TurnEngine.units stream)).
Proof.
  intros text friendly msg now rnd aborted stream r. subst r.
  unfold TurnEngine.run.
  exact (run_loop_debug text friendly msg now rnd aborted
           (TurnEngine.units stream) (TurnEngine.failure stream) 0
           TurnEngine.new_turn []).
Qed.

Section TrimFacts.
Implicit Types (s t l r : string) (c : ascii).

Lemma rev_app_append s t : String.rev_app s t = String.rev s +:+ t.
Proof.
  unfold String.rev. revert t.
  induction s as [| c s IH]; intros t; [reflexivity |].
  cbn [String.rev_app]. rewrite (IH (String c t)), (IH (String c "")).
  by rewrite append_assoc.
Qed.

Lemma rev_cons c s : String.rev (String c s) = String.rev s +:+ String c "".
Proof. unfold String.rev at 1. cbn [String.rev_app]. apply rev_app_append. Qed.

Lemma rev_append s t : String.rev (s +:+ t) = String.rev t +:+ String.rev s.
Proof.
  induction s as [| c s IH]; [by rewrite append_nil_r |].
  change (String c s +:+ t) with (String c (s +:+ t)).
  by rewrite !rev_cons, IH, append_assoc.
Qed.

Lemma rev_rev s : String.rev (String.rev s) = s.
Proof.
  induction s as [| c s IH]; [reflexivity |].
  by rewrite rev_cons, rev_append, IH.
Qed.

Lemma white_append l r : white (l +:+ r) = white l && white r.
Proof.
  induction l as [| c l IH]; [reflexivity |].
  change (is_space_char c && white (l +:+ r)
          = (is_space_char c && white l) && white r).
  by rewrite IH, andb_assoc.
Qed.

Lemma white_rev s : white (String.rev s) = white s.
Proof.
  induction s as [| c s IH]; [reflexivity |].
  rewrite rev_cons, white_append, IH. simpl. rewrite andb_true_r.
  apply andb_comm.
Qed.

Lemma trimStart_stripped s :
  exists l, s = l +:+ trimStart s /\ white l = true
            /\ starts_bare (trimStart s).
Proof.
  induction s as [| c s (l & Hs & Hl & Hbare)]; [by exists "" |].
  simpl. destruct (is_space_char c) eqn:Hc.
  - exists (String c l). split_and!; [| by simpl; rewrite Hc | assumption].
    change (String c s = String c (l +:+ trimStart s)). by f_equal.
  - by exists "".
Qed.

Lemma starts_bare_prefix t r : starts_bare (t +:+ r) -> starts_bare t.
Proof. by destruct t. Qed.

(** [trim] strips the white space at the two ends, and nothing else. *)
Lemma trim_stripped s : stripped s (trim s).
Proof.
  unfold trim.
  destruct (trimStart_stripped s) as (l & Hs & Hl & Hbare).
  destruct (trimStart_stripped (String.rev (trimStart s)))
    as (r & Hrev & Hr & Hbare').
  set (t := trimStart (String.rev (trimStart s))) in *.
  assert (Hmiddle : trimStart s = String.rev t +:+ String.rev r).
  { rewrite <- (rev_rev (trimStart s)), Hrev. apply rev_append. }
  exists l, (String.rev r). split_and!.
  - by rewrite <- Hmiddle.
  - assumption.
  - by rewrite white_rev.
  - rewrite Hmiddle in Hbare. by apply starts_bare_prefix in Hbare.
  - by rewrite rev_rev.
Qed.
End TrimFacts.

(** X17: a unit whose first part is a thought yields one [Thought]
    event and nothing else: its text is not yielded as content and its
    function calls are dropped, so the pending tool calls stay as they
    are.  When the text of the part has two occurrences of [**] that do
    not overlap, the subject is the trimmed text between the first
    [**] and the first [**] after it, and the description is the
    trimmed rest of the text; otherwise the subject is empty and the
    description is the trimmed text.  Trimming strips the white space
    at the two ends of a text, the no-break space included, and nothing
    else. *)
Theorem turn_thought_unit :
  forall (getResponseText : GenerateContentResponse -> option string)
         (Date_now : nat -> N) (random_hex : nat -> string)
         (resp : GenerateContentResponse) (part : Part)
         (st : TurnEngine.TurnState),
    TurnEngine.first_part resp = Some part ->
    thought part = Some true ->
    let raw := default "" (text part) in
    exists summary,
      TurnEngine.process_unit getResponseText Date_now random_hex resp st
      = ({| TurnEngine.pendingToolCalls := TurnEngine.pendingToolCalls st;
            TurnEngine.debugResponses :=
              TurnEngine.debugResponses st ++ [resp] |},
         [TurnEngine.Thought summary])
      /\ ((exists before rest inner after,
              first_cut "**" raw before rest
              /\ first_cut "**" rest inner after
              /\ summary
                 = {| TurnEngine.subject := trim inner;
                      TurnEngine.description := trim (before +:+ after) |})
          \/ ((forall a b c, raw <> a +:+ "**" +:+ b +:+ "**" +:+ c)
              /\ summary = {| TurnEngine.subject := "";
                              TurnEngine.description := trim raw |}))
      /\ (forall s, stripped s (trim s))
      /\ white nbsp = true.
Proof.
  intros text now rnd resp part st Hpart Hthought raw.
  exists (TurnEngine.thought_summary raw). split_and!.
  - unfold TurnEngine.process_unit. rewrite Hpart.
    destruct part as [t th fc fr inl]. simpl in Hthought. subst th.
    reflexivity.
  - unfold TurnEngine.thought_summary.
    destruct (cut "**" raw) as [[before rest] |] eqn:Hfirst.
    + apply cut_first in Hfirst.
      destruct (cut "**" rest) as [[inner after] |] eqn:Hsecond.
      * apply cut_first in Hsecond. left. by exists before, rest, inner, after.
      * right. split; [| reflexivity]. intros a b c Hraw.
        destruct (first_cut_rest _ _ _ _ _ _ Hfirst Hraw) as (u & v & Hrest).
        by apply cut_complete in Hrest.
    + right. split; [| reflexivity]. intros a b c Hraw.
      by apply cut_complete in Hraw.
  - apply trim_stripped.
  - reflexivity.
Qed.

(** A thought with a subject, with no-break spaces around its
    description, in a unit that also carries a function call. *)
Lemma turn_thought_unit_witness :
  let thoughtPart :=
    {| text := Some ("**Plan**" +:+ nbsp +:+ "read files" +:+ nbsp);
       thought := Some true; functionCall := None;
       functionResponse := None; inlineData := None |} in
  let resp :=
    {| candidates :=
         Some [{| content := Some {| role := Some "model";
                                     parts := Some [thoughtPart] |};
                  finishReason := None; index := 0 |}];
       usageMetadata := None; response_text := Some "ignored";
       functionCalls := Some [Scenario.call (Some "c1") "ls"] |} in
  TurnEngine.process_unit response_text Scenario.frozen_clock
    Scenario.repeating_random resp TurnEngine.new_turn
  = ({| TurnEngine.pendingToolCalls := [];
        TurnEngine.debugResponses := [resp] |},
     [TurnEngine.Thought
        {| TurnEngine.subject := "Plan";
           TurnEngine.description := "read files" |}]).
Proof.
  intros thoughtPart resp.
  destruct (turn_thought_unit response_text Scenario.frozen_clock
              Scenario.repeating_random resp thoughtPart TurnEngine.new_turn)
    as (summary & Hunit & _); [reflexivity | reflexivity |].
  rewrite Hunit. vm_compute in Hunit.
  injection Hunit as <-. reflexivity.
Defined.

(* ===================================================================== *)
(** * Further properties of the tool executor and of the registry *)
(* ===================================================================== *)

(** X18: whatever the registry holds and whatever the tool does,
    [executeToolCall] answers with the call id of the request, and in
    one of two shapes.  Either the tool ran and its result was
    converted: the response has no error and the converted parts, and
    one telemetry record is written, a success.  Or the response is the
    error shape for a message, and the last telemetry record is a
    failure with that message; it is the only record, unless the tool
    ran and the conversion of its result raised, where a success record
    has been written before it. *)
Theorem executeToolCall_outcomes :
  forall (PartListUnion ToolResultDisplay : Type)
         (convertToFunctionResponse :
            string -> string -> PartListUnion
            -> exc Executor.Raised PartListUnion)
         (toolRegistry :
            gmap string (Executor.RegisteredTool PartListUnion
                           ToolResultDisplay))
         (Date_now : nat -> Z)
         (request : TurnEngine.ToolCallRequestInfo)
         (abortSignal : option bool),
    let result :=
      Executor.executeToolCall PartListUnion ToolResultDisplay
        convertToFunctionResponse toolRegistry Date_now request
        abortSignal in
    Executor.resp_callId _ _ result.1 = TurnEngine.callId request
    /\ ((Executor.error _ _ result.1 = None
         /\ (exists parts,
               Executor.responseParts _ _ result.1
               = Executor.Converted _ parts)
         /\ map Executor.success result.2 = [true])
        \/ (exists message entry,
              result.1
              = Executor.error_response PartListUnion ToolResultDisplay
                  request message
              /\ last result.2 = Some entry
              /\ Executor.success entry = false
              /\ Executor.log_error entry = Some message
              /\ (map Executor.success result.2 = [false]
                  \/ map Executor.success result.2 = [true; false]))).
Proof.
  intros P D conv reg now request signal result. subst result.
  unfold Executor.executeToolCall.
  destruct (reg !! TurnEngine.name request) as [tool |]; simpl.
  - destruct (Executor.execute _ _ tool _ _) as [e | toolResult]; simpl.
    + split; [reflexivity |]. right. eexists _, _.
      split_and!; [reflexivity | reflexivity | reflexivity | reflexivity |].
      by left.
    + destruct (conv _ _ _) as [e | response]; simpl.
      * split; [reflexivity |]. right. eexists _, _.
        split_and!; [reflexivity | reflexivity | reflexivity | reflexivity |].
        by right.
      * split; [reflexivity |]. left. split_and!; [done | by eexists | done].
  - split; [reflexivity |]. right. eexists _, _.
    split_and!; [reflexivity | reflexivity | reflexivity | reflexivity |].
    by left.
Qed.

(** X19: a registration under a selector that is not built in is found
    again: after it, the selector resolves to the registered class with
    the configuration passed; a second registration under the same
    selector replaces the first; and a registration changes nothing for
    any other selector. *)
Theorem registry_round_trip :
  forall (GeneratorClass : Type) (reg : gmap string GeneratorClass)
         (cls cls' : GeneratorClass) (sel other : string)
         (config : ContentGeneratorConfig),
    sel ∉ Registry.builtin_selectors ->
    other <> sel ->
    let create := Registry.createCustomContentGenerator GeneratorClass in
    let register := Registry.registerContentGenerator GeneratorClass in
    create (register sel cls reg) sel config
    = Ok (Registry.Registered GeneratorClass cls config)
    /\ create (register sel cls' (register sel cls reg)) sel config
       = Ok (Registry.Registered GeneratorClass cls' config)
    /\ create (register sel cls reg) other config = create reg other config.
Proof.
  intros G reg cls cls' sel other config Hsel Hother create register.
  subst create register. unfold Registry.registerContentGenerator.
  split_and!.
  - rewrite custom_consults_registry by assumption.
    by rewrite lookup_insert_eq.
  - rewrite custom_consults_registry by assumption.
    by rewrite lookup_insert_eq.
  - destruct (decide (other ∈ Registry.builtin_selectors)) as [Hin | Hout].
    + by apply builtin_ignores_registry.
    + rewrite !custom_consults_registry by assumption.
      by rewrite lookup_insert_ne.
Qed.

(** A registration under the selector [ollama]. *)
Lemma registry_round_trip_witness :
  Registry.createCustomContentGenerator nat
    (Registry.registerContentGenerator nat "ollama" 7%nat ∅) "ollama"
    Concrete.config
  = Ok (Registry.Registered nat 7%nat Concrete.config).
Proof.
  refine (proj1 (registry_round_trip nat ∅ 7%nat 8%nat "ollama" "mistral"
                   Concrete.config _ _)).
  - unfold Registry.builtin_selectors. intros Hin.
    repeat (apply elem_of_cons in Hin as [Hin | Hin]; [discriminate |]).
    by apply elem_of_nil in Hin.
  - discriminate.
Defined.

(* ===================================================================== *)
(** * Properties of the configuration of generators *)
(* ===================================================================== *)

Lemma or_str_default_truthy o d :
  truthy_str d = true -> truthy_str (or_str o d) = true.
Proof. intros Hd. by destruct o as [[| c r] |]. Qed.

Lemma truthy_ostr_or_str o d :
  truthy_str d = true -> truthy_ostr (Some (or_str o d)) = true.
Proof. apply or_str_default_truthy. Qed.

(** X20: an authentication method that [validateAuthMethod] accepts
    for an environment can be configured in that environment:
    [createContentGeneratorConfig] returns a configuration for the
    method, and [createContentGenerator] returns a generator for that
    configuration, whatever the registry holds.  For the methods
    [openai-compatible], [local-llm], [anthropic] and [azure] the
    generator is the built-in adapter for the method on that
    configuration; and for every method other than the Google login and
    Vertex AI the configuration has an API key that is not empty. *)
Theorem validated_method_is_configured :
  forall (DEFAULT_GEMINI_MODEL : string)
         (getEffectiveModel : string -> string -> string)
         (parseInt : string -> option Z)
         (GeneratorClass : Type) (reg : gmap string GeneratorClass)
         (env : Auth.Env) (model getModel : option string)
         (authMethod : string),
    Auth.validateAuthMethod env authMethod = None ->
    exists created generator,
      Auth.createContentGeneratorConfig DEFAULT_GEMINI_MODEL
        getEffectiveModel parseInt env model (Some authMethod) getModel
      = Ok created
      /\ Auth.createContentGenerator GeneratorClass reg created
         = Ok generator
      /\ cfg_authType (Auth.settings created) = Some authMethod
      /\ (authMethod = Auth.USE_OPENAI_COMPATIBLE
          \/ authMethod = Auth.USE_LOCAL_LLM ->
          generator
          = Auth.Adapter _
              (Registry.OpenAICompatibleContentGenerator _
                 (Auth.settings created)))
      /\ (authMethod = Auth.USE_ANTHROPIC ->
          generator
          = Auth.Adapter _
              (Registry.AnthropicContentGenerator _ (Auth.settings created)))
      /\ (authMethod = Auth.USE_AZURE ->
          generator
          = Auth.Adapter _
              (Registry.AzureContentGenerator _
                 (Azure.constructed (Auth.settings created))))
      /\ (authMethod <> Auth.LOGIN_WITH_GOOGLE ->
          authMethod <> Auth.USE_VERTEX_AI ->
          truthy_ostr (cfg_apiKey (Auth.settings created)) = true).
Proof.
  intros DEFAULT getEff parseInt G reg env model getModel authMethod.
  unfold Auth.validateAuthMethod.
  destruct (String.eqb_spec authMethod Auth.LOGIN_WITH_GOOGLE) as [-> | _].
  { intros _. unfold Auth.createContentGeneratorConfig. decide_selectors.
    eexists _, _. split_and!; settle_selector. }
  destruct (String.eqb_spec authMethod Auth.USE_GEMINI) as [-> | _].
  { destruct (truthy_ostr (Auth.GEMINI_API_KEY env)) eqn:Hkey;
      [intros _ | discriminate].
    unfold Auth.createContentGeneratorConfig. decide_selectors.
    rewrite Hkey. cbn [andb]. eexists _, _. split_and!; settle_selector. }
  destruct (String.eqb_spec authMethod Auth.USE_AZURE) as [-> | _].
  { destruct (truthy_ostr (Auth.AZURE_API_KEY env)) eqn:Hkey;
      [| discriminate].
    destruct (truthy_ostr (Auth.AZURE_ENDPOINT_URL env)) eqn:Hurl;
      [| discriminate].
    destruct (truthy_ostr (Auth.AZURE_API_VERSION env)) eqn:Hversion;
      [intros _ | discriminate].
    unfold Auth.createContentGeneratorConfig. decide_selectors.
    rewrite Hkey, Hurl, Hversion. cbn [andb orb negb]. eexists _, _.
    split_and!; settle_selector. }
  destruct (String.eqb_spec authMethod Auth.USE_VERTEX_AI) as [-> | _].
  { intros _. unfold Auth.createContentGeneratorConfig. decide_selectors.
    cbn [andb].
    destruct (truthy_ostr (Auth.GOOGLE_API_KEY env)
              && truthy_ostr (Auth.GOOGLE_CLOUD_PROJECT env)
              && truthy_ostr (Auth.GOOGLE_CLOUD_LOCATION env));
      eexists _, _; split_and!; settle_selector. }
  destruct (String.eqb_spec authMethod Auth.USE_OPENAI_COMPATIBLE)
    as [-> | _].
  { destruct (truthy_ostr (Auth.OPENAI_API_KEY env)) eqn:Hkey;
      [intros _ | discriminate].
    unfold Auth.createContentGeneratorConfig. decide_selectors.
    rewrite Hkey. cbn [andb negb]. eexists _, _.
    split_and!; settle_selector. }
  destruct (String.eqb_spec authMethod Auth.USE_ANTHROPIC) as [-> | _].
  { destruct (truthy_ostr (Auth.ANTHROPIC_API_KEY env)) eqn:Hkey;
      [intros _ | discriminate].
    unfold Auth.createContentGeneratorConfig. decide_selectors.
    rewrite Hkey. cbn [andb negb]. eexists _, _.
    split_and!; settle_selector. }
  destruct (String.eqb_spec authMethod Auth.USE_LOCAL_LLM) as [-> | _];
    [| discriminate].
  intros _. unfold Auth.createContentGeneratorConfig. decide_selectors.
  cbn [andb]. eexists _, _. split_and!; settle_selector.
Qed.

(** The method [anthropic], with the key set. *)
Lemma validated_method_is_configured_witness :
  exists created generator,
    Auth.createContentGeneratorConfig Environments.DEFAULT_GEMINI_MODEL
      Environments.getEffectiveModel Environments.parseInt
      Environments.anthropic None (Some "anthropic") None
    = Ok created
    /\ Auth.createContentGenerator nat ∅ created = Ok generator.
Proof.
  destruct (validated_method_is_configured
              Environments.DEFAULT_GEMINI_MODEL
              Environments.getEffectiveModel Environments.parseInt
              nat ∅ Environments.anthropic None None "anthropic")
    as (created & generator & Hcreated & Hgenerator & _);
    [reflexivity |].
  by exists created, generator.
Defined.

(** X21: for the methods [openai-compatible], [anthropic] and
    [local-llm], the model of the configuration never has [gemini] in
    its name: a Gemini model name, whether it comes from the runtime
    configuration, the parameter or the default, is replaced by a model
    of the provider.  The base URL of the configuration is never
    missing or empty: the variable [CUSTOM_BASE_URL], or else the
    default of the provider. *)
Theorem custom_provider_configuration :
  forall (DEFAULT_GEMINI_MODEL : string)
         (getEffectiveModel : string -> string -> string)
         (parseInt : string -> option Z)
         (env : Auth.Env) (model getModel : option string)
         (authType : string) (created : Auth.CreatedConfig),
    authType = Auth.USE_OPENAI_COMPATIBLE
    \/ authType = Auth.USE_ANTHROPIC
    \/ authType = Auth.USE_LOCAL_LLM ->
    Auth.createContentGeneratorConfig DEFAULT_GEMINI_MODEL
      getEffectiveModel parseInt env model (Some authType) getModel
    = Ok created ->
    Auth.includes "gemini" (cfg_model (Auth.settings created)) = false
    /\ truthy_ostr (cfg_baseUrl (Auth.settings created)) = true
    /\ (Auth.includes "gemini"
          (or_str getModel (or_str model DEFAULT_GEMINI_MODEL)) = false ->
        cfg_model (Auth.settings created)
        = or_str getModel (or_str model DEFAULT_GEMINI_MODEL)).
Proof.
  intros DEFAULT getEff parseInt env model getModel authType created Htype.
  unfold Auth.createContentGeneratorConfig.
  set (effectiveModel := or_str getModel (or_str model DEFAULT)).
  destruct Htype as [-> | [-> | ->]]; decide_selectors; cbn [andb].
  - destruct (truthy_ostr (Auth.OPENAI_API_KEY env)); [| discriminate].
    cbn [negb]. intros [= <-]. cbn [Auth.settings cfg_model cfg_baseUrl].
    split_and!; [| by apply truthy_ostr_or_str |].
    + by destruct (Auth.includes "gemini" effectiveModel) eqn:Hgemini.
    + by intros ->.
  - destruct (truthy_ostr (Auth.ANTHROPIC_API_KEY env)); [| discriminate].
    cbn [negb]. intros [= <-]. cbn [Auth.settings cfg_model cfg_baseUrl].
    split_and!; [| by apply truthy_ostr_or_str |].
    + by destruct (Auth.includes "gemini" effectiveModel) eqn:Hgemini.
    + by intros ->.
  - intros [= <-]. cbn [Auth.settings cfg_model cfg_baseUrl].
    split_and!; [| by apply truthy_ostr_or_str |].
    + by destruct (Auth.includes "gemini" effectiveModel) eqn:Hgemini.
    + by intros ->.
Qed.

(** The method [anthropic] with the default model, a Gemini model. *)
Lemma custom_provider_configuration_witness :
  Auth.includes "gemini"
    (cfg_model
       (Auth.settings
          {| Auth.settings :=
               {| cfg_model := "claude-sonnet-4-20250514";
                  cfg_apiKey := Some "sk-ant";
                  cfg_authType := Some "anthropic";
                  cfg_baseUrl := Some "https://api-key.info";
                  cfg_apiVersion := None; cfg_timeout := None |};
             Auth.vertexai := None |}))
  = false.
Proof.
  refine (proj1 (custom_provider_configuration
                   Environments.DEFAULT_GEMINI_MODEL
                   Environments.getEffectiveModel Environments.parseInt
                   Environments.anthropic None None "anthropic" _ _ _)).
  - right; left. reflexivity.
  - reflexivity.
Defined.

(* ===================================================================== *)
(** * Properties of the non-streaming calls *)
(* ===================================================================== *)

Section CompleteMessages.
Context `{JSRuntime Part}.

(** Outside a stream, a conversion that returns, returns a response. *)
Lemma convertFromOpenAIFormat_complete data acc idx acc' idx' :
  OpenAI.convertFromOpenAIFormat data false acc idx
  <> (acc', idx', Ok None).
Proof.
  unfold OpenAI.convertFromOpenAIFormat.
  destruct (OpenAI.as_data data) as [d |]; [| discriminate].
  destruct (OpenAI.d_choice0 d) as [choice |]; [| discriminate].
  destruct (match OpenAI.c_message choice with
            | Some m => _
            | None => _
            end) as [st completed].
  destruct (negb completed); discriminate.
Qed.

(** What a conversion throws: a [TypeError], or the error for a
    document without choices. *)
Lemma convertFromOpenAIFormat_throws data isStream acc idx acc' idx' e :
  OpenAI.convertFromOpenAIFormat data isStream acc idx
  = (acc', idx', Throw e) ->
  e = "TypeError" \/ e = "No choices in response".
Proof.
  unfold OpenAI.convertFromOpenAIFormat.
  destruct (OpenAI.as_data data) as [d |]; [| intros [= _ _ <-]; by left].
  destruct (OpenAI.d_choice0 d) as [choice |];
    [| intros [= _ _ <-]; by right].
  destruct (match (if isStream then _ else _) with
            | Some m => _
            | None => _
            end) as [st completed].
  destruct (negb completed); [intros [= _ _ <-]; by left |].
  by destruct (_ && _).
Qed.

Lemma content_loop_blocks blocks t calls :
  Anthropic.content_loop (map Some blocks) t calls
  = Some (t +:+ block_text blocks, calls ++ block_calls blocks).
Proof.
  revert t calls. induction blocks as [| block blocks IH]; intros t calls.
  - simpl. unfold block_text, block_calls. simpl.
    by rewrite append_nil_r, app_nil_r.
  - cbn [map Anthropic.content_loop]. unfold block_text, block_calls.
    cbn [List.filter].
    destruct (bool_decide (Anthropic.cb_type block = Some "text")).
    + rewrite IH. cbn [negb andb map joined foldr].
      by rewrite append_assoc.
    + cbn [negb andb].
      destruct (bool_decide (Anthropic.cb_type block = Some "tool_use"));
        rewrite IH; [| reflexivity].
      cbn [map]. by rewrite <- app_assoc.
Qed.
End CompleteMessages.

(** X22: [generateContent] of the OpenAI-compatible adapter, when
    [fetch] rejects, throws what [fetch] rejected with; when [fetch]
    resolves to a response that is not OK, it throws
    [HTTP <status>: <statusText>] whatever the body holds; when the body
    of an OK response does not parse, it throws the syntax error.  It
    never throws [Failed to convert OpenAI response]: outside a stream
    the conversion returns a response or throws. *)
Theorem openai_generateContent_failures :
  forall (rt : JSRuntime Part) (config : ContentGeneratorConfig)
         (fetch : string -> OpenAI.OpenAIRequest
                  -> exc string Http.Response)
         (request : GenerateContentParameters),
    match fetch (spliced (cfg_baseUrl config) +:+ "/chat/completions")
            (OpenAI.convertToOpenAIFormat config request) with
    | Throw e => Calls.generateContent config fetch request = Throw e
    | Ok response =>
        (Http.ok response = false ->
         Calls.generateContent config fetch request
         = Throw ("HTTP " +:+ dec_Z (Http.status response) +:+ ": "
                  +:+ Http.statusText response))
        /\ (Http.ok response = true ->
            JSON_parse (Http.body response) = None ->
            Calls.generateContent config fetch request
            = Throw "SyntaxError")
        /\ Calls.generateContent config fetch request
           <> Throw "Failed to convert OpenAI response"
    end.
Proof.
  intros rt config fetch request. unfold Calls.generateContent.
  destruct (fetch _ _) as [e | response]; [reflexivity |].
  split_and!.
  - by intros ->.
  - by intros -> ->.
  - destruct (Http.ok response); cbn [negb]; [| discriminate].
    destruct (JSON_parse (Http.body response)) as [data |]; [| discriminate].
    pose proof (convertFromOpenAIFormat_complete data None None) as Hsome.
    pose proof (convertFromOpenAIFormat_throws data false None None)
      as Hthrows.
    destruct (OpenAI.convertFromOpenAIFormat data false None None)
      as [[acc idx] [e | [result |]]]; [| discriminate |].
    + by destruct (Hthrows acc idx e eq_refl) as [-> | ->].
    + by destruct (Hsome acc idx).
Qed.

(** The non-streaming loop yields the calls of the message. *)
Lemma single_shot_calls_message_calls `{JSRuntime Part}
    (toolCalls : list OpenAI.wire_tool_call) :
  single_shot_calls toolCalls = message_calls toolCalls.
Proof.
  unfold single_shot_calls, message_calls.
  match goal with |- _ = omap ?g _ => set (call_of := g) end.
  induction toolCalls as [| toolCall toolCalls IH]; [reflexivity |].
  cbn [flat_map omap list_omap]. fold (omap call_of toolCalls).
  rewrite IH. subst call_of. cbv beta.
  destruct (OpenAI.tc_function toolCall) as [fn |]; [| reflexivity].
  destruct (bool_decide (OpenAI.tc_type toolCall = Some "function"));
    [| reflexivity].
  cbn [app]. f_equal. unfold OpenAI.single_shot.
  destruct (OpenAI.fn_arguments fn) as [[| b | n | text | l | fs] |];
    try reflexivity.
  by destruct (JSON_parse text).
Qed.

(** X23: [generateContent] of the OpenAI-compatible adapter, on an OK
    response whose body parses to a completion with a message, returns
    one candidate with role [model]: its text is the content of the
    message (empty when that is missing), its finish reason that of the
    choice ([STOP] when that is missing), the token counts are those of
    the usage record ([0] where missing), and the function calls are
    those of the entries of [tool_calls] that have type [function] and a
    function, in order, each with the id of its entry, the name of its
    function and the parse of its argument text (the empty object when
    the text does not parse). *)
Theorem openai_generateContent_message :
  forall (rt : JSRuntime Part) (config : ContentGeneratorConfig)
         (fetch : string -> OpenAI.OpenAIRequest
                  -> exc string Http.Response)
         (request : GenerateContentParameters) (response : Http.Response)
         (data : json) (d : OpenAI.wire_data) (choice : OpenAI.wire_choice)
         (message : OpenAI.wire_message)
         (toolCalls : list OpenAI.wire_tool_call),
    fetch (spliced (cfg_baseUrl config) +:+ "/chat/completions")
      (OpenAI.convertToOpenAIFormat config request) = Ok response ->
    Http.ok response = true ->
    JSON_parse (Http.body response) = Some data ->
    OpenAI.as_data data = Some d ->
    OpenAI.d_choice0 d = Some choice ->
    OpenAI.c_message choice = Some message ->
    (OpenAI.m_tool_calls message = Some (map Some toolCalls)
     \/ (OpenAI.m_tool_calls message = None /\ toolCalls = [])) ->
    Calls.generateContent config fetch request
    = Ok {| candidates :=
              Some [{| content :=
                         Some {| role := Some "model";
                                 parts :=
                                   Some [text_part
                                           (or_str (OpenAI.m_content message)
                                              "")] |};
                       finishReason :=
                         Some (or_str (OpenAI.c_finish_reason choice) "STOP");
                       index := 0 |}];
            usageMetadata :=
              Some {| promptTokenCount :=
                        openai_tokens d OpenAI.prompt_tokens;
                      candidatesTokenCount :=
                        openai_tokens d OpenAI.completion_tokens;
                      totalTokenCount :=
                        openai_tokens d OpenAI.total_tokens |};
            response_text := Some (or_str (OpenAI.m_content message) "");
            functionCalls := Some (message_calls toolCalls) |}.
Proof.
  intros rt config fetch request response data d choice message toolCalls
    Hfetch Hok Hparse Hdata Hchoice Hmessage Hcalls.
  rewrite <- single_shot_calls_message_calls.
  unfold Calls.generateContent. rewrite Hfetch, Hok, Hparse. cbn [negb].
  unfold OpenAI.convertFromOpenAIFormat.
  rewrite Hdata, Hchoice, Hmessage.
  destruct Hcalls as [-> | [-> ->]].
  - by rewrite tool_call_loop_single_shot.
  - reflexivity.
Qed.

(** A completion whose message carries the call [search]. *)
Lemma openai_generateContent_message_witness :
  option_map functionCalls
    (match Calls.generateContent (H := Concrete.runtime) Concrete.config
             (Messages.resolves
                (Messages.ok_response Examples.openai_call_message))
             Scenario.system_request with
     | Ok result => Some result
     | Throw _ => None
     end)
  = Some (Some [{| fc_id := Some "c1"; fc_name := Some "search";
                   fc_args := Some (JObj [("q", JStr "cats")]) |}]).
Proof.
  rewrite (openai_generateContent_message Concrete.runtime Concrete.config
             (Messages.resolves
                (Messages.ok_response Examples.openai_call_message))
             Scenario.system_request
             (Messages.ok_response Examples.openai_call_message)
             (default JNull (parse_json Examples.openai_call_message))
             (default {| OpenAI.d_choice0 := None; OpenAI.d_usage := None |}
                (OpenAI.as_data
                   (default JNull
                      (parse_json Examples.openai_call_message))))
             {| OpenAI.c_delta := None;
                OpenAI.c_message :=
                  Some {| OpenAI.m_content := None;
                          OpenAI.m_tool_calls :=
                            Some [Some Examples.search_entry] |};
                OpenAI.c_finish_reason := Some "tool_calls" |}
             {| OpenAI.m_content := None;
                OpenAI.m_tool_calls := Some [Some Examples.search_entry] |}
             [Examples.search_entry]);
    [vm_compute; reflexivity | reflexivity | reflexivity
    | vm_compute; reflexivity | vm_compute; reflexivity
    | vm_compute; reflexivity | reflexivity | by left].
Defined.

(** X24: outside a stream, the Anthropic adapter turns a complete
    message into one response: its text is the concatenation of the
    texts of the [text] blocks, its function calls are those of the
    [tool_use] blocks, in order, blocks of other types are ignored, the
    finish reason is [tool_calls] for the stop reason [tool_use] and the
    stop reason itself otherwise ([STOP] when missing), and the total
    token count is the sum of the input and output counts.  The
    accumulator passed is returned as it is. *)
Theorem anthropic_complete_message :
  forall (data : json) (d : Anthropic.wire_data)
         (blocks : list Anthropic.wire_block)
         (acc : option Anthropic.ToolCallAccumulator),
    Anthropic.as_data data = Some d ->
    (Anthropic.d_content d = Some (map Some blocks)
     \/ (Anthropic.d_content d = None /\ blocks = [])) ->
    Anthropic.convertFromAnthropicFormat data false acc
    = (acc,
       Ok (Some
             {| candidates :=
                  Some [{| content :=
                             Some {| role := Some "model";
                                     parts :=
                                       Some [text_part (block_text blocks)] |};
                           finishReason :=
                             Some (if bool_decide
                                        (Anthropic.d_stop_reason d
                                         = Some "tool_use")
                                   then "tool_calls"
                                   else or_str (Anthropic.d_stop_reason d)
                                          "STOP");
                           index := 0 |}];
                usageMetadata :=
                  Some {| promptTokenCount :=
                            anthropic_tokens d Anthropic.input_tokens;
                          candidatesTokenCount :=
                            anthropic_tokens d Anthropic.output_tokens;
                          totalTokenCount :=
                            anthropic_tokens d Anthropic.input_tokens
                            + anthropic_tokens d Anthropic.output_tokens |};
                response_text := Some (block_text blocks);
                functionCalls := Some (block_calls blocks) |})).
Proof.
  intros data d blocks acc Hdata Hcontent.
  unfold Anthropic.convertFromAnthropicFormat. rewrite Hdata.
  assert (Hloop :
    Anthropic.content_loop (default [] (Anthropic.d_content d)) "" []
    = Some (block_text blocks, block_calls blocks)).
  { destruct Hcontent as [-> | [-> ->]]; [| reflexivity].
    change (default [] (Some (map Some blocks))) with (map Some blocks).
    by rewrite content_loop_blocks. }
  by rewrite Hloop.
Qed.

(** A message with a text block and a tool use. *)
Lemma anthropic_complete_message_witness :
  let result :=
    (Anthropic.convertFromAnthropicFormat
       (default JNull (parse_json Messages.anthropic_message)) false None).2 in
  option_map (fun r => (response_text r, functionCalls r))
    (match result with Ok r => r | Throw _ => None end)
  = Some (Some "Sure.",
          Some [{| fc_id := Some "t1"; fc_name := Some "lookup";
                   fc_args := Some (JObj [("x", JNum 1)]) |}]).
Proof.
  intros result. subst result.
  rewrite (anthropic_complete_message
             (default JNull (parse_json Messages.anthropic_message))
             (default
                {| Anthropic.d_type := None; Anthropic.d_index := None;
                   Anthropic.d_delta := None;
                   Anthropic.d_content_block := None;
                   Anthropic.d_content := None;
                   Anthropic.d_stop_reason := None;
                   Anthropic.d_usage := None |}
                (Anthropic.as_data
                   (default JNull (parse_json Messages.anthropic_message))))
             [{| Anthropic.cb_type := Some "text";
                 Anthropic.cb_text := Some "Sure."; Anthropic.cb_id := None;
                 Anthropic.cb_name := None; Anthropic.cb_input := None |};
              {| Anthropic.cb_type := Some "tool_use";
                 Anthropic.cb_text := None; Anthropic.cb_id := Some "t1";
                 Anthropic.cb_name := Some "lookup";
                 Anthropic.cb_input := Some (JObj [("x", JNum 1)]) |}]
             None);
    [reflexivity | vm_compute; reflexivity | left; vm_compute; reflexivity].
Defined.

(* ===================================================================== *)
(** * Further properties of the outbound request translation *)
(* ===================================================================== *)

Section HistoryFacts.
Context `{JSRuntime Part}.

Lemma normalizeContents_parts contents :
  Forall (fun content => is_Some (parts content))
    (normalizeContents contents).
Proof.
  destruct contents as [| items | c | s | p]; simpl.
  - constructor.
  - induction items as [| [c | p | s] items IH]; simpl; try assumption;
      [constructor |].
    destruct (parts c) eqn:Hparts; [| assumption].
    constructor; [by rewrite Hparts | assumption].
  - destruct (parts c) eqn:Hparts; repeat constructor. by rewrite Hparts.
  - destruct (truthy_str s); repeat constructor. by eexists.
  - destruct (text p), (inlineData p); repeat constructor; by eexists.
Qed.

Lemma normalizeContents_fixed (contents : list Content) :
  Forall (fun content => is_Some (parts content)) contents ->
  normalizeContents (ContentsArray (map ItemContent contents)) = contents.
Proof.
  intros Hall. induction Hall as [| c contents [ps Hps] Hall IH];
    [reflexivity |].
  unfold normalizeContents in *. cbn [map omap list_omap].
  rewrite Hps. cbn [omap list_omap] in IH. by rewrite IH.
Qed.

Lemma tool_result_found (ps : list Part) :
  existsb (fun part => match functionResponse part with
                       | Some _ => true
                       | None => false
                       end) ps = true ->
  omap functionResponse ps <> [].
Proof.
  induction ps as [| p ps IH]; simpl; [discriminate |].
  destruct (functionResponse p); [discriminate | exact IH].
Qed.

Lemma tool_result_absent (ps : list Part) :
  existsb (fun part => match functionResponse part with
                       | Some _ => true
                       | None => false
                       end) ps = false ->
  Forall (fun part => functionResponse part = None) ps.
Proof.
  induction ps as [| p ps IH]; simpl; [constructor |].
  destruct (functionResponse p) eqn:Hp; [discriminate |].
  intros Hrest. constructor; auto.
Qed.

Lemma tool_result_present (ps : list Part) :
  Forall (fun part => functionResponse part = None) ps ->
  existsb (fun part => match functionResponse part with
                       | Some _ => true
                       | None => false
                       end) ps = false.
Proof.
  induction 1 as [| p ps Hp Hps IH]; simpl; [reflexivity |].
  by rewrite Hp.
Qed.

(** The tool-result pass on one [Content]: it is left as it is, or it is
    a user [Content] with a tool result and becomes one text part. *)
Lemma tool_results_to_text_cases content :
  (Anthropic.tool_results_to_text content = content
   /\ (role content <> Some "user" \/ no_tool_result content))
  \/ (role content = Some "user"
      /\ ~ no_tool_result content
      /\ exists summary,
           Anthropic.tool_results_to_text content
           = {| role := role content;
                parts := Some [text_part summary] |}).
Proof.
  unfold Anthropic.tool_results_to_text, no_tool_result.
  destruct (parts content) as [ps |] eqn:Hparts;
    [| left; split; [reflexivity | right; constructor]].
  destruct (bool_decide_reflect (role content = Some "user")) as [Huser | Hnot];
    [| left; split; [reflexivity | by left]].
  cbn [andb default].
  destruct (existsb _ ps) eqn:Hexists.
  - pose proof (tool_result_found ps Hexists) as Hfound.
    destruct (omap functionResponse ps) as [| fr frs] eqn:Hresults;
      [done |].
    right. split_and!; [assumption | | by eexists].
    intros Hnone. apply tool_result_present in Hnone. simpl in Hnone.
    congruence.
  - left. split; [reflexivity |]. right. by apply tool_result_absent.
Qed.

Lemma tool_results_to_text_parts content :
  is_Some (parts content) ->
  is_Some (parts (Anthropic.tool_results_to_text content)).
Proof.
  intros Hsome.
  destruct (tool_results_to_text_cases content)
    as [[-> _] | (_ & _ & summary & ->)]; [assumption | by eexists].
Qed.

End HistoryFacts.

(** X25: every [Content] that [normalizeContents] returns has a list of
    parts, there are no more of them than the request has entries, and
    normalising is idempotent: what it returns, passed again as an
    array, comes back as it is. *)
Theorem normalizeContents_normal :
  forall (contents : ContentListUnion),
    Forall (fun content => is_Some (parts content))
      (normalizeContents contents)
    /\ (length (normalizeContents contents)
        <= match contents with
           | ContentsMissing => 0
           | ContentsArray items => length items
           | ContentsSingle _ | ContentsString _ | ContentsPart _ => 1
           end)%nat
    /\ normalizeContents
         (ContentsArray (map ItemContent (normalizeContents contents)))
       = normalizeContents contents.
Proof.
  intros contents. split_and!.
  - apply normalizeContents_parts.
  - destruct contents as [| items | c | s | p]; simpl; [lia | | | |].
    + induction items as [| [c | p | s] items IH];
        cbn [omap list_omap length] in *; try lia.
      destruct (parts c); cbn [length]; lia.
    + destruct (parts c); simpl; lia.
    + destruct (truthy_str s); simpl; lia.
    + destruct (text p), (inlineData p); simpl; lia.
  - apply normalizeContents_fixed, normalizeContents_parts.
Qed.

(** X26: the tool-result pass of the Anthropic adapter keeps the length
    of the history and the role of every [Content]; it leaves a
    [Content] as it is unless it has role [user] and a part that is a
    tool result; afterwards no user [Content] has a part that is a tool
    result; and the pass is idempotent. *)
Theorem anthropic_tool_result_pass :
  forall (rt : JSRuntime Part) (contents : list Content),
    let convert := Anthropic.convertToolResultsToTextForAnthropic in
    convert (convert contents) = convert contents
    /\ map role (convert contents) = map role contents
    /\ Forall (fun content =>
                 role content = Some "user" -> no_tool_result content)
         (convert contents)
    /\ Forall2 (fun before after =>
                  role before <> Some "user" \/ no_tool_result before ->
                  after = before)
         contents (convert contents).
Proof.
  intros rt contents convert. subst convert.
  unfold Anthropic.convertToolResultsToTextForAnthropic.
  induction contents as [| content contents (IH1 & IH2 & IH3 & IH4)];
    [by split_and!; constructor |].
  cbn [map]. rewrite IH1, IH2, tool_results_to_text_role.
  destruct (tool_results_to_text_cases content)
    as [[Hsame Hwhy] | (Huser & Hresult & summary & Hsummary)].
  - rewrite !Hsame. split_and!; [done | done | | by constructor].
    constructor; [| assumption].
    intros Huser. by destruct Hwhy.
  - rewrite Hsummary.
    assert (Hfixed :
      Anthropic.tool_results_to_text
        {| role := role content; parts := Some [text_part summary] |}
      = {| role := role content; parts := Some [text_part summary] |}).
    { unfold Anthropic.tool_results_to_text. simpl.
      by rewrite andb_false_r. }
    rewrite Hfixed. split_and!; [done | done | |].
    + constructor; [| assumption]. intros _. by repeat constructor.
    + constructor; [| assumption]. intros [Hnot | Hnone]; done.
Qed.

(** X27: a request for JSON that conforms to a schema carries the
    instruction in a different place for the two adapters.  The
    OpenAI-compatible adapter puts it in a [system] message in front of
    all messages.  The Anthropic adapter puts it as a text block in
    front of the blocks of the first message, when the first [Content]
    of the history has role [user]; when the history starts with
    another role, or is empty, the Anthropic request carries no
    instruction. *)
Theorem json_instruction_placement :
  forall (rt : JSRuntime Part) (config : ContentGeneratorConfig)
         (request : GenerateContentParameters) (schema : json),
    json_schema_request request = Some schema ->
    let history :=
      Anthropic.convertToolResultsToTextForAnthropic
        (normalizeContents (contents request)) in
    OpenAI.req_messages (OpenAI.convertToOpenAIFormat config request)
    = {| OpenAI.msg_role := Some "system";
         OpenAI.msg_content := jsonInstruction schema |}
      :: map OpenAI.message_of_content (normalizeContents (contents request))
    /\ Anthropic.req_messages
         (Anthropic.convertToAnthropicFormat config request)
       = match history with
         | first :: rest =>
             if bool_decide (role first = Some "user")
             then {| Anthropic.msg_role := "user";
                     Anthropic.msg_content :=
                       Anthropic.TextBlock (jsonInstruction schema)
                       :: map Anthropic.block_of_part
                            (default [] (parts first)) |}
                  :: omap Anthropic.message_of_content rest
             else omap Anthropic.message_of_content history
         | [] => []
         end.
Proof.
  intros rt config request schema Hschema history. split.
  - rewrite openai_request_messages. by rewrite Hschema.
  - unfold Anthropic.convertToAnthropicFormat,
      Anthropic.convertContentsToAnthropicMessages.
    rewrite Hschema. cbn [Anthropic.req_messages]. fold history.
    assert (Hparts : Forall (fun content => is_Some (parts content)) history).
    { subst history.
      unfold Anthropic.convertToolResultsToTextForAnthropic.
      apply Forall_map.
      eapply Forall_impl; [apply normalizeContents_parts |].
      intros content. apply tool_results_to_text_parts. }
    destruct history as [| first rest]; [reflexivity |].
    apply Forall_cons in Hparts as [[ps Hps] _].
    unfold Anthropic.with_json_instruction. rewrite Hps.
    destruct (bool_decide_reflect (role first = Some "user")) as [Huser | _];
      [| reflexivity].
    cbn [omap list_omap]. rewrite anthropic_message_of_content.
    unfold has_parts, anthropic_role. cbn [parts role default].
    rewrite Huser. reflexivity.
Qed.

(** The request for colours: one user message. *)
Lemma json_instruction_placement_witness :
  Anthropic.req_messages
    (Anthropic.convertToAnthropicFormat (H := Concrete.runtime)
       Concrete.config Messages.json_request)
  = [{| Anthropic.msg_role := "user";
        Anthropic.msg_content :=
          [Anthropic.TextBlock
             (jsonInstruction (H := Concrete.runtime)
                (JObj [("type", JStr "array")]));
           Anthropic.TextBlock "List three colours."] |}].
Proof.
  exact (proj2 (json_instruction_placement Concrete.runtime Concrete.config
                  Messages.json_request (JObj [("type", JStr "array")])
                  eq_refl)).
Defined.

(* ===================================================================== *)
(** * Token counting and the model table *)
(* ===================================================================== *)

(** X28: the approximate token count is the length of the extracted
    text divided by four and rounded up: four times the count is at
    least the length and exceeds it by less than four.  A request
    without contents counts as [0] tokens, and a request whose contents
    are one string that is not empty counts the length of that
    string. *)
Theorem countTokens_bounds :
  forall (contents : ContentListUnion),
    let n :=
      Z.of_nat
        (String.length
           (Calls.extractTextFromContents (normalizeContents contents))) in
    (n <= 4 * Calls.countTokens contents < n + 4)
    /\ Calls.countTokens ContentsMissing = 0
    /\ (forall c r,
          4 * Calls.countTokens (ContentsString (String c r)) - 4
          < Z.of_nat (String.length (String c r))
          <= 4 * Calls.countTokens (ContentsString (String c r))).
Proof.
  assert (Hceil : forall n, n <= 4 * Calls.Math_ceil n 4 < n + 4).
  { intros n. unfold Calls.Math_ceil.
    pose proof (Z.div_mod (- n) 4 ltac:(lia)).
    pose proof (Z.mod_pos_bound (- n) 4 ltac:(lia)). lia. }
  intros contents n. subst n. split; [| split].
  - unfold Calls.countTokens. apply Hceil.
  - reflexivity.
  - intros c r. unfold Calls.countTokens.
    change (Calls.extractTextFromContents
              (normalizeContents (ContentsString (String c r))))
      with (String c r).
    pose proof (Hceil (Z.of_nat (String.length (String c r)))). lia.
Qed.

Section TableFacts.
Import ClaudeModels.

Lemma find_some_valid (models : list ClaudeModel) (n : string) :
  existsb (fun model => String.eqb (name model) n) models = true
  <-> exists model,
        List.find (fun model => String.eqb (name model) n) models
        = Some model
        /\ name model = n /\ In model models.
Proof.
  induction models as [| m models IH]; simpl.
  - split; [discriminate | by intros (model & Hfind & _)].
  - destruct (String.eqb_spec (name m) n) as [Hname | Hname]; simpl.
    + split; [| done]. intros _. exists m. auto.
    + rewrite IH. split; intros (model & Hfind & Hn & Hin); exists model;
        split_and!; auto.
      destruct Hin as [-> | Hin]; [done | assumption].
Qed.
End TableFacts.

(** X29: in the table of Claude models, every model is found by its
    name: the names are pairwise distinct.  A name is valid exactly when
    a model is found for it, and the model found has that name and is in
    the table.  The default model is the model found for
    [claude-sonnet-4-20250514], which is in the table. *)
Theorem claude_model_lookup :
  Forall (fun model =>
            ClaudeModels.findClaudeModel (ClaudeModels.name model)
            = Some model)
    ClaudeModels.getAvailableClaudeModels
  /\ NoDup (map ClaudeModels.name ClaudeModels.getAvailableClaudeModels)
  /\ (forall n,
        ClaudeModels.isValidClaudeModel n = true
        <-> exists model,
              ClaudeModels.findClaudeModel n = Some model
              /\ ClaudeModels.name model = n
              /\ In model ClaudeModels.getAvailableClaudeModels)
  /\ ClaudeModels.getDefaultClaudeModel
     = ClaudeModels.findClaudeModel "claude-sonnet-4-20250514"
  /\ is_Some ClaudeModels.getDefaultClaudeModel.
Proof.
  split_and!.
  - repeat constructor.
  - unfold ClaudeModels.getAvailableClaudeModels, ClaudeModels.CLAUDE_MODELS.
    cbn [map ClaudeModels.name].
    repeat (constructor;
            [intros Hin;
             repeat (apply elem_of_cons in Hin as [Hin | Hin];
                     [discriminate |]);
             by apply elem_of_nil in Hin |]).
    constructor.
  - intros n. apply find_some_valid.
  - reflexivity.
  - by eexists.
Qed.

(** X30: when the model configured for the method [anthropic] is a
    Gemini model, the model put in its place is the default model of the
    table of Claude models, and so a valid Claude model. *)
Theorem anthropic_replacement_is_default_claude_model :
  forall (DEFAULT_GEMINI_MODEL : string)
         (getEffectiveModel : string -> string -> string)
         (parseInt : string -> option Z)
         (env : Auth.Env) (model getModel : option string)
         (created : Auth.CreatedConfig),
    Auth.includes "gemini"
      (or_str getModel (or_str model DEFAULT_GEMINI_MODEL)) = true ->
    Auth.createContentGeneratorConfig DEFAULT_GEMINI_MODEL
      getEffectiveModel parseInt env model (Some Auth.USE_ANTHROPIC)
      getModel
    = Ok created ->
    ClaudeModels.findClaudeModel (cfg_model (Auth.settings created))
    = ClaudeModels.getDefaultClaudeModel
    /\ ClaudeModels.isValidClaudeModel (cfg_model (Auth.settings created))
       = true.
Proof.
  intros DEFAULT getEff parseInt env model getModel created Hgemini.
  unfold Auth.createContentGeneratorConfig. decide_selectors. cbn [andb].
  destruct (truthy_ostr (Auth.ANTHROPIC_API_KEY env)); [| discriminate].
  cbn [negb]. rewrite Hgemini. intros [= <-]. by split.
Qed.

(** The method [anthropic] with the default model, a Gemini model. *)
Lemma anthropic_replacement_is_default_claude_model_witness :
  ClaudeModels.findClaudeModel "claude-sonnet-4-20250514"
  = ClaudeModels.getDefaultClaudeModel.
Proof.
  exact (proj1 (anthropic_replacement_is_default_claude_model
                  Environments.DEFAULT_GEMINI_MODEL
                  Environments.getEffectiveModel Environments.parseInt
                  Environments.anthropic None None
                  {| Auth.settings :=
                       {| cfg_model := "claude-sonnet-4-20250514";
                          cfg_apiKey := Some "sk-ant";
                          cfg_authType := Some "anthropic";
                          cfg_baseUrl := Some "https://api-key.info";
                          cfg_apiVersion := None; cfg_timeout := None |};
                     Auth.vertexai := None |}
                  eq_refl eq_refl)).
Defined.
